(** * fast-agent: the evaluator-optimizer refinement loop and the passthrough LLM

    A shallow embedding of

    - [src/mcp_agent/workflows/evaluator_optimizer/evaluator_optimizer.py]
      ([QualityRating], [EvaluationResult], [EvaluatorOptimizerLLM.generate],
      [_build_eval_prompt], [_build_refinement_prompt]) and
    - [src/mcp_agent/workflows/llm/augmented_llm_passthrough.py]
      ([PassthroughLLM.generate], [generate_str], [_parse_tool_command],
      [_call_tool_and_return_result], [_apply_prompt_provider_specific]).

    Python [str] values are modelled as [string]: sequences of characters
    whose code point is below 256.  Python [int] is [Z].  Calls to the
    collaborators (generator LLM, evaluator LLM, tool aggregator) are
    threaded through an explicit world, in a small state-and-exception
    monad. *)

From Stdlib Require Import ZArith List String Ascii Bool Lia.
From Stdlib Require Import DecimalString.
From Stdlib Require Import Sorted.
Import ListNotations.

Local Open Scope list_scope.
Set Warnings "-register-all".

(* ===================================================================== *)
(** * Python string primitives *)
(* ===================================================================== *)

Module PyStr.

(** [str.startswith]. *)
Definition startswith (s pre : string) : bool := String.prefix pre s.

(** [sep.join(parts)]. *)
Fixpoint join (sep : string) (parts : list string) : string :=
  match parts with
  | [] => EmptyString
  | [p] => p
  | p :: rest => (p ++ sep ++ join sep rest)%string
  end.

(** [str(n)] for an [int]. *)
Definition str_int (n : Z) : string := NilZero.string_of_int (Z.to_int n).

(** Drop the first [n] characters ([s[n:]]). *)
Fixpoint drop (n : nat) (s : string) : string :=
  match n, s with
  | O, _ => s
  | S _, EmptyString => EmptyString
  | S n', String _ s' => drop n' s'
  end.

(** [s.split(sep, 1)] for a non-empty [sep]: the text before the first
    occurrence of [sep] and the text after it, or [s] alone when [sep]
    does not occur. *)
Fixpoint split_once (sep : string) (s : string) : string * option string :=
  if String.prefix sep s then (EmptyString, Some (drop (String.length sep) s))
  else
    match s with
    | EmptyString => (EmptyString, None)
    | String c s' =>
        let '(hd, tl) := split_once sep s' in (String c hd, tl)
    end.

(** [s.split(sep, maxsplit)] for a non-empty [sep]. *)
Fixpoint split (sep : string) (maxsplit : nat) (s : string) : list string :=
  match maxsplit with
  | O => [s]
  | S m =>
      match split_once sep s with
      | (hd, None) => [hd]
      | (hd, Some tl) => hd :: split sep m tl
      end
  end.

(** [c.isspace()] on code points below 256: TAB, LF, VT, FF, CR, the
    separators 0x1c to 0x1f, the space, NEL (0x85) and NBSP (0xa0). *)
Definition isspace (c : ascii) : bool :=
  let n := nat_of_ascii c in
  ((9 <=? n) && (n <=? 13)) || ((28 <=? n) && (n <=? 32))
  || (n =? 133) || (n =? 160).

(** [s.lstrip()]. *)
Fixpoint lstrip (s : string) : string :=
  match s with
  | EmptyString => EmptyString
  | String c s' => if isspace c then lstrip s' else s
  end.

(** [s.rstrip()]. *)
Fixpoint rstrip (s : string) : string :=
  match s with
  | EmptyString => EmptyString
  | String c s' =>
      match rstrip s' with
      | EmptyString => if isspace c then EmptyString else String c EmptyString
      | r => String c r
      end
  end.

(** [s.strip()]. *)
Definition strip (s : string) : string := rstrip (lstrip s).

(** [bool(s)]: a string is truthy when it is not empty. *)
Definition truthy (s : string) : bool :=
  match s with EmptyString => false | _ => true end.

(** [t in s]. *)
Definition Substr (t s : string) : Prop :=
  exists pre post : string, s = (pre ++ t ++ post)%string.

End PyStr.

(* ===================================================================== *)
(** * Exceptions and the state-and-exception monad *)
(* ===================================================================== *)

(** [l[-1]]; [None] stands for the [IndexError] of an empty list. *)
Fixpoint last_item {A : Type} (l : list A) : option A :=
  match l with
  | [] => None
  | [x] => Some x
  | _ :: rest => last_item rest
  end.

(** The Python exceptions the files can meet, all of class
    [Exception]: what [except Exception] does not catch (a cancellation)
    is outside the model. *)
Inductive exn : Type :=
| ValueError (msg : string)
| AttributeError (msg : string)
| IndexError (msg : string)
| CollaboratorError (msg : string)
| TypeError (msg : string)
| RecursionError (msg : string)
| OSError (msg : string)
| ValidationError (msg : string).

(** [str(e)]. *)
Definition str_exn (e : exn) : string :=
  match e with
  | ValueError m | AttributeError m | IndexError m | CollaboratorError m
  | TypeError m | RecursionError m | OSError m | ValidationError m => m
  end.

(** What a Python call comes back with: a value or a raised exception. *)
Inductive result (A : Type) : Type :=
| Returned (a : A)
| Raised (e : exn).
Arguments Returned {A} a.
Arguments Raised {A} e.

(** The outcome of running a piece of the model: as [result], or the
    bound on the passes of a loop was too small ([generate_returns] below
    shows that [generate] never ends so). *)
Inductive outcome (A : Type) : Type :=
| Ok (a : A)
| Raise (e : exn)
| OutOfFuel.
Arguments Ok {A} a.
Arguments Raise {A} e.
Arguments OutOfFuel {A}.

Definition M (W A : Type) : Type := W -> outcome A * W.

Definition ret {W A} (a : A) : M W A := fun w => (Ok a, w).

Definition bind {W A B} (m : M W A) (k : A -> M W B) : M W B :=
  fun w =>
    match m w with
    | (Ok a, w') => k a w'
    | (Raise e, w') => (Raise e, w')
    | (OutOfFuel, w') => (OutOfFuel, w')
    end.

Definition raise {W A} (e : exn) : M W A := fun w => (Raise e, w).

Definition of_result {A} (r : result A) : outcome A :=
  match r with Returned a => Ok a | Raised e => Raise e end.

Definition lift_result {W A} (r : result A) : M W A := fun w => (of_result r, w).

Declare Scope py_scope.
Delimit Scope py_scope with py.
Notation "x <- m ;; k" := (bind m (fun x => k))
  (at level 61, m at next level, right associativity) : py_scope.
Notation "m ;;; k" := (bind m (fun _ => k))
  (at level 61, right associativity) : py_scope.

(* ===================================================================== *)
(** * evaluator_optimizer.py *)
(* ===================================================================== *)

Module EvaluatorOptimizer.

(** ** QualityRating

    [class QualityRating(str, Enum)] with members [POOR = 0] ...
    [EXCELLENT = 3].  Because of the [str] mix-in each member's [.value]
    is the string of its number, and the loop compares these strings. *)
Inductive QualityRating : Type := POOR | FAIR | GOOD | EXCELLENT.

Definition value (q : QualityRating) : string :=
  match q with
  | POOR => "0" | FAIR => "1" | GOOD => "2" | EXCELLENT => "3"
  end%string.

(** The integer the member was declared with. *)
Definition rank (q : QualityRating) : Z :=
  match q with
  | POOR => 0 | FAIR => 1 | GOOD => 2 | EXCELLENT => 3
  end%Z.

(** [a.value > b.value] and [a.value >= b.value] on Python strings. *)
Definition value_gt (a b : QualityRating) : bool :=
  String.ltb (value b) (value a).
Definition value_ge (a b : QualityRating) : bool :=
  String.leb (value b) (value a).

(** ** EvaluationResult *)
Record EvaluationResult : Type := {
  rating : QualityRating;
  feedback : string;
  needs_improvement : bool;
  focus_areas : list string
}.

(** ** Messages and responses

    [message: str | MessageParamT | List[MessageParamT]]; a generator
    answers with a list of messages or with a single object. *)
Inductive Message (P : Type) : Type :=
| MsgStr (s : string)
| MsgParam (p : P)
| MsgList (l : list P).
Arguments MsgStr {P} s.
Arguments MsgParam {P} p.
Arguments MsgList {P} l.

Inductive Response (T : Type) : Type :=
| RespList (l : list T)
| RespOther (x : T).
Arguments RespList {T} l.
Arguments RespOther {T} x.

(** The evaluator handed to [__init__]: free-text criteria (a [str]), an
    [Agent] or an [AugmentedLLM]; the last two carry an [instruction]. *)
Inductive Evaluator : Type :=
| EvaluatorCriteria (criteria : string)
| EvaluatorAgent (instruction : string)
| EvaluatorLLM (instruction : string).

(** What the loop needs from its collaborators.  [ext] is their state
    (conversation memory, connections, ...). *)
Class Collaborators : Type := {
  ext : Type;
  MessageParamT : Type;
  MessageT : Type;
  (** [str(p)] and [repr(p)] of a message parameter, [str(r)] of a
      response item *)
  str_param : MessageParamT -> string;
  repr_param : MessageParamT -> string;
  str_item : MessageT -> string;
  (** how an f-string renders a rating, [f"{feedback.rating}"] *)
  format_rating : QualityRating -> string;
  (** [self.generator_llm.generate(message=..., request_params=...)] *)
  generator_llm_generate :
    Message MessageParamT -> ext -> result (Response MessageT) * ext;
  (** [self.evaluator_llm.generate_structured(message=...,
      response_model=EvaluationResult, ...)] *)
  evaluator_llm_generate_structured :
    string -> ext -> result EvaluationResult * ext
}.

(** The fields of [self] that [generate] reads.  [history_enabled] is
    the truth value of [hasattr(self, "history") and self.history]. *)
Record EvaluatorOptimizerLLM : Type := {
  evaluator : Evaluator;
  min_rating : QualityRating;
  max_refinements : Z;
  history_enabled : bool
}.

Section Loop.
Context {C : Collaborators}.

Local Open Scope string_scope.

(** [str(message)]; a list prints as its items' [repr], in brackets. *)
Definition str_message (m : Message MessageParamT) : string :=
  match m with
  | MsgStr s => s
  | MsgParam p => str_param p
  | MsgList l => "[" ++ PyStr.join ", " (map repr_param l) ++ "]"
  end.

(** ["\n".join(str(r) for r in response) if isinstance(response, list)
    else str(response)] *)
Definition render_response (r : Response MessageT) : string :=
  match r with
  | RespList l => PyStr.join "
" (map str_item l)
  | RespOther x => str_item x
  end.

(** [self.evaluator.instruction]: a [str] has no such attribute. *)
Definition evaluator_instruction (self : EvaluatorOptimizerLLM)
  : result string :=
  match evaluator self with
  | EvaluatorCriteria _ =>
      Raised (AttributeError "'str' object has no attribute 'instruction'")
  | EvaluatorAgent i | EvaluatorLLM i => Returned i
  end.

(** *** _build_eval_prompt *)
Definition eval_prompt_tail : string := "
</fastagent:evaluation-criteria>
</fastagent:data>

<fastagent:instruction>
Provide a structured evaluation with the following components:

<rating>
Choose one: EXCELLENT, GOOD, FAIR, or POOR
- EXCELLENT: No improvements needed
- GOOD: Only minor improvements possible
- FAIR: Several improvements needed
- POOR: Major improvements needed
</rating>

<details>
Provide specific, actionable feedback and suggestions for improvement.
Be precise about what works well and what could be improved.
</details>

<needs_improvement>
Indicate true/false whether further improvement is needed.
</needs_improvement>

<focus-areas>
List 1-3 specific areas to focus on in the next iteration.
Be concrete and actionable in your recommendations.
</focus-areas>
</fastagent:instruction>
".

Definition _build_eval_prompt (self : EvaluatorOptimizerLLM)
    (original_request current_response : string) (iteration : Z)
  : result string :=
  match evaluator_instruction self with
  | Returned instruction =>
      Returned ("
You are an expert evaluator for content quality. Your task is to evaluate a response against the user's original request.

Evaluate the response for iteration " ++ PyStr.str_int (iteration + 1) ++ " and provide structured feedback on its quality and areas for improvement.

<fastagent:data>
<fastagent:request>
" ++ original_request ++ "
</fastagent:request>

<fastagent:response>
" ++ current_response ++ "
</fastagent:response>

<fastagent:evaluation-criteria>
" ++ instruction ++ eval_prompt_tail)
  | Raised e => Raised e
  end.

(** *** _build_refinement_prompt

    The source builds [prompt] by successive [prompt += ...]; the
    pieces below are those right-hand sides, in order. *)

(** the opening f-string *)
Definition refinement_opening (iteration : Z) : string := "
You are tasked with improving a response based on expert feedback. This is iteration " ++ PyStr.str_int (iteration + 1) ++ " of the refinement process.

Your goal is to address all feedback points while maintaining accuracy and relevance to the original request.
".

Definition data_opening : string := "
<fastagent:data>
".

Definition request_block (original_request : string) : string := "
<fastagent:request>
" ++ original_request ++ "
</fastagent:request>
".

Definition previous_response_block (current_response : string) : string := "
<fastagent:previous-response>
" ++ current_response ++ "
</fastagent:previous-response>
".

(** [", ".join(feedback.focus_areas) if feedback.focus_areas else
    "None specified"] *)
Definition focus_areas_field (fb : EvaluationResult) : string :=
  match focus_areas fb with
  | [] => "None specified"
  | _ :: _ => PyStr.join ", " (focus_areas fb)
  end.

Definition feedback_block (fb : EvaluationResult) : string := "
<fastagent:feedback>
<rating>" ++ format_rating (rating fb) ++ "</rating>
<details>" ++ feedback fb ++ "</details>
<focus-areas>" ++ focus_areas_field fb ++ "</focus-areas>
</fastagent:feedback>
</fastagent:data>
".

Definition instruction_without_history : string := "
<fastagent:instruction>
Create an improved version of the response that:
1. Directly addresses each point in the feedback
2. Focuses on the specific areas mentioned for improvement
3. Maintains all the strengths of the original response
4. Remains accurate and relevant to the original request

Provide your complete improved response without explanations or commentary.
</fastagent:instruction>
".

Definition instruction_with_history : string := "
<fastagent:instruction>
Your previous response is available in your conversation history.

Create an improved version that:
1. Directly addresses each point in the feedback
2. Focuses on the specific areas mentioned for improvement
3. Maintains all the strengths of your original response
4. Remains accurate and relevant to the original request

Provide your complete improved response without explanations or commentary.
</fastagent:instruction>
".

Definition _build_refinement_prompt (self : EvaluatorOptimizerLLM)
    (original_request current_response : string)
    (fb : EvaluationResult) (iteration : Z) : string :=
  let prompt := refinement_opening iteration in
  let prompt := prompt ++ data_opening in
  let prompt := prompt ++ request_block original_request in
  let prompt :=
    if negb (history_enabled self)
    then prompt ++ previous_response_block current_response
    else prompt in
  let prompt := prompt ++ feedback_block fb in
  let prompt :=
    if negb (history_enabled self)
    then prompt ++ instruction_without_history
    else prompt ++ instruction_with_history in
  prompt.

(** *** The world of one controller

    An entry of [self.refinement_history]: the dict with keys
    ["attempt"], ["response"] and ["evaluation_result"]. *)
Record RefinementRecord : Type := {
  attempt : Z;
  response : Response MessageT;
  evaluation_result : EvaluationResult
}.

(** What an observer of a run sees, in order: the calls to the two
    collaborators (with their argument), and the values of
    [best_rating] and [best_response] each time the "track best
        response" statement has run, beside the history at that moment.
    The trace is ghost state: the code does not read it. *)
Inductive event : Type :=
| GeneratorCall (message : Message MessageParamT)
| EvaluatorCall (prompt : string)
| Tracked (best_rating : QualityRating)
          (best_response : Response MessageT)
          (history : list RefinementRecord).

Record World : Type := {
  collaborators : ext;
  refinement_history : list RefinementRecord;
  trace : list event
}.

Definition log (ev : event) : M World unit :=
  fun w => (Ok tt, {| collaborators := collaborators w;
                      refinement_history := refinement_history w;
                      trace := trace w ++ [ev] |}).

(** Run a collaborator on its own state. *)
Definition on_collaborators {A} (f : ext -> result A * ext) : M World A :=
  fun w =>
    let '(r, x) := f (collaborators w) in
    (of_result r, {| collaborators := x;
           refinement_history := refinement_history w;
           trace := trace w |}).

Definition call_generator (message : Message MessageParamT)
  : M World (Response MessageT) :=
  (log (GeneratorCall message) ;;;
   on_collaborators (generator_llm_generate message))%py.

Definition call_evaluator (prompt : string) : M World EvaluationResult :=
  (log (EvaluatorCall prompt) ;;;
   on_collaborators (evaluator_llm_generate_structured prompt))%py.

(** [self.refinement_history = []] *)
Definition reset_history : M World unit :=
  fun w => (Ok tt, {| collaborators := collaborators w;
                      refinement_history := [];
                      trace := trace w |}).

(** [self.refinement_history.append(record)] *)
Definition append_history (r : RefinementRecord) : M World unit :=
  fun w => (Ok tt, {| collaborators := collaborators w;
                      refinement_history := refinement_history w ++ [r];
                      trace := trace w |}).

Definition get_history : M World (list RefinementRecord) :=
  fun w => (Ok (refinement_history w), w).

(** *** generate

    The local variables of [generate]. *)
Record Locals : Type := {
  refinement_count : Z;
  current_response : Response MessageT;
  best_response : Response MessageT;
  best_rating : QualityRating
}.

Inductive flow : Type := Continue | Break.

(** Lines 220-227: track the best response. *)
Definition track_best (l : Locals) (e : EvaluationResult) : Locals :=
  if value_gt (rating e) (best_rating l)
  then {| refinement_count := refinement_count l;
          current_response := current_response l;
          best_response := current_response l;
          best_rating := rating e |}
  else l.

(** Lines 230-233: the acceptance test. *)
Definition acceptable (self : EvaluatorOptimizerLLM) (e : EvaluationResult)
  : bool :=
  value_ge (rating e) (min_rating self) || negb (needs_improvement e).

(** One pass through the body of the [while] loop (lines 191-260). *)
Definition loop_body (self : EvaluatorOptimizerLLM)
    (message : Message MessageParamT) (l : Locals)
  : M World (flow * Locals) :=
  (eval_prompt <- lift_result
     (_build_eval_prompt self (str_message message)
        (render_response (current_response l)) (refinement_count l)) ;;
   evaluation_result <- call_evaluator eval_prompt ;;
   append_history {| attempt := refinement_count l + 1;
                     response := current_response l;
                     evaluation_result := evaluation_result |} ;;;
   let l := track_best l evaluation_result in
   history <- get_history ;;
   log (Tracked (best_rating l) (best_response l) history) ;;;
   if acceptable self evaluation_result then ret (Break, l)
   else
     let refinement_prompt :=
       _build_refinement_prompt self (str_message message)
         (render_response (current_response l)) evaluation_result
         (refinement_count l) in
     response <- call_generator (MsgStr refinement_prompt) ;;
     ret (Continue,
          {| refinement_count := refinement_count l + 1;
             current_response := response;
             best_response := best_response l;
             best_rating := best_rating l |}))%py.

(** [while refinement_count < self.max_refinements: ...], by recursion
    on a bound on the number of passes. *)
Fixpoint while_loop (fuel : nat) (self : EvaluatorOptimizerLLM)
    (message : Message MessageParamT) (l : Locals) : M World Locals :=
  if (refinement_count l <? max_refinements self)%Z then
    match fuel with
    | O => fun w => (OutOfFuel, w)
    | S fuel' =>
        (r <- loop_body self message l ;;
         match r with
         | (Break, l') => ret l'
         | (Continue, l') => while_loop fuel' self message l'
         end)%py
    end
  else ret l.

(** [generate] up to the [return]: the assignments of lines 168-172
    and the body of the [async with] block, with the locals when the loop
    is left.  Entering and leaving the agent contexts (lines 175-180)
    calls neither collaborator capability and is not modelled: what is
    shown of a run starts when the contexts have been entered and ends
    before they are left. *)
Definition generate_locals (self : EvaluatorOptimizerLLM)
    (message : Message MessageParamT) : M World Locals :=
  (reset_history ;;;
   response <- call_generator message ;;
   while_loop (Z.to_nat (max_refinements self)) self message
     {| refinement_count := 0;
        current_response := response;
        best_response := response;
        best_rating := POOR |})%py.

(** [EvaluatorOptimizerLLM.generate]. *)
Definition generate (self : EvaluatorOptimizerLLM)
    (message : Message MessageParamT) : M World (Response MessageT) :=
  (l <- generate_locals self message ;; ret (best_response l))%py.

(** A fresh observation of a controller: collaborators in state [x],
    [self.refinement_history] left at [h] by earlier calls, nothing
    observed yet. *)
Definition start (x : ext) (h : list RefinementRecord) : World :=
  {| collaborators := x; refinement_history := h; trace := [] |}.

(** Numbers of collaborator calls in a trace. *)
Definition is_generator_call (ev : event) : bool :=
  match ev with GeneratorCall _ => true | _ => false end.
Definition is_evaluator_call (ev : event) : bool :=
  match ev with EvaluatorCall _ => true | _ => false end.
Definition generator_calls (t : list event) : Z :=
  Z.of_nat (List.length (filter is_generator_call t)).
Definition evaluator_calls (t : list event) : Z :=
  Z.of_nat (List.length (filter is_evaluator_call t)).

(** [best_rating] is the maximum rating recorded in [h], and
    [best_response] is the candidate of the earliest record that has
    it: record number [i] has the rating, no record has a higher one,
    and every record before [i] has a lower one. *)
Definition best_is_earliest_max (best_rating : QualityRating)
    (best_response : Response MessageT) (h : list RefinementRecord)
  : Prop :=
  exists (i : nat) (r : RefinementRecord),
    nth_error h i = Some r /\
    rating (evaluation_result r) = best_rating /\
    response r = best_response /\
    (forall j r', nth_error h j = Some r' ->
                  (rank (rating (evaluation_result r')) <= rank best_rating)%Z) /\
    (forall j r', (j < i)%nat -> nth_error h j = Some r' ->
                  (rank (rating (evaluation_result r')) < rank best_rating)%Z).

(** The histories seen by the [Tracked] observations of a trace, and
    the histories an append-only list has gone through to reach [h]:
    its first record alone, its first two, ... and [h] itself. *)
Fixpoint tracked_histories (t : list event) : list (list RefinementRecord) :=
  match t with
  | [] => []
  | Tracked _ _ h :: t' => h :: tracked_histories t'
  | _ :: t' => tracked_histories t'
  end.

Definition nonempty_prefixes (h : list RefinementRecord)
  : list (list RefinementRecord) :=
  map (fun k => firstn k h) (seq 1 (List.length h)).

(** What holds of the locals at the head of the loop: before the first
    evaluation the best is the initial response with the floor rating
    POOR; afterwards it is the earliest maximum of the history. *)
Definition head_ok (l : Locals) (h : list RefinementRecord) : Prop :=
  (h = [] /\ best_rating l = POOR /\ best_response l = current_response l)
  \/ best_is_earliest_max (best_rating l) (best_response l) h.

(** The property every [Tracked] observation must have. *)
Definition tracked_ok (ev : event) : Prop :=
  match ev with
  | Tracked br bc h => best_is_earliest_max br bc h
  | _ => True
  end.

(** A world whose [Tracked] observations are all in order, one per
    record of the history. *)
Definition tracking_ok (w : World) : Prop :=
  Forall tracked_ok (trace w) /\
  tracked_histories (trace w) = nonempty_prefixes (refinement_history w).

End Loop.

(** ** A scripted pair of collaborators (test double)

    The evaluator hands out the evaluations of a script, one per call,
    and raises once the script is used up; the generator answers its
    n-th call with the text [candidate n].  The state is the rest of the
    script and the number of generator calls made. *)
Definition rating_name (q : QualityRating) : string :=
  match q with
  | POOR => "POOR" | FAIR => "FAIR" | GOOD => "GOOD" | EXCELLENT => "EXCELLENT"
  end%string.

Definition candidate (n : nat) : Response string :=
  RespOther ("candidate " ++ PyStr.str_int (Z.of_nat n))%string.

Definition scripted : Collaborators := {|
  ext := list EvaluationResult * nat;
  MessageParamT := string;
  MessageT := string;
  str_param := fun s => s;
  repr_param := fun s => ("'" ++ s ++ "'")%string;
  str_item := fun s => s;
  format_rating := rating_name;
  generator_llm_generate := fun _ '(script, n) =>
    (Returned (candidate (S n)), (script, S n));
  evaluator_llm_generate_structured := fun _ '(script, n) =>
    match script with
    | [] => (Raised (CollaboratorError "script exhausted"), (script, n))
    | e :: rest => (Returned e, (rest, n))
    end
|}.

(** An evaluation with the given rating that asks for improvement. *)
Definition improve (q : QualityRating) : EvaluationResult :=
  {| rating := q; feedback := "tighten the argument";
     needs_improvement := true; focus_areas := ["clarity"%string] |}.

(** The controller of the scenarios: defaults of [__init__] unless
    stated. *)
Definition controller (min : QualityRating) (max : Z) : EvaluatorOptimizerLLM :=
  {| evaluator := EvaluatorLLM "Rate the answer.";
     min_rating := min; max_refinements := max; history_enabled := false |}.

(** A run of [generate] on the request [task] against the scripted
    collaborators. *)
Definition scripted_run (self : EvaluatorOptimizerLLM)
    (script : list EvaluationResult)
  : outcome (Response string) * @World scripted :=
  @generate scripted self (MsgStr "task") (@start scripted (script, 0%nat) []).

Section Scenarios.
Context {C : Collaborators}.

(** The first evaluation of a run from collaborator state [x]: the
    initial generation returns [r1], the evaluation prompt for it is
    built and the evaluator answers it with [e1], leaving the
    collaborators in state [x2]. *)
Definition first_evaluation (self : EvaluatorOptimizerLLM)
    (message : Message MessageParamT) (x : ext)
    (r1 : Response MessageT) (e1 : EvaluationResult) (x2 : ext) : Prop :=
  exists x1 p1,
    generator_llm_generate message x = (Returned r1, x1) /\
    _build_eval_prompt self (str_message message) (render_response r1) 0
      = Returned p1 /\
    evaluator_llm_generate_structured p1 x1 = (Returned e1, x2).

(** A later evaluation, number [i + 1]: after response [r] drew the
    evaluation [e] in pass [i - 1], the generator answers the
    refinement prompt with [r'], and the evaluator answers the
    evaluation prompt for [r'] with [e']. *)
Definition next_evaluation (self : EvaluatorOptimizerLLM)
    (message : Message MessageParamT) (i : Z)
    (r : Response MessageT) (e : EvaluationResult) (x : ext)
    (r' : Response MessageT) (e' : EvaluationResult) (x' : ext) : Prop :=
  exists x1 p,
    generator_llm_generate
      (MsgStr (_build_refinement_prompt self (str_message message)
                 (render_response r) e (i - 1))) x = (Returned r', x1) /\
    _build_eval_prompt self (str_message message) (render_response r') i
      = Returned p /\
    evaluator_llm_generate_structured p x1 = (Returned e', x').

(** Scenario A: [min_rating = GOOD], [max_refinements = 3], and the
    evaluator rates the three candidates POOR, POOR, EXCELLENT, asking
    for improvement each time; [r3] is the candidate of iteration 3. *)
Definition scenario_A (self : EvaluatorOptimizerLLM)
    (message : Message MessageParamT) (x : ext) (r3 : Response MessageT)
  : Prop :=
  min_rating self = GOOD /\ max_refinements self = 3%Z /\
  exists r1 e1 x2 r2 e2 x4 e3 x6,
    first_evaluation self message x r1 e1 x2 /\
    next_evaluation self message 1 r1 e1 x2 r2 e2 x4 /\
    next_evaluation self message 2 r2 e2 x4 r3 e3 x6 /\
    rating e1 = POOR /\ needs_improvement e1 = true /\
    rating e2 = POOR /\ needs_improvement e2 = true /\
    rating e3 = EXCELLENT /\ needs_improvement e3 = true.

End Scenarios.

(** ** What a run leaves behind *)

Section Observations.
Context {C : Collaborators}.

(** The values of [best_rating] seen by the [Tracked] observations of a
    trace, in order. *)
Fixpoint tracked_ratings (t : list event) : list QualityRating :=
  match t with
  | [] => []
  | Tracked q _ _ :: t' => q :: tracked_ratings t'
  | _ :: t' => tracked_ratings t'
  end.

(** The order of the ratings, by rank. *)
Definition rating_le (a b : QualityRating) : Prop := (rank a <= rank b)%Z.

(** A record whose evaluation fails the acceptance test of lines
    230-233. *)
Definition unacceptable (self : EvaluatorOptimizerLLM) (r : RefinementRecord)
  : Prop :=
  acceptable self (evaluation_result r) = false.

(** The ratings tracked so far are in order and below [best_rating]. *)
Definition ratings_in_order (l : Locals) (w : World) : Prop :=
  StronglySorted rating_le (tracked_ratings (trace w)) /\
  Forall (fun q => rating_le q (best_rating l)) (tracked_ratings (trace w)).

(** The records are numbered 1, 2, ... in the order they were
    appended. *)
Definition attempts_numbered (h : list RefinementRecord) : Prop :=
  map attempt h = map Z.of_nat (seq 1 (List.length h)).

(** At the head of the loop: the count is the number of records, and
    the records are numbered. *)
Definition count_is_length (l : Locals) (w : World) : Prop :=
  refinement_count l = Z.of_nat (List.length (refinement_history w)) /\
  attempts_numbered (refinement_history w).

(** At the head of the loop a generation is waiting to be evaluated:
    one more generator call than evaluator calls, and one record per
    evaluator call. *)
Definition generation_pending (l : Locals) (w : World) : Prop :=
  generator_calls (trace w) = (evaluator_calls (trace w) + 1)%Z /\
  evaluator_calls (trace w) = Z.of_nat (List.length (refinement_history w)).

(** How the calls and the records relate at the end of a run. *)
Definition calls_alternate (o : outcome Locals) (w : World) : Prop :=
  (evaluator_calls (trace w) <= generator_calls (trace w)
     <= evaluator_calls (trace w) + 1)%Z /\
  (Z.of_nat (List.length (refinement_history w)) <= evaluator_calls (trace w)
     <= Z.of_nat (List.length (refinement_history w)) + 1)%Z /\
  match o with
  | Ok _ => evaluator_calls (trace w)
            = Z.of_nat (List.length (refinement_history w))
  | _ => True
  end.

(** The collaborator calls of a trace, in order: [true] for a call to
    the generator, [false] for a call to the evaluator. *)
Fixpoint call_kinds (t : list event) : list bool :=
  match t with
  | [] => []
  | GeneratorCall _ :: t' => true :: call_kinds t'
  | EvaluatorCall _ :: t' => false :: call_kinds t'
  | Tracked _ _ _ :: t' => call_kinds t'
  end.

(** [n] calls in turn, the generator first: call number [i], counting
    from 0, is to the generator exactly when [i] is even. *)
Definition turns (n : nat) : list bool := map Nat.even (seq 0 n).

(** At the head of the loop the calls so far were made in turn, and the
    last of them was to the generator. *)
Definition generator_called_last (l : Locals) (w : World) : Prop :=
  exists k : nat, call_kinds (trace w) = turns (2 * k + 1).

(** At the head of the loop no record so far was acceptable. *)
Definition still_refining (self : EvaluatorOptimizerLLM) (l : Locals) (w : World)
  : Prop :=
  refinement_count l = Z.of_nat (List.length (refinement_history w)) /\
  (refinement_count l <= Z.max 0 (max_refinements self))%Z /\
  Forall (unacceptable self) (refinement_history w) /\
  generator_calls (trace w)
    = (Z.of_nat (List.length (refinement_history w)) + 1)%Z.

(** The two ways a run returns: on the first acceptable evaluation,
    which is then the last record and is followed by no generation; or
    with [max_refinements] records (none, when it is negative), none
    acceptable, and one generation more than there are records. *)
Definition stopped_properly (self : EvaluatorOptimizerLLM) (w : World) : Prop :=
  (exists earlier r,
     refinement_history w = earlier ++ [r] /\
     Forall (unacceptable self) earlier /\
     acceptable self (evaluation_result r) = true /\
     generator_calls (trace w) = Z.of_nat (List.length (refinement_history w)))
  \/
  (Forall (unacceptable self) (refinement_history w) /\
   Z.of_nat (List.length (refinement_history w))
     = Z.max 0 (max_refinements self) /\
   generator_calls (trace w)
     = (Z.of_nat (List.length (refinement_history w)) + 1)%Z).

(** The exception of [self.evaluator.instruction] on a [str]. *)
Definition no_instruction : exn :=
  AttributeError "'str' object has no attribute 'instruction'".


(** The three data blocks and the iteration sentence that the
    evaluation prompt is expected to carry. *)
Definition eval_request_block (original_request : string) : string :=
  ("<fastagent:request>
" ++ original_request ++ "
</fastagent:request>")%string.

Definition eval_response_block (current_response : string) : string :=
  ("<fastagent:response>
" ++ current_response ++ "
</fastagent:response>")%string.

Definition eval_criteria_block (instruction : string) : string :=
  ("<fastagent:evaluation-criteria>
" ++ instruction ++ "
</fastagent:evaluation-criteria>")%string.

Definition eval_iteration_sentence (iteration : Z) : string :=
  ("Evaluate the response for iteration " ++ PyStr.str_int (iteration + 1)
   ++ " and provide structured feedback")%string.

(** The fixed text around them. *)
Definition eval_prompt_head : string := "
You are an expert evaluator for content quality. Your task is to evaluate a response against the user's original request.

".

Definition eval_prompt_data : string := " on its quality and areas for improvement.

<fastagent:data>
".

Definition eval_prompt_gap : string := "

".

Definition eval_prompt_rest : string := "
</fastagent:data>

<fastagent:instruction>
Provide a structured evaluation with the following components:

<rating>
Choose one: EXCELLENT, GOOD, FAIR, or POOR
- EXCELLENT: No improvements needed
- GOOD: Only minor improvements possible
- FAIR: Several improvements needed
- POOR: Major improvements needed
</rating>

<details>
Provide specific, actionable feedback and suggestions for improvement.
Be precise about what works well and what could be improved.
</details>

<needs_improvement>
Indicate true/false whether further improvement is needed.
</needs_improvement>

<focus-areas>
List 1-3 specific areas to focus on in the next iteration.
Be concrete and actionable in your recommendations.
</focus-areas>
</fastagent:instruction>
".

(** A controller whose evaluator was given as a criteria string. *)
Definition criteria_controller (max : Z) : EvaluatorOptimizerLLM :=
  {| evaluator := EvaluatorCriteria "Rate the answer.";
     min_rating := GOOD; max_refinements := max; history_enabled := false |}.

End Observations.

(** ** __init__ (lines 67-160)

    The arguments are taken at their annotated types: the generator is an
    [Agent] or an [AugmentedLLM], the evaluator a [str], an [Agent] or an
    [AugmentedLLM]; the two [Unsupported ... type] branches are for
    arguments outside them.  [LLM] is the type of the [AugmentedLLM]
    objects. *)

Section Construction.
Variable LLM : Type.
(** what an f-string shows of [llm.instruction]; the truth value of
    [llm.history] *)
Variable llm_instruction : LLM -> string.
Variable llm_history : LLM -> bool.

(** An [Agent]: its name, its instruction, and the LLM attached to it
    ([None] when it has no [_llm] attribute or a false one). *)
Record Agent : Type := {
  agent_name : string;
  agent_instruction : string;
  _llm : option LLM
}.

(** [Agent(name=..., instruction=...)] (line 151): the class [Agent] is
    defined outside this file, so what its constructor returns or raises
    for the two keyword arguments is a parameter. *)
Variable make_agent : string -> string -> result Agent.

Inductive GeneratorArg : Type :=
| GeneratorIsAgent (a : Agent)
| GeneratorIsLLM (name : string) (l : LLM).

Inductive EvaluatorArg : Type :=
| EvaluatorIsStr (criteria : string)
| EvaluatorIsAgent (a : Agent)
| EvaluatorIsLLM (l : LLM).

(** The attributes [__init__] sets that the rest of the class reads
    ([refinement_history], set to the empty list, is part of the world of
    the loop). *)
Record Constructed : Type := {
  self_name : string;
  self_generator_llm : LLM;
  self_evaluator : EvaluatorArg;
  self_evaluator_llm : LLM;
  self_min_rating : QualityRating;
  self_max_refinements : Z
}.

(** [llm_factory(agent=a)]; the state is the list of the agents the
    factory has been called with. *)
Definition call_factory (llm_factory : Agent -> result LLM) (a : Agent)
  : M (list Agent) LLM :=
  fun calls => (of_result (llm_factory a), calls ++ [a]).

(** The LLM of an agent: the one attached to it, or a new one from the
    factory; without a factory, the [ValueError] with the given text. *)
Definition llm_of_agent (llm_factory : option (Agent -> result LLM))
    (a : Agent) (complaint : string) : M (list Agent) LLM :=
  match llm_factory with
  | None => raise (ValueError complaint)
  | Some factory =>
      match _llm a with
      | Some l => ret l
      | None => call_factory factory a
      end
  end.

Definition __init__ (generator : GeneratorArg) (evaluator : EvaluatorArg)
    (min_rating : QualityRating) (max_refinements : Z)
    (llm_factory : option (Agent -> result LLM))
  : M (list Agent) Constructed :=
  (name <- ret (match generator with
                | GeneratorIsAgent a => agent_name a
                | GeneratorIsLLM n _ => n
                end) ;;
   generator_llm <-
     match generator with
     | GeneratorIsAgent a =>
         llm_of_agent llm_factory a "llm_factory is required when using an Agent"
     | GeneratorIsLLM _ l => ret l
     end ;;
   evaluator_llm <-
     match evaluator with
     | EvaluatorIsLLM l => ret l
     | EvaluatorIsAgent a =>
         llm_of_agent llm_factory a
           "llm_factory is required when using an Agent evaluator"
     | EvaluatorIsStr criteria =>
         match llm_factory with
         | None =>
             raise (ValueError "llm_factory is required when using a string evaluator")
         | Some factory =>
             a <- lift_result (make_agent "Evaluator" criteria) ;;
             call_factory factory a
         end
     end ;;
   ret {| self_name := name;
          self_generator_llm := generator_llm;
          self_evaluator := evaluator;
          self_evaluator_llm := evaluator_llm;
          self_min_rating := min_rating;
          self_max_refinements := max_refinements |})%py.

(** What [generate] and the prompt builders read of the object. *)
Definition controller_of (c : Constructed) : EvaluatorOptimizerLLM :=
  {| evaluator :=
       match self_evaluator c with
       | EvaluatorIsStr criteria => EvaluatorCriteria criteria
       | EvaluatorIsAgent a => EvaluatorAgent (agent_instruction a)
       | EvaluatorIsLLM l => EvaluatorLLM (llm_instruction l)
       end;
     min_rating := self_min_rating c;
     max_refinements := self_max_refinements c;
     history_enabled := llm_history (self_generator_llm c) |}.

(** Whether an argument is an LLM already. *)
Definition generator_is_llm (g : GeneratorArg) : bool :=
  match g with GeneratorIsLLM _ _ => true | _ => false end.
Definition evaluator_is_llm (e : EvaluatorArg) : bool :=
  match e with EvaluatorIsLLM _ => true | _ => false end.

(** The agents the factory has to be called with: an agent argument
    with no LLM attached, and the agent constructed for a criteria
    string. *)
Definition agents_to_build (generator : GeneratorArg) (evaluator : EvaluatorArg)
  : list Agent :=
  match generator with
  | GeneratorIsAgent a => match _llm a with None => [a] | Some _ => [] end
  | GeneratorIsLLM _ _ => []
  end ++
  match evaluator with
  | EvaluatorIsAgent a => match _llm a with None => [a] | Some _ => [] end
  | EvaluatorIsStr criteria =>
      match make_agent "Evaluator" criteria with
      | Returned a => [a]
      | Raised _ => []
      end
  | EvaluatorIsLLM _ => []
  end.

(** An agent the factory may be called with: an agent argument with no
    LLM attached, or the agent constructed for the criteria string. *)
Definition needs_llm (generator : GeneratorArg) (evaluator : EvaluatorArg)
    (a : Agent) : Prop :=
  (_llm a = None /\
   (generator = GeneratorIsAgent a \/ evaluator = EvaluatorIsAgent a)) \/
  (exists criteria, evaluator = EvaluatorIsStr criteria /\
                    make_agent "Evaluator" criteria = Returned a).

End Construction.

End EvaluatorOptimizer.

(* ===================================================================== *)
(** * augmented_llm_passthrough.py *)
(* ===================================================================== *)

Module Passthrough.

Local Open Scope string_scope.

Definition CALL_TOOL_INDICATOR : string := "***CALL_TOOL".
Definition FIXED_RESPONSE_INDICATOR : string := "***FIXED_RESPONSE".

(** The values [generate] and [generate_str] receive: a [str], a
    [PromptMessage] (its content parts, each with its [str]), another
    object, or a Python list of such values. *)
Inductive Value (O : Type) : Type :=
| VStr (s : string)
| VPromptMessage (content : list string)
| VObject (o : O)
| VList (items : list (Value O)).
Arguments VStr {O} s.
Arguments VPromptMessage {O} content.
Arguments VObject {O} o.
Arguments VList {O} items.

(** An item of a tool result's [content]: one with a [text] attribute,
    or another kind, shown by its [str]. *)
Inductive ContentItem : Type :=
| TextContent (text : string)
| OtherContent (str : string).

Record CallToolResult : Type := {
  isError : bool;
  content : list ContentItem
}.

(** What [json.loads(text)] ends with for a [str]: the value parsed, a
    [JSONDecodeError], or another exception (the [RecursionError] of a
    text that is nested too deeply, the [ValueError] of a number with too
    many digits, ...). *)
Inductive JsonResult (J : Type) : Type :=
| JsonValue (v : J)
| JsonDecodeError
| JsonRaises (e : exn).
Arguments JsonValue {J} v.
Arguments JsonDecodeError {J}.
Arguments JsonRaises {J} e.

(** The text of the format error of [_parse_tool_command]. *)
Definition format_complaint : string :=
  "Invalid format. Expected '***CALL_TOOL <tool_name> [arguments_json]'".

(** What the passthrough LLM needs from outside: [json.loads], the tool
    aggregator with its state, the accessors of [PromptMessageMultipart],
    and three calls into code that is not under src/: the two display
    methods of [AugmentedLLM] ([None] when they return, the exception
    when they raise), and [Prompt.assistant], which builds a reply from a
    text and may raise. *)
Class Host : Type := {
  tools : Type;
  Json : Type;
  Object : Type;
  PromptMessageMultipart : Type;
  json_loads : string -> JsonResult Json;
  (** what [json.loads] raises is its own: never the format error of
      [_parse_tool_command] *)
  json_loads_raises :
    forall text, json_loads text <> JsonRaises (ValueError format_complaint);
  aggregator_call_tool :
    string -> option Json -> tools -> result CallToolResult * tools;
  first_text : PromptMessageMultipart -> string;
  all_text : PromptMessageMultipart -> string;
  (** [str(v)] of a value that is neither a [str] nor a [PromptMessage] *)
  str_other : Value Object -> string;
  (** [self.show_user_message(message, ...)] and
      [await self.show_assistant_message(message, ...)] *)
  show_user_message : Value Object -> option exn;
  show_assistant_message : Value Object -> option exn;
  (** [Prompt.assistant(text)] *)
  Prompt_assistant : string -> result PromptMessageMultipart
}.

Section LLM.
Context {H : Host}.

(** The instance: [self._fixed_response], the aggregator behind
    [self.aggregator], and (ghost) the tool calls made so far. *)
Record World : Type := {
  _fixed_response : option string;
  aggregator : tools;
  tool_calls : list (string * option Json)
}.

(** [PassthroughLLM.__init__]: [self._fixed_response = None]. *)
Definition init (t : tools) : World :=
  {| _fixed_response := None; aggregator := t; tool_calls := [] |}.

(** *** generate (lines 38-45) *)
Definition generate (message : Value Object) : Value Object :=
  match message with
  | VList _ => VList [message]
  | _ => message
  end.

(** *** _parse_tool_command (lines 90-117)

    Only the [JSONDecodeError] of [json.loads] is caught. *)
Definition _parse_tool_command (command : string)
  : result (string * option Json) :=
  match PyStr.split " " 2 command with
  | [] | [_] =>
      Raised (ValueError
        "Invalid format. Expected '***CALL_TOOL <tool_name> [arguments_json]'")
  | [_; name] => Returned (PyStr.strip name, None)
  | _ :: name :: raw :: _ =>
      match json_loads raw with
      | JsonValue arguments => Returned (PyStr.strip name, Some arguments)
      | JsonDecodeError => Raised (ValueError ("Invalid JSON arguments: " ++ raw))
      | JsonRaises e => Raised e
      end
  end.

(** *** _format_tool_result (lines 119-147) *)
Definition item_text (c : ContentItem) : string :=
  match c with TextContent t => t | OtherContent s => s end.

Definition newline : string := "
".

Definition _format_tool_result (tool_name : string) (result : CallToolResult)
  : string :=
  if isError result then
    let error_text := map item_text (content result) in
    let error_message :=
      match error_text with
      | [] => "Unknown error"
      | _ :: _ => PyStr.join newline error_text
      end in
    "Error calling tool '" ++ tool_name ++ "': " ++ error_message
  else PyStr.join newline (map item_text (content result)).

(** [self.aggregator.call_tool(tool_name, arguments)] *)
Definition call_tool (tool_name : string) (arguments : option Json)
  : M World CallToolResult :=
  fun w =>
    let '(r, t) := aggregator_call_tool tool_name arguments (aggregator w) in
    (of_result r, {| _fixed_response := _fixed_response w;
           aggregator := t;
           tool_calls := tool_calls w ++ [(tool_name, arguments)] |}).

(** [try: ... except Exception as e: handler(e)] *)
Definition try_except {A} (body : M World A) (handler : exn -> M World A)
  : M World A :=
  fun w =>
    match body w with
    | (Raise e, w') => handler e w'
    | r => r
    end.

(** *** _call_tool_and_return_result (lines 72-88) *)
Definition _call_tool_and_return_result (command : string) : M World string :=
  try_except
    (parsed <- lift_result (_parse_tool_command command) ;;
     let '(tool_name, arguments) := parsed in
     result <- call_tool tool_name arguments ;;
     ret (_format_tool_result tool_name result))%py
    (fun e => ret ("Error calling tool: " ++ str_exn e)).

(** Lines 57-58: the two display calls, outside any [try]. *)
Definition display (message : Value Object) : M World unit :=
  fun w =>
    match show_user_message message with
    | Some e => (Raise e, w)
    | None =>
        match show_assistant_message message with
        | Some e => (Raise e, w)
        | None => (Ok tt, w)
        end
    end.

(** *** generate_str (lines 47-67) *)
Definition generate_str (message : Value Object) : M World string :=
  match message with
  | VStr s =>
      if PyStr.startswith s "***CALL_TOOL "
      then _call_tool_and_return_result s
      else (display message ;;; ret s)%py
  | VPromptMessage parts =>
      (display message ;;; ret (PyStr.join newline parts))%py
  | _ => (display message ;;; ret (str_other message))%py
  end.

(** *** is_tool_call (lines 189-190) *)
Definition is_tool_call (message : PromptMessageMultipart) : bool :=
  PyStr.startswith (first_text message) CALL_TOOL_INDICATOR.

(** [self._fixed_response = text] *)
Definition set_fixed_response (text : string) : M World unit :=
  fun w => (Ok tt, {| _fixed_response := Some text;
                      aggregator := aggregator w;
                      tool_calls := tool_calls w |}).

Definition get_fixed_response : M World (option string) :=
  fun w => (Ok (_fixed_response w), w).

(** [parts[1]] *)
Definition item1 (parts : list string) : result string :=
  match parts with
  | _ :: x :: _ => Returned x
  | _ => Raised (IndexError "list index out of range")
  end.

(** [return Prompt.assistant(text)] *)
Definition reply_with (text : string) : M World PromptMessageMultipart :=
  lift_result (Prompt_assistant text).

(** *** _apply_prompt_provider_specific (lines 167-187) *)
Definition _apply_prompt_provider_specific
    (multipart_messages : list PromptMessageMultipart)
  : M World PromptMessageMultipart :=
  match last_item multipart_messages with
  | None => raise (IndexError "list index out of range")
  | Some last_message =>
      if is_tool_call last_message then
        (r <- generate_str (VStr (first_text last_message)) ;;
         reply_with r)%py
      else
        ((if PyStr.startswith (first_text last_message)
               FIXED_RESPONSE_INDICATOR
          then
            rest <- lift_result
              (item1 (PyStr.split FIXED_RESPONSE_INDICATOR 1
                        (first_text last_message))) ;;
            set_fixed_response (PyStr.strip rest)
          else ret tt) ;;;
         fixed <- get_fixed_response ;;
         match fixed with
         | Some text =>
             if PyStr.truthy text then reply_with text
             else reply_with
                    (PyStr.join newline (map all_text multipart_messages))
         | None =>
             reply_with (PyStr.join newline (map all_text multipart_messages))
         end)%py
  end.

(** A request whose last message is neither a tool-invocation command
    nor a fixed-response command. *)
Definition is_command (message : PromptMessageMultipart) : bool :=
  PyStr.startswith (first_text message) CALL_TOOL_INDICATOR
  || PyStr.startswith (first_text message) FIXED_RESPONSE_INDICATOR.

Definition non_command (request : list PromptMessageMultipart) : Prop :=
  exists last_message,
    last_item request = Some last_message /\
    is_command last_message = false.

(** Serve requests one after the other through
    [_apply_prompt_provider_specific]; the replies, in order. *)
Fixpoint serve (requests : list (list PromptMessageMultipart)) (w : World)
  : list (outcome PromptMessageMultipart) * World :=
  match requests with
  | [] => ([], w)
  | r :: rest =>
      let '(o, w1) := _apply_prompt_provider_specific r w in
      let '(os, w2) := serve rest w1 in
      (o :: os, w2)
  end.

(** A request whose last message is not a fixed-response command
    (an empty request has no last message). *)
Definition no_fixed_command (request : list PromptMessageMultipart) : Prop :=
  forall m, last_item request = Some m ->
            PyStr.startswith (first_text m) FIXED_RESPONSE_INDICATOR = false.

End LLM.

(** Whether a character occurs in a string ([c in s]). *)
Fixpoint contains_char (c : ascii) (s : string) : bool :=
  match s with
  | EmptyString => false
  | String d s' => if Ascii.eqb c d then true else contains_char c s'
  end.

Section Replies.
Context {H : Host}.

(** What [Prompt.assistant(text)] gives as the reply to a request. *)
Definition reply_of (text : string) : outcome PromptMessageMultipart :=
  of_result (Prompt_assistant text).

(** The reply that echoes a request: [Prompt.assistant] of the texts
    of all its messages, one per line. *)
Definition echo (request : list PromptMessageMultipart)
  : outcome PromptMessageMultipart :=
  reply_of (PyStr.join newline (map all_text request)).

(** No fixed response is in force: none is stored, or an empty one. *)
Definition no_override (w : World) : Prop :=
  match _fixed_response w with
  | Some text => PyStr.truthy text = false
  | None => True
  end.

(** The tool calls a step has added. *)
Definition at_most_one_tool_call (w w' : World) : Prop :=
  tool_calls w' = tool_calls w \/
  exists name arguments,
    tool_calls w' = (tool_calls w ++ [(name, arguments)])%list.

End Replies.

(** How deeply lists are nested in a value. *)
Fixpoint depth {O : Type} (v : Value O) : nat :=
  match v with
  | VList items => S (list_max (map depth items))
  | _ => 0
  end.

(** [c * n]: the character [c], [n] times. *)
Fixpoint replicate (n : nat) (c : ascii) : string :=
  match n with
  | O => EmptyString
  | S n' => String c (replicate n' c)
  end.

(** The number of [[] characters a text starts with. *)
Fixpoint leading_brackets (s : string) : nat :=
  match s with
  | String c s' => if Ascii.eqb c "[" then S (leading_brackets s') else O
  | EmptyString => O
  end.

(** ** A small host (test double)

    Messages are their text.  [json.loads] accepts only the empty
    object; a text that opens more than a thousand arrays exhausts the
    recursion limit, and any other text is rejected with a
    [JSONDecodeError].  The aggregator counts its calls and answers
    [done].  The display calls reject a closing markup tag at the start of
    a text, and everything that is not a [str].  [Prompt.assistant] takes
    an empty text for the current directory and a text of 256 characters
    or more for a file name that is too long, and fails on both. *)
Definition demo_json_loads (s : string) : JsonResult unit :=
  if String.eqb s "{}" then JsonValue tt
  else if Nat.ltb 1000 (leading_brackets s)
  then JsonRaises
         (RecursionError
            "maximum recursion depth exceeded while decoding a JSON array from a unicode string")
  else JsonDecodeError.

Definition demo_json_loads_raises (text : string)
  : demo_json_loads text <> JsonRaises (ValueError format_complaint) :=
  match String.eqb text "{}" as b, Nat.ltb 1000 (leading_brackets text) as c
    return (if b then JsonValue tt
            else if c
            then JsonRaises
                   (RecursionError
                      "maximum recursion depth exceeded while decoding a JSON array from a unicode string")
            else JsonDecodeError)
           <> JsonRaises (ValueError format_complaint)
  with
  | true, _ => fun Heq => ltac:(discriminate Heq)
  | false, true => fun Heq => ltac:(discriminate Heq)
  | false, false => fun Heq => ltac:(discriminate Heq)
  end.

Definition demo_host : Host := {|
  tools := nat;
  Json := unit;
  Object := unit;
  PromptMessageMultipart := string;
  json_loads := demo_json_loads;
  json_loads_raises := demo_json_loads_raises;
  aggregator_call_tool := fun _ _ n =>
    (Returned {| isError := false; content := [TextContent "done"] |}, S n);
  first_text := fun s => s;
  all_text := fun s => s;
  str_other := fun _ => "<object>";
  show_user_message := fun v =>
    match v with
    | VStr s =>
        if String.prefix "[/" s
        then Some (CollaboratorError "closing tag '[/bold]' at position 0 doesn't match any open tag")
        else None
    | _ => Some (CollaboratorError "Unable to render the message")
    end;
  show_assistant_message := fun _ => None;
  Prompt_assistant := fun text =>
    if String.eqb text "" then Raised (OSError "[Errno 21] Is a directory: '.'")
    else if Nat.leb 256 (String.length text)
    then Raised (OSError "[Errno 36] File name too long")
    else Returned text
|}.

(** A tool command whose argument text opens two thousand arrays. *)
Definition deep_command : string := "***CALL_TOOL t " ++ replicate 2000 "[".

End Passthrough.

(* ===================================================================== *)
(** * mcp_content.py *)
(* ===================================================================== *)

Module McpContent.

Local Open Scope string_scope.

(** Python [bytes]. *)
Definition bytes : Type := list Byte.byte.

(** What [Path.read_text(encoding="utf-8")] ends with: the text, a
    [UnicodeDecodeError], or another exception. *)
Inductive TextRead : Type :=
| TextOk (text : string)
| TextUndecodable
| TextFails (e : exn).

(** What pydantic makes of the text handed to a [uri] field: the
    [AnyUrl], or a [ValidationError]. *)
Inductive UrlResult (U : Type) : Type :=
| UrlValue (u : U)
| UrlInvalid (msg : string).
Arguments UrlValue {U} u.
Arguments UrlInvalid {U} msg.

(** What the module takes from outside: [pathlib.Path] and the files
    behind it, the helpers of [mime_utils], [base64], and the [AnyUrl] of
    pydantic.  An exception of the file system is carried as it is
    ([CollaboratorError] for one that [exn] does not name). *)
Class Env : Type := {
  Path : Type;
  Annotations : Type;
  Other : Type;
  Url : Type;
  (** [Path(s)] and [str(path)] *)
  path_of_str : string -> Path;
  str_path : Path -> string;
  (** [path.exists()], which raises an [OSError] for a name the file
      system refuses *)
  path_exists : Path -> result bool;
  (** the validation of a [uri] field *)
  any_url : string -> UrlResult Url;
  (** [str(path.absolute())] *)
  absolute : Path -> string;
  (** [open(path, "rb").read()] and [path.read_bytes()] *)
  read_bytes : Path -> result bytes;
  (** [path.read_text(encoding="utf-8")] *)
  read_text : Path -> TextRead;
  guess_mime_type : string -> string;
  is_binary_content : string -> bool;
  is_image_mime_type : string -> bool;
  (** [base64.b64encode(data).decode("ascii")] *)
  b64encode : bytes -> string;
  (** [str(o)] of another object *)
  str_other : Other -> string
}.

Inductive Role : Type := user | assistant.

Section Content.
Context {E : Env}.

(** The MCP content types the module builds. *)
Inductive ResourceContents : Type :=
| BlobResourceContents (uri : Url) (blob mimeType : string)
| TextResourceContents (uri : Url) (text mimeType : string).

Inductive Content : Type :=
| TextContent (text : string) (annotations : option Annotations)
| ImageContent (data mimeType : string) (annotations : option Annotations)
| EmbeddedResource (resource : ResourceContents)
                   (annotations : option Annotations).

(** A Python [dict] with string keys, as the list of its items, a key at
    most once.  The values the module stores or looks at are a role, a
    content object, or something else. *)
Inductive DictValue : Type :=
| DRole (r : Role)
| DContent (c : Content)
| DOther (o : Other).

Definition Dict : Type := list (string * DictValue).

(** [key in d] and [d.get(key)]. *)
Definition has_key (key : string) (d : Dict) : bool :=
  existsb (fun kv => String.eqb key (fst kv)) d.

Definition get (key : string) (d : Dict) : option DictValue :=
  match find (fun kv => String.eqb key (fst kv)) d with
  | Some kv => Some (snd kv)
  | None => None
  end.

(** An item handed to [MCPPrompt]: a [dict], a [str], a [Path], [bytes],
    or any other object. *)
Inductive Item : Type :=
| ItemDict (d : Dict)
| ItemStr (s : string)
| ItemPath (p : Path)
| ItemBytes (b : bytes)
| ItemOther (o : Other).

(** A [path] argument, [Union[str, Path]], and [Path(path)]. *)
Inductive PathArg : Type :=
| PathStr (s : string)
| PathObj (p : Path).

Definition to_path (a : PathArg) : Path :=
  match a with
  | PathStr s => path_of_str s
  | PathObj p => p
  end.

(** [not mime_type] for an [Optional[str]]. *)
Definition no_mime (mime_type : option string) : bool :=
  match mime_type with
  | None => true
  | Some m => negb (PyStr.truthy m)
  end.

(** [mime_type or default]. *)
Definition mime_or (mime_type : option string) (default : string) : string :=
  match mime_type with
  | None => default
  | Some m => if PyStr.truthy m then m else default
  end.

(** The [dict] that the three constructors return. *)
Definition message (role : Role) (c : Content) : Dict :=
  [("role", DRole role); ("content", DContent c)].

(** *** MCPText (lines 27-46) *)
Definition MCPText (text : string) (role : Role)
    (annotations : option Annotations) : Dict :=
  message role (TextContent text annotations).

(** *** MCPImage (lines 49-90) *)
Definition MCPImage (path : option PathArg) (data : option bytes)
    (mime_type : option string) (role : Role)
    (annotations : option Annotations) : result Dict :=
  match path, data with
  | None, None => Raised (ValueError "Either path or data must be provided")
  | Some _, Some _ =>
      Raised (ValueError "Only one of path or data can be provided")
  | Some a, None =>
      let p := to_path a in
      let mime_type :=
        if no_mime mime_type then Some (guess_mime_type (str_path p))
        else mime_type in
      match read_bytes p with
      | Raised e => Raised e
      | Returned data =>
          Returned (message role
                      (ImageContent (b64encode data)
                         (mime_or mime_type "image/png") annotations))
      end
  | None, Some data =>
      Returned (message role
                  (ImageContent (b64encode data)
                     (mime_or mime_type "image/png") annotations))
  end.

(** *** MCPFile (lines 93-140)

    The [uri] is a text until [BlobResourceContents] or
    [TextResourceContents] validates it, after the file has been read. *)
Definition MCPFile (path : PathArg) (mime_type : option string) (role : Role)
    (annotations : option Annotations) : result Dict :=
  let p := to_path path in
  let uri := "file://" ++ absolute p in
  let mime_type :=
    if no_mime mime_type then guess_mime_type (str_path p)
    else mime_or mime_type "" in
  let blob (mime : string) : result Dict :=
    match read_bytes p with
    | Raised e => Raised e
    | Returned binary_data =>
        match any_url uri with
        | UrlInvalid msg => Raised (ValidationError msg)
        | UrlValue url =>
            Returned (message role
                        (EmbeddedResource
                           (BlobResourceContents url (b64encode binary_data) mime)
                           annotations))
        end
    end in
  if is_binary_content mime_type then blob mime_type
  else
    match read_text p with
    | TextOk text_data =>
        match any_url uri with
        | UrlInvalid msg => Raised (ValidationError msg)
        | UrlValue url =>
            Returned (message role
                        (EmbeddedResource
                           (TextResourceContents url text_data mime_type)
                           annotations))
        end
    | TextUndecodable =>
        blob (mime_or (Some mime_type) "application/octet-stream")
    | TextFails e => Raised e
    end.

(** *** MCPPrompt (lines 143-188)

    [str_dict] is [str(d)] of a [dict].  One pass of the loop gives the
    message for one item. *)
Variable str_dict : Dict -> string.

Definition message_of_item (item : Item) (role : Role) : result Dict :=
  let from_file (a : PathArg) (path_str : string) : result Dict :=
    if is_image_mime_type (guess_mime_type path_str)
    then MCPImage (Some a) None None role None
    else MCPFile a None role None in
  match item with
  | ItemDict d =>
      if has_key "role" d && has_key "content" d then Returned d
      else Returned (MCPText (str_dict d) role None)
  | ItemStr s =>
      match path_exists (path_of_str s) with
      | Raised e => Raised e
      | Returned false => Returned (MCPText s role None)
      | Returned true => from_file (PathStr s) s
      end
  | ItemPath p => from_file (PathObj p) (str_path p)
  | ItemBytes b => MCPImage None (Some b) None role None
  | ItemOther o => Returned (MCPText (str_other o) role None)
  end.

(** The [for] loop; [built] is the list [result] built so far. *)
Fixpoint prompt_loop (content_items : list Item) (role : Role)
    (built : list Dict) : result (list Dict) :=
  match content_items with
  | [] => Returned built
  | item :: rest =>
      match message_of_item item role with
      | Raised e => Raised e
      | Returned m => prompt_loop rest role (built ++ [m])%list
      end
  end.

Definition MCPPrompt (content_items : list Item) (role : Role)
  : result (list Dict) :=
  prompt_loop content_items role [].

(** *** User and Assistant (lines 191-198) *)
Definition User (content_items : list Item) : result (list Dict) :=
  MCPPrompt content_items user.

Definition Assistant (content_items : list Item) : result (list Dict) :=
  MCPPrompt content_items assistant.

(** *** create_message (lines 201-213); [{}] is the empty [dict]. *)
Definition create_message (content : Item) (role : Role) : result Dict :=
  match MCPPrompt [content] role with
  | Raised e => Raised e
  | Returned [] => Returned []
  | Returned (m :: _) => Returned m
  end.

(** A message that can be used in a prompt: it has a role and a
    content. *)
Definition well_formed (d : Dict) : Prop :=
  has_key "role" d = true /\ has_key "content" d = true.

(** An item that is a fully formed message already. *)
Definition is_message (item : Item) : option Dict :=
  match item with
  | ItemDict d => if has_key "role" d && has_key "content" d then Some d else None
  | _ => None
  end.

(** The message made for [item]: the item itself if it is a message,
    and otherwise a message with the role asked for. *)
Definition made_for (role : Role) (item : Item) (m : Dict) : Prop :=
  match is_message item with
  | Some d => m = d
  | None => exists c, m = message role c
  end.

(** Making a message of the file at [p] failed with [e]: reading the
    file raised [e], or [e] is the [ValidationError] of its URI. *)
Definition file_failed (p : Path) (e : exn) : Prop :=
  read_bytes p = Raised e \/
  read_text p = TextFails e \/
  exists msg, any_url ("file://" ++ absolute p) = UrlInvalid msg /\
              e = ValidationError msg.

(** An item failed with [e]: for a [str], the check whether it names an
    existing path raised [e], or it names one and the file failed; for a
    [Path], the file failed.  The other items do not fail. *)
Definition item_failed (item : Item) (e : exn) : Prop :=
  match item with
  | ItemStr s =>
      path_exists (path_of_str s) = Raised e \/
      (path_exists (path_of_str s) = Returned true /\
       file_failed (path_of_str s) e)
  | ItemPath p => file_failed p e
  | _ => False
  end.

(** The URI of a resource. *)
Definition uri_of (r : ResourceContents) : Url :=
  match r with
  | BlobResourceContents uri _ _ | TextResourceContents uri _ _ => uri
  end.

End Content.

(** ** A small environment (test double)

    Paths are their names; [notes.txt], [my notes.txt] and [logo.png]
    exist, the first two are text and the third does not decode.  A name
    of 256 characters or more is refused by the file system, and a URI
    has its spaces percent-encoded. *)
Fixpoint encode_spaces (s : string) : string :=
  match s with
  | EmptyString => EmptyString
  | String c rest =>
      if Ascii.eqb c " " then "%20" ++ encode_spaces rest
      else String c (encode_spaces rest)
  end.

Definition demo_env : Env := {|
  Path := string;
  Annotations := unit;
  Other := nat;
  Url := string;
  path_of_str := fun s => s;
  str_path := fun p => p;
  path_exists := fun p =>
    if Nat.leb 256 (String.length p)
    then Raised (OSError "[Errno 36] File name too long")
    else Returned (String.eqb p "notes.txt" || String.eqb p "my notes.txt"
                   || String.eqb p "logo.png");
  any_url := fun text => UrlValue (encode_spaces text);
  absolute := fun p => "/work/" ++ p;
  read_bytes := fun p =>
    if String.eqb p "notes.txt" || String.eqb p "my notes.txt"
    then Returned [Byte.x68; Byte.x69]
    else if String.eqb p "logo.png" then Returned [Byte.x89; Byte.x50]
    else Raised (CollaboratorError "No such file or directory");
  read_text := fun p =>
    if String.eqb p "notes.txt" || String.eqb p "my notes.txt" then TextOk "hi"
    else if String.eqb p "logo.png" then TextUndecodable
    else TextFails (CollaboratorError "No such file or directory");
  guess_mime_type := fun s =>
    if String.eqb s "logo.png" then "image/png" else "text/plain";
  is_binary_content := fun m => String.eqb m "image/png";
  is_image_mime_type := fun m => String.eqb m "image/png";
  b64encode := fun b => if Nat.eqb (List.length b) 0 then "" else "aGk=";
  str_other := fun n => PyStr.str_int (Z.of_nat n)
|}.

Definition demo_str_dict (d : @Dict demo_env) : string := "{...}".

(** Items of every kind: a text, a message, a text file, an image
    file, raw bytes, another object, and a [dict] that is no message. *)
Definition demo_items : list (@Item demo_env) :=
  [ItemStr "hello";
   ItemDict [("role", DRole assistant); ("content", @DOther demo_env 3%nat)];
   ItemStr "notes.txt";
   ItemPath ("logo.png" : @Path demo_env);
   ItemBytes [Byte.x68; Byte.x69];
   @ItemOther demo_env 7%nat;
   ItemDict [("role", DRole assistant)]].

Definition demo_messages : list (@Dict demo_env) :=
  Eval cbv in
    match MCPPrompt demo_str_dict demo_items user with
    | Returned messages => messages
    | Raised _ => []
    end.

Definition demo_missing : @Item demo_env := ItemPath ("missing.txt" : @Path demo_env).

(** A text of 256 characters. *)
Definition demo_long_text : @Item demo_env :=
  ItemStr (Passthrough.replicate 256 "a").

End McpContent.

(* ===================================================================== *)
(** * Facts about strings *)
(* ===================================================================== *)

Module PyStrFacts.
Import PyStr.
Local Open Scope string_scope.

Lemma append_assoc (a b c : string) : (a ++ b) ++ c = a ++ (b ++ c).
Proof. induction a as [|x a IH]; simpl; [reflexivity | now rewrite IH]. Qed.

Lemma append_nil_r (a : string) : a ++ "" = a.
Proof. induction a as [|x a IH]; simpl; [reflexivity | now rewrite IH]. Qed.

Lemma length_append (a b : string) :
  String.length (a ++ b) = (String.length a + String.length b)%nat.
Proof. induction a as [|x a IH]; simpl; [reflexivity | now rewrite IH]. Qed.

Lemma Substr_refl (s : string) : Substr s s.
Proof. exists "", "". simpl. now rewrite append_nil_r. Qed.

Lemma Substr_app_l (t a b : string) : Substr t a -> Substr t (a ++ b).
Proof.
  intros (pre & post & ->). exists pre, (post ++ b).
  now rewrite !append_assoc.
Qed.

Lemma Substr_app_r (t a b : string) : Substr t b -> Substr t (a ++ b).
Proof.
  intros (pre & post & ->). exists (a ++ pre), post.
  now rewrite !append_assoc.
Qed.

Lemma Substr_length (t s : string) :
  Substr t s -> (String.length t <= String.length s)%nat.
Proof. intros (pre & post & ->). rewrite !length_append. lia. Qed.

Lemma prefix_append (pre rest : string) : String.prefix pre (pre ++ rest) = true.
Proof.
  induction pre as [|c pre IH]; simpl.
  - now destruct rest.
  - destruct (Ascii.ascii_dec c c); [assumption | congruence].
Qed.

Lemma drop_append (pre rest : string) : drop (String.length pre) (pre ++ rest) = rest.
Proof. induction pre as [|c pre IH]; simpl; [reflexivity | assumption]. Qed.

(** [s.split(sep, 1)] on a string that starts with [sep]: an empty
    first part, then the remainder. *)
Lemma split_1_startswith (sep s : string) :
  startswith s sep = true ->
  split sep 1 s = [""; drop (String.length sep) s].
Proof.
  unfold startswith. intros Hp.
  destruct s as [|c s]; cbn [split split_once]; rewrite Hp; reflexivity.
Qed.

(** Joining is appending the items from left to right, each after the
    separator. *)
Lemma fold_left_append (sep : string) (rest : list string) (p q : string) :
  fold_left (fun acc x => acc ++ sep ++ x) rest (p ++ q)
  = p ++ fold_left (fun acc x => acc ++ sep ++ x) rest q.
Proof.
  revert q. induction rest as [|x rest IH]; intros q; cbn [fold_left].
  - reflexivity.
  - rewrite append_assoc. apply IH.
Qed.

Lemma join_fold_left (sep : string) (first : string) (rest : list string) :
  join sep (first :: rest)
  = fold_left (fun acc x => acc ++ sep ++ x) rest first.
Proof.
  revert first. induction rest as [|x rest IH]; intros first.
  - reflexivity.
  - change (join sep (first :: x :: rest))
      with (first ++ sep ++ join sep (x :: rest)).
    rewrite IH. cbn [fold_left].
    now rewrite !fold_left_append.
Qed.

Example join_three : join ", " ["a"; "b"; "c"] = "a, b, c".
Proof. reflexivity. Qed.

Example split_tool_command :
  split " " 2 "***CALL_TOOL srv-echo {a: b c}"
  = ["***CALL_TOOL"; "srv-echo"; "{a: b c}"].
Proof. reflexivity. Qed.

End PyStrFacts.

(* ===================================================================== *)
(** * Facts about the refinement loop *)
(* ===================================================================== *)

Module EvaluatorOptimizerFacts.
Import EvaluatorOptimizer.

(** The comparison of [.value] strings is the comparison of the ranks. *)
Lemma value_gt_rank (a b : QualityRating) :
  value_gt a b = (rank b <? rank a)%Z.
Proof. destruct a, b; reflexivity. Qed.

Lemma value_ge_rank (a b : QualityRating) :
  value_ge a b = (rank b <=? rank a)%Z.
Proof. destruct a, b; reflexivity. Qed.

Lemma rank_inj (a b : QualityRating) : rank a = rank b -> a = b.
Proof. destruct a, b; simpl; intros; congruence || lia. Qed.

Lemma rank_range (a : QualityRating) : (0 <= rank a <= 3)%Z.
Proof. destruct a; simpl; lia. Qed.

Section Facts.
Context {C : Collaborators}.

Lemma generator_calls_app (t1 t2 : list event) :
  generator_calls (t1 ++ t2) = (generator_calls t1 + generator_calls t2)%Z.
Proof.
  unfold generator_calls. rewrite filter_app, length_app. lia.
Qed.

Lemma evaluator_calls_app (t1 t2 : list event) :
  evaluator_calls (t1 ++ t2) = (evaluator_calls t1 + evaluator_calls t2)%Z.
Proof.
  unfold evaluator_calls. rewrite filter_app, length_app. lia.
Qed.

(** One pass of the loop body, with the monad unfolded: what it
    returns and the world it leaves, for each way it can end. *)
Lemma loop_body_eq self message l w :
  loop_body self message l w =
  match _build_eval_prompt self (str_message message)
          (render_response (current_response l)) (refinement_count l) with
  | Raised e => (Raise e, w)
  | Returned prompt =>
      let t0 := trace w ++ [EvaluatorCall prompt] in
      match evaluator_llm_generate_structured prompt (collaborators w) with
      | (Raised e, x1) =>
          (Raise e, {| collaborators := x1;
                       refinement_history := refinement_history w;
                       trace := t0 |})
      | (Returned ev, x1) =>
          let l1 := track_best l ev in
          let h1 := refinement_history w ++
                      [{| attempt := refinement_count l + 1;
                          response := current_response l;
                          evaluation_result := ev |}] in
          let t1 := t0 ++ [Tracked (best_rating l1) (best_response l1) h1] in
          if acceptable self ev then
            (Ok (Break, l1),
             {| collaborators := x1; refinement_history := h1; trace := t1 |})
          else
            let m := MsgStr (_build_refinement_prompt self (str_message message)
                               (render_response (current_response l)) ev
                               (refinement_count l)) in
            match generator_llm_generate m x1 with
            | (Returned r, x2) =>
                (Ok (Continue,
                     {| refinement_count := refinement_count l + 1;
                        current_response := r;
                        best_response := best_response l1;
                        best_rating := best_rating l1 |}),
                 {| collaborators := x2; refinement_history := h1;
                    trace := t1 ++ [GeneratorCall m] |})
            | (Raised e, x2) =>
                (Raise e,
                 {| collaborators := x2; refinement_history := h1;
                    trace := t1 ++ [GeneratorCall m] |})
            end
      end
  end.
Proof.
  assert (Hc : forall e, current_response (track_best l e) = current_response l)
    by (intros e; unfold track_best; now destruct (value_gt _ _)).
  assert (Hn : forall e, refinement_count (track_best l e) = refinement_count l)
    by (intros e; unfold track_best; now destruct (value_gt _ _)).
  cbv beta iota zeta delta [loop_body bind lift_result call_evaluator
    call_generator log on_collaborators append_history get_history ret].
  destruct (_build_eval_prompt _ _ _ _) as [prompt | e]; simpl; [|reflexivity].
  destruct (evaluator_llm_generate_structured _ _) as [[ev | e] x1]; simpl;
    [|reflexivity].
  destruct (acceptable self ev); simpl; [reflexivity|].
  rewrite Hc, Hn.
  destruct (generator_llm_generate _ _) as [[r | e] x2]; reflexivity.
Qed.

(** Count the calls in an explicit trace. *)
Ltac count_calls :=
  unfold generator_calls, evaluator_calls in *;
  cbn [filter is_generator_call is_evaluator_call List.length app
         fst snd trace] in *.

(** Split one pass of the loop body into its five ways of ending. *)
Ltac body_cases w :=
  rewrite loop_body_eq;
  destruct (_build_eval_prompt _ _ _ _) as [?prompt | ?e];
  [ destruct (evaluator_llm_generate_structured _ (collaborators w))
      as [[?ev | ?e] ?x1];
    [ cbv zeta; destruct (acceptable _ _) eqn:?Hacc;
      [ | destruct (generator_llm_generate _ _) as [[?r | ?e] ?x2] ]
    | ]
  | ].

(** One pass makes at most one call to each collaborator, never runs
    out of fuel, and when the loop goes on the count has grown by
    one. *)
Lemma loop_body_calls self message l w :
  exists evs,
    trace (snd (loop_body self message l w)) = trace w ++ evs /\
    (0 <= generator_calls evs <= 1)%Z /\
    (0 <= evaluator_calls evs <= 1)%Z /\
    fst (loop_body self message l w) <> OutOfFuel /\
    (forall l', fst (loop_body self message l w) = Ok (Continue, l') ->
                refinement_count l' = (refinement_count l + 1)%Z).
Proof.
  body_cases w; cbn [fst snd trace].
  - eexists. split; [rewrite <- app_assoc; reflexivity|].
    cbn. repeat split; try lia; congruence.
  - eexists. split; [rewrite <- !app_assoc; reflexivity|].
    cbn. repeat split; try lia; try congruence.
    intros l' [= <-]. reflexivity.
  - eexists. split; [rewrite <- !app_assoc; reflexivity|].
    cbn. repeat split; try lia; congruence.
  - eexists. split; [reflexivity|].
    cbn. repeat split; try lia; congruence.
  - exists []. rewrite app_nil_r.
    cbn. repeat split; try lia; congruence.
Qed.

(** The loop makes at most [max_refinements - refinement_count] passes,
    whatever bound it is run with. *)
Lemma while_loop_calls self message fuel : forall l w,
  exists evs,
    trace (snd (while_loop fuel self message l w)) = trace w ++ evs /\
    (0 <= generator_calls evs
       <= Z.max 0 (max_refinements self - refinement_count l))%Z /\
    (0 <= evaluator_calls evs
       <= Z.max 0 (max_refinements self - refinement_count l))%Z.
Proof.
  induction fuel as [|fuel IH]; intros l w; cbn [while_loop];
    destruct (refinement_count l <? max_refinements self)%Z eqn:Hlt;
    try (exists []; rewrite app_nil_r; cbn; repeat split; lia).
  apply Z.ltb_lt in Hlt.
  destruct (loop_body_calls self message l w)
    as (evs1 & Ht1 & Hg1 & He1 & _ & Hcount).
  unfold bind.
  destruct (loop_body self message l w) as [[[[|] l'] | e |] w1];
    cbn [fst snd] in *;
    try (exists evs1; repeat split; try assumption; lia).
  destruct (IH l' w1) as (evs2 & Ht2 & Hg2 & He2).
  rewrite (Hcount l' eq_refl) in Hg2, He2.
  exists (evs1 ++ evs2). rewrite Ht2, Ht1, app_assoc.
  rewrite generator_calls_app, evaluator_calls_app.
  repeat split; lia.
Qed.

(** A bound of [max_refinements - refinement_count] passes is enough. *)
Lemma while_loop_fuel self message fuel : forall l w,
  (max_refinements self - refinement_count l <= Z.of_nat fuel)%Z ->
  fst (while_loop fuel self message l w) <> OutOfFuel.
Proof.
  induction fuel as [|fuel IH]; intros l w Hfuel; cbn [while_loop];
    destruct (refinement_count l <? max_refinements self)%Z eqn:Hlt;
    try (cbn; congruence).
  - apply Z.ltb_lt in Hlt. lia.
  - destruct (loop_body_calls self message l w)
      as (_ & _ & _ & _ & Hfuel1 & Hcount).
    unfold bind.
    destruct (loop_body self message l w) as [[[[|] l'] | e |] w1];
      cbn [fst snd ret] in *; try congruence.
    apply IH. rewrite (Hcount l' eq_refl). lia.
Qed.

(** [generate_locals], with the monad unfolded. *)
Lemma generate_locals_eq self message w :
  generate_locals self message w =
  let t := trace w ++ [GeneratorCall message] in
  match generator_llm_generate message (collaborators w) with
  | (Raised e, x) =>
      (Raise e, {| collaborators := x; refinement_history := []; trace := t |})
  | (Returned r, x) =>
      while_loop (Z.to_nat (max_refinements self)) self message
        {| refinement_count := 0; current_response := r;
           best_response := r; best_rating := POOR |}
        {| collaborators := x; refinement_history := []; trace := t |}
  end.
Proof.
  cbv beta iota zeta delta [generate_locals bind reset_history
    call_generator log on_collaborators].
  cbn [collaborators refinement_history trace].
  destruct (generator_llm_generate _ _) as [[r | e] x]; reflexivity.
Qed.

(** [generate] is [generate_locals] followed by [return best_response]. *)
Lemma generate_eq self message w :
  generate self message w =
  match generate_locals self message w with
  | (Ok l, w') => (Ok (best_response l), w')
  | (Raise e, w') => (Raise e, w')
  | (OutOfFuel, w') => (OutOfFuel, w')
  end.
Proof. reflexivity. Qed.

Lemma generate_world self message w :
  snd (generate self message w) = snd (generate_locals self message w).
Proof.
  rewrite generate_eq.
  now destruct (generate_locals self message w) as [[l | e |] w'].
Qed.

(** The calls of a whole run: the initial generation, then the loop. *)
Lemma generate_calls self message x h :
  let t := trace (snd (generate self message (start x h))) in
  (1 <= generator_calls t <= 1 + Z.max 0 (max_refinements self))%Z /\
  (0 <= evaluator_calls t <= Z.max 0 (max_refinements self))%Z.
Proof.
  cbv zeta. rewrite generate_world, generate_locals_eq. cbv zeta.
  cbn [start trace collaborators app].
  destruct (generator_llm_generate message x) as [[r | e] x1];
    [|count_calls; lia].
  match goal with
  | |- context [while_loop ?f self message ?l ?w] =>
      destruct (while_loop_calls self message f l w) as (evs & -> & Hg & He)
  end.
  cbn [trace refinement_count] in *.
  rewrite generator_calls_app, evaluator_calls_app.
  rewrite Z.sub_0_r in Hg, He.
  assert (generator_calls [GeneratorCall message] = 1%Z) as -> by reflexivity.
  assert (evaluator_calls [GeneratorCall message] = 0%Z) as -> by reflexivity.
  lia.
Qed.

(** [generate] always comes back: the bound on the passes that
    [generate_locals] gives the loop is never used up. *)
Lemma generate_returns self message w :
  fst (generate self message w) <> OutOfFuel.
Proof.
  assert (Hl : fst (generate_locals self message w) <> OutOfFuel).
  { rewrite generate_locals_eq. cbv zeta.
    destruct (generator_llm_generate _ _) as [[r | e] x];
      [|cbn; congruence].
    apply while_loop_fuel. cbn [refinement_count]. lia. }
  rewrite generate_eq.
  destruct (generate_locals self message w) as [[l | e |] w'];
    cbn in *; congruence.
Qed.

(** C2 (amended): for every input message and every configuration
    with [max_refinements >= 0], one call to [generate] invokes the
    generator at most [max_refinements + 1] times and the evaluator at
    most [max_refinements] times. *)
Theorem generate_call_bounds self message x h :
  (0 <= max_refinements self)%Z ->
  let t := trace (snd (generate self message (start x h))) in
  (generator_calls t <= max_refinements self + 1)%Z /\
  (evaluator_calls t <= max_refinements self)%Z.
Proof.
  intros Hmax. pose proof (generate_calls self message x h) as Hc.
  cbv zeta in *. lia.
Qed.

(** C10: with [max_refinements <= 0], a run whose initial generation
    returns [r] makes that one generator call and no evaluator call,
    records nothing in [refinement_history], leaves [best_rating] at
    [POOR] and returns [r] unevaluated. *)
Theorem generate_without_refinement self message x h r x1 :
  (max_refinements self <= 0)%Z ->
  generator_llm_generate message x = (Returned r, x1) ->
  generate_locals self message (start x h) =
    (Ok {| refinement_count := 0; current_response := r;
           best_response := r; best_rating := POOR |},
     {| collaborators := x1; refinement_history := [];
        trace := [GeneratorCall message] |}) /\
  generate self message (start x h) =
    (Ok r, {| collaborators := x1; refinement_history := [];
              trace := [GeneratorCall message] |}) /\
  generator_calls (trace (snd (generate self message (start x h)))) = 1%Z /\
  evaluator_calls (trace (snd (generate self message (start x h)))) = 0%Z.
Proof.
  intros Hmax Hgen.
  assert (Hl : generate_locals self message (start x h) =
    (Ok {| refinement_count := 0; current_response := r;
           best_response := r; best_rating := POOR |},
     {| collaborators := x1; refinement_history := [];
        trace := [GeneratorCall message] |})).
  { rewrite generate_locals_eq. cbv zeta.
    cbn [start collaborators trace app]. rewrite Hgen.
    destruct (Z.to_nat (max_refinements self)); cbn [while_loop refinement_count];
      destruct (0 <? max_refinements self)%Z eqn:Hlt;
      try reflexivity; apply Z.ltb_lt in Hlt; lia. }
  split; [exact Hl|].
  rewrite generate_eq, Hl. cbn [best_response]. repeat split.
Qed.

(** The acceptance test, in terms of ranks. *)
Lemma acceptable_rank self e :
  acceptable self e = true <->
  (rank (min_rating self) <= rank (rating e))%Z \/ needs_improvement e = false.
Proof.
  unfold acceptable. rewrite value_ge_rank, orb_true_iff, Z.leb_le, negb_true_iff.
  reflexivity.
Qed.

(** C4: with [max_refinements >= 1], when the first evaluation has a
    rating of at least [min_rating] or does not ask for improvement,
    [generate] returns after exactly one generator call and one
    evaluator call (with the first candidate). *)
Theorem first_evaluation_accepted self message x h r1 e1 x2 :
  (1 <= max_refinements self)%Z ->
  first_evaluation self message x r1 e1 x2 ->
  (rank (min_rating self) <= rank (rating e1))%Z \/
    needs_improvement e1 = false ->
  let run := generate self message (start x h) in
  fst run = Ok r1 /\
  generator_calls (trace (snd run)) = 1%Z /\
  evaluator_calls (trace (snd run)) = 1%Z.
Proof.
  intros Hmax (x1 & p1 & Hg1 & Hp1 & He1) Hacc.
  apply acceptable_rank in Hacc. cbv zeta.
  rewrite generate_eq, generate_locals_eq. cbv zeta.
  cbn [start collaborators trace app]. rewrite Hg1.
  destruct (Z.to_nat (max_refinements self)) as [|fuel] eqn:Hfuel; [lia|].
  cbn [while_loop refinement_count].
  destruct (0 <? max_refinements self)%Z eqn:Hlt;
    [|apply Z.ltb_ge in Hlt; lia].
  unfold bind. rewrite loop_body_eq.
  cbn [current_response refinement_count collaborators].
  rewrite Hp1, He1. cbv zeta. rewrite Hacc.
  cbn [ret fst snd trace]. split; [|split; reflexivity].
  unfold track_best. destruct (value_gt _ _); reflexivity.
Qed.

(** A pass that is entered ([refinement_count < max_refinements]) with
    one more pass allowed runs the body once. *)
Lemma while_loop_enter self message fuel l w :
  (refinement_count l < max_refinements self)%Z ->
  while_loop (S fuel) self message l w =
  match loop_body self message l w with
  | (Ok (Break, l'), w') => (Ok l', w')
  | (Ok (Continue, l'), w') => while_loop fuel self message l' w'
  | (Raise e, w') => (Raise e, w')
  | (OutOfFuel, w') => (OutOfFuel, w')
  end.
Proof.
  intros Hlt. apply Z.ltb_lt in Hlt. cbn [while_loop]. rewrite Hlt.
  unfold bind.
  now destruct (loop_body self message l w) as [[[[|] l'] | e |] w'].
Qed.

(** An evaluation rated POOR that asks for improvement is not accepted
    when [min_rating] is GOOD, and does not displace the best. *)
Lemma poor_not_acceptable self e :
  min_rating self = GOOD -> rating e = POOR -> needs_improvement e = true ->
  acceptable self e = false.
Proof. unfold acceptable. intros -> -> ->. reflexivity. Qed.

Lemma poor_keeps_best l e : rating e = POOR -> track_best l e = l.
Proof.
  unfold track_best. intros ->. now destruct (best_rating l).
Qed.

(** C3 (amended): in scenario A, [generate] performs 3 generator calls
    (the initial one and 2 refinements) and 3 evaluator calls, and
    returns the candidate of iteration 3. *)
Theorem scenario_A_run self message x h r3 :
  scenario_A self message x r3 ->
  let run := generate self message (start x h) in
  fst run = Ok r3 /\
  generator_calls (trace (snd run)) = 3%Z /\
  evaluator_calls (trace (snd run)) = 3%Z.
Proof.
  intros (Hmin & Hmax & r1 & e1 & x2 & r2 & e2 & x4 & e3 & x6
          & (x1 & p1 & Hg1 & Hp1 & He1)
          & (x3 & p2 & Hg2 & Hp2 & He2)
          & (x5 & p3 & Hg3 & Hp3 & He3)
          & Hr1 & Hn1 & Hr2 & Hn2 & Hr3 & Hn3).
  change (1 - 1)%Z with 0%Z in Hg2. change (2 - 1)%Z with 1%Z in Hg3.
  cbv zeta. rewrite generate_eq, generate_locals_eq. cbv zeta.
  cbn [start collaborators trace app]. rewrite Hg1, Hmax.
  change (Z.to_nat 3) with 3%nat.
  (* iteration 1 *)
  rewrite while_loop_enter by (rewrite Hmax; cbn; lia).
  rewrite loop_body_eq.
  cbn [current_response refinement_count collaborators refinement_history trace].
  rewrite Hp1, He1. cbv zeta.
  rewrite (poor_not_acceptable self e1 Hmin Hr1 Hn1), (poor_keeps_best _ e1 Hr1).
  rewrite Hg2.
  (* iteration 2 *)
  rewrite while_loop_enter by (rewrite Hmax; cbn; lia).
  rewrite loop_body_eq.
  cbn [current_response refinement_count collaborators refinement_history trace].
  change (0 + 1)%Z with 1%Z.
  rewrite Hp2, He2. cbv zeta.
  rewrite (poor_not_acceptable self e2 Hmin Hr2 Hn2), (poor_keeps_best _ e2 Hr2).
  rewrite Hg3.
  (* iteration 3 *)
  rewrite while_loop_enter by (rewrite Hmax; cbn; lia).
  rewrite loop_body_eq.
  cbn [current_response refinement_count collaborators refinement_history trace].
  change (1 + 1)%Z with 2%Z.
  rewrite Hp3, He3. cbv zeta.
  assert (Hacc : acceptable self e3 = true)
    by (unfold acceptable; rewrite Hmin, Hr3; reflexivity).
  rewrite Hacc. unfold track_best. rewrite Hr3.
  cbn [best_rating value_gt value]. cbn.
  repeat split.
Qed.

(** *** Tracking the best response *)

Lemma tracked_histories_app (t1 t2 : list event) :
  tracked_histories (t1 ++ t2) = tracked_histories t1 ++ tracked_histories t2.
Proof.
  induction t1 as [|ev t1 IH]; [reflexivity|].
  destruct ev; cbn [app tracked_histories]; rewrite IH; reflexivity.
Qed.

Lemma nonempty_prefixes_snoc (h : list RefinementRecord) r :
  nonempty_prefixes (h ++ [r]) = nonempty_prefixes h ++ [h ++ [r]].
Proof.
  unfold nonempty_prefixes. rewrite length_app. cbn [List.length].
  rewrite seq_app, map_app. cbn [seq map]. f_equal.
  - apply map_ext_in. intros k Hk. apply in_seq in Hk.
    rewrite firstn_app.
    replace (k - List.length h)%nat with 0%nat by lia.
    cbn [firstn]. now rewrite app_nil_r.
  - replace (1 + List.length h)%nat with (List.length (h ++ [r]))
      by (rewrite length_app; cbn; lia).
    now rewrite firstn_all.
Qed.

(** Lines 210-227 keep it: once the evaluation of the current response
    is recorded and the best is tracked, the best is the earliest
    maximum of the longer history. *)
Lemma track_best_ok l h n ev :
  head_ok l h ->
  best_is_earliest_max
    (best_rating (track_best l ev)) (best_response (track_best l ev))
    (h ++ [{| attempt := n; response := current_response l;
              evaluation_result := ev |}]).
Proof.
  set (rec := {| attempt := n; response := current_response l;
                 evaluation_result := ev |}).
  assert (Hlast : nth_error (h ++ [rec]) (List.length h) = Some rec).
  { rewrite nth_error_app2 by lia. now rewrite Nat.sub_diag. }
  assert (Hsplit : forall j r', nth_error (h ++ [rec]) j = Some r' ->
            (j < List.length h)%nat /\ nth_error h j = Some r' \/
            j = List.length h /\ r' = rec).
  { intros j r' Hj. destruct (Nat.lt_ge_cases j (List.length h)) as [Hlt | Hge].
    - left. split; [assumption|]. now rewrite nth_error_app1 in Hj.
    - right. rewrite nth_error_app2 in Hj by assumption.
      destruct (j - List.length h)%nat as [|k] eqn:Hk.
      + cbn in Hj. split; [lia | congruence].
      + cbn in Hj. now destruct k. }
  intros Hhead. unfold track_best. rewrite value_gt_rank.
  destruct (rank (best_rating l) <? rank (rating ev))%Z eqn:Hgt;
    cbn [best_rating best_response].
  - (* a strictly better evaluation: the new record is the earliest *)
    apply Z.ltb_lt in Hgt.
    assert (Hold : forall j r', nth_error h j = Some r' ->
              (rank (rating (evaluation_result r')) <= rank (best_rating l))%Z).
    { destruct Hhead as [(-> & _ & _) | (i & r & _ & _ & _ & Hall & _)].
      - intros j r' Hj. now destruct j.
      - exact Hall. }
    exists (List.length h), rec. repeat split; try assumption.
    + intros j r' Hj.
      destruct (Hsplit j r' Hj) as [[_ Hj'] | [_ ->]]; [|cbn; lia].
      specialize (Hold j r' Hj'). lia.
    + intros j r' Hlt Hj. rewrite nth_error_app1 in Hj by assumption.
      specialize (Hold j r' Hj). lia.
  - (* not better: the best stays *)
    apply Z.ltb_ge in Hgt.
    destruct Hhead as [(-> & Hpoor & Hresp)
                      | (i & r & Hi & Hr & Hc & Hall & Hbefore)].
    + exists 0%nat, rec. rewrite Hpoor in *. cbn in Hgt.
      pose proof (rank_range (rating ev)) as Hrange.
      assert (Hev : rating ev = POOR) by (apply rank_inj; cbn; lia).
      repeat split; try assumption; try (symmetry; exact Hresp); cbn.
      * intros [|[|j]] r' Hj; cbn in Hj; try discriminate.
        injection Hj as <-. cbn. rewrite Hev. cbn. lia.
      * intros j r' Hlt. lia.
    + exists i, r.
      assert (Hi' : (i < List.length h)%nat)
        by (apply nth_error_Some; congruence).
      repeat split; try assumption.
      * now rewrite nth_error_app1.
      * intros j r' Hj.
        destruct (Hsplit j r' Hj) as [[_ Hj'] | [_ ->]]; [|cbn; lia].
        exact (Hall j r' Hj').
      * intros j r' Hlt Hj. rewrite nth_error_app1 in Hj by lia.
        exact (Hbefore j r' Hlt Hj).
Qed.

(** One pass keeps the world in order, and leaves locals that are in
    order for the next pass. *)
Lemma loop_body_tracking self message l w :
  head_ok l (refinement_history w) -> tracking_ok w ->
  tracking_ok (snd (loop_body self message l w)) /\
  (forall f l', fst (loop_body self message l w) = Ok (f, l') ->
     best_is_earliest_max (best_rating l') (best_response l')
       (refinement_history (snd (loop_body self message l w)))).
Proof.
  intros Hhead [Hall Hpre].
  pose proof (fun ev => track_best_ok l (refinement_history w)
                          (refinement_count l + 1) ev Hhead) as Hstep.
  unfold tracking_ok.
  body_cases w; cbn [fst snd trace refinement_history];
    rewrite ?tracked_histories_app, ?Hpre, ?nonempty_prefixes_snoc;
    cbn [tracked_histories]; rewrite ?app_nil_r;
    (split; [split; [|reflexivity] | intros f l' Heq; try discriminate Heq]);
    repeat (apply Forall_app; split); try assumption;
    try (repeat constructor; apply Hstep);
    injection Heq as <- <-; apply Hstep.
Qed.

Lemma while_loop_tracking self message fuel : forall l w,
  head_ok l (refinement_history w) -> tracking_ok w ->
  tracking_ok (snd (while_loop fuel self message l w)) /\
  (forall l', fst (while_loop fuel self message l w) = Ok l' ->
     head_ok l' (refinement_history (snd (while_loop fuel self message l w)))).
Proof.
  induction fuel as [|fuel IH]; intros l w Hhead Hw; cbn [while_loop];
    destruct (refinement_count l <? max_refinements self)%Z;
    cbn [fst snd ret];
    try (split; [assumption | intros l' [=]; subst; assumption]).
  destruct (loop_body_tracking self message l w Hhead Hw) as [Hw1 Hbest].
  unfold bind.
  destruct (loop_body self message l w) as [[[[|] l1] | e |] w1];
    cbn [fst snd ret] in *;
    try (split; [assumption | intros l' Heq; discriminate Heq]).
  - apply IH; [right; now apply (Hbest Continue) | assumption].
  - split; [assumption|]. intros l' [= <-]. right. now apply (Hbest Break).
Qed.

(** C1: in every run of [generate], each time an evaluation has been
    recorded and the best tracked, [best_rating] is the maximum rating
    of the records so far and [best_response] the candidate of the
    earliest record with that rating (there is one such observation
    per record, after each append); and when [generate] returns, the
    value returned is the best response of the final history. *)
Theorem best_is_tracked self message x h :
  let run := generate self message (start x h) in
  let history := refinement_history (snd run) in
  Forall tracked_ok (trace (snd run)) /\
  tracked_histories (trace (snd run)) = nonempty_prefixes history /\
  match fst run with
  | Ok returned =>
      history = [] \/
      exists best_rating, best_is_earliest_max best_rating returned history
  | _ => True
  end.
Proof.
  cbv zeta. rewrite generate_eq, generate_locals_eq. cbv zeta.
  cbn [start collaborators trace app].
  destruct (generator_llm_generate message x) as [[r | e] x1].
  - match goal with
    | |- context [while_loop ?f self message ?l ?w] =>
        destruct (while_loop_tracking self message f l w) as [[Hall Hpre] Hhead];
        [ left; repeat split
        | split; [repeat constructor | reflexivity]
        | destruct (while_loop f self message l w) as [[l' | e |] w'] ]
    end; cbn [fst snd] in *; repeat split; try assumption.
    destruct (Hhead l' eq_refl) as [(-> & _ & _) | Hbest];
      [now left | right; now exists (best_rating l')].
  - cbn. repeat split. repeat constructor.
Qed.

End Facts.

(** ** The refinement prompt *)

Section Prompt.
Context {C : Collaborators}.
Import PyStr PyStrFacts.
Local Open Scope string_scope.

(** The prompt, as one concatenation. *)
Lemma _build_refinement_prompt_eq self request current fb iteration :
  _build_refinement_prompt self request current fb iteration =
  refinement_opening iteration ++ data_opening ++ request_block request ++
  (if history_enabled self then "" else previous_response_block current) ++
  feedback_block fb ++
  (if history_enabled self then instruction_with_history
   else instruction_without_history).
Proof.
  unfold _build_refinement_prompt.
  destruct (history_enabled self); cbn [negb];
    now rewrite !append_assoc.
Qed.

Lemma retained_context_sentence :
  Substr "Your previous response is available in your conversation history."
    instruction_with_history.
Proof.
  exists "
<fastagent:instruction>
". eexists. reflexivity.
Qed.

Lemma previous_response_block_length current :
  (String.length current < String.length (previous_response_block current))%nat.
Proof.
  unfold previous_response_block. rewrite !length_append. cbn. lia.
Qed.

(** The blocks of the refinement prompt: the block of the prior
    candidate is there exactly when history is not retained, the two
    other blocks always. *)
Lemma refinement_prompt_blocks self request current fb iteration :
  let prompt := _build_refinement_prompt self request current fb iteration in
  (history_enabled self = false <->
   forall candidate,
     Substr (previous_response_block candidate)
       (_build_refinement_prompt self request candidate fb iteration)) /\
  (if history_enabled self then
     Substr "Your previous response is available in your conversation history."
       prompt /\
     (forall candidate,
        _build_refinement_prompt self request candidate fb iteration = prompt)
   else Substr (previous_response_block current) prompt) /\
  Substr (request_block request) prompt /\
  Substr (feedback_block fb) prompt.
Proof.
  cbv zeta.
  assert (Hreq : forall c, Substr (request_block request)
            (_build_refinement_prompt self request c fb iteration)).
  { intros c. rewrite _build_refinement_prompt_eq.
    do 2 apply Substr_app_r. apply Substr_app_l, Substr_refl. }
  assert (Hfb : forall c, Substr (feedback_block fb)
            (_build_refinement_prompt self request c fb iteration)).
  { intros c. rewrite _build_refinement_prompt_eq.
    do 4 apply Substr_app_r. apply Substr_app_l, Substr_refl. }
  assert (Hprev : history_enabled self = false ->
            forall c, Substr (previous_response_block c)
              (_build_refinement_prompt self request c fb iteration)).
  { intros Hh c. rewrite _build_refinement_prompt_eq, Hh.
    do 3 apply Substr_app_r. apply Substr_app_l, Substr_refl. }
  assert (Hconst : history_enabled self = true ->
            forall c c', _build_refinement_prompt self request c fb iteration
              = _build_refinement_prompt self request c' fb iteration).
  { intros Hh c c'. now rewrite !_build_refinement_prompt_eq, Hh. }
  repeat split; try apply Hreq; try apply Hfb.
  - exact Hprev.
  - intros Hall. destruct (history_enabled self) eqn:Hh; [|reflexivity].
    exfalso.
    set (p := _build_refinement_prompt self request "" fb iteration).
    specialize (Hall p). rewrite (Hconst eq_refl p "") in Hall.
    apply Substr_length in Hall.
    pose proof (previous_response_block_length p). fold p in Hall. lia.
  - destruct (history_enabled self) eqn:Hh.
    + split.
      * rewrite _build_refinement_prompt_eq, Hh.
        do 5 apply Substr_app_r. apply retained_context_sentence.
      * intros c. now apply Hconst.
    + now apply Hprev.
Qed.

(** [", ".join(areas)] of a list that is not empty, area by area. *)
Lemma focus_areas_field_eq (fb : EvaluationResult) :
  focus_areas_field fb =
  match focus_areas fb with
  | [] => "None specified"
  | first :: rest => fold_left (fun acc area => acc ++ ", " ++ area) rest first
  end.
Proof.
  unfold focus_areas_field. destruct (focus_areas fb) as [|a rest];
    [reflexivity | apply join_fold_left].
Qed.

(** C5: the refinement prompt embeds the prior candidate, between the
    lines [<fastagent:previous-response>] and
    [</fastagent:previous-response>], exactly when history is not
    retained; with history retained the prompt does not depend on the
    prior candidate and tells the generator that its previous response is
    in its conversation history.  Either way it embeds the request,
    between the lines [<fastagent:request>] and [</fastagent:request>],
    and the whole feedback block: the rating, the feedback text and the
    focus areas (joined with a comma and a space, or [None specified]),
    each between its tags. *)
Theorem refinement_prompt_previous_response self request current fb iteration :
  let prompt := _build_refinement_prompt self request current fb iteration in
  let previous := fun candidate : string => "
<fastagent:previous-response>
" ++ candidate ++ "
</fastagent:previous-response>
" in
  (history_enabled self = false <->
   forall candidate,
     Substr (previous candidate)
       (_build_refinement_prompt self request candidate fb iteration)) /\
  (if history_enabled self then
     Substr "Your previous response is available in your conversation history."
       prompt /\
     (forall candidate,
        _build_refinement_prompt self request candidate fb iteration = prompt)
   else Substr (previous current) prompt) /\
  Substr ("
<fastagent:request>
" ++ request ++ "
</fastagent:request>
") prompt /\
  Substr ("
<fastagent:feedback>
<rating>" ++ format_rating (rating fb) ++ "</rating>
<details>" ++ feedback fb ++ "</details>
<focus-areas>" ++
     match focus_areas fb with
     | [] => "None specified"
     | first :: rest =>
         fold_left (fun acc area => acc ++ ", " ++ area) rest first
     end ++ "</focus-areas>
</fastagent:feedback>
</fastagent:data>
") prompt.
Proof.
  cbv zeta. rewrite <- focus_areas_field_eq.
  exact (refinement_prompt_blocks self request current fb iteration).
Qed.

(** C9: the focus-areas field of the refinement prompt is the literal
    [None specified] when [focus_areas] is empty, and otherwise the
    focus areas in order, each after the first preceded by a comma and
    a space. *)
Theorem focus_areas_rendering self request current fb iteration :
  let field :=
    match focus_areas fb with
    | [] => "None specified"
    | first :: rest => fold_left (fun acc area => acc ++ ", " ++ area) rest first
    end in
  focus_areas_field fb = field /\
  Substr ("<focus-areas>" ++ field ++ "</focus-areas>")
    (_build_refinement_prompt self request current fb iteration).
Proof.
  cbv zeta.
  assert (Hfield : focus_areas_field fb =
            match focus_areas fb with
            | [] => "None specified"
            | first :: rest =>
                fold_left (fun acc area => acc ++ ", " ++ area) rest first
            end).
  { unfold focus_areas_field. destruct (focus_areas fb) as [|a rest];
      [reflexivity | apply join_fold_left]. }
  split; [exact Hfield|]. rewrite <- Hfield.
  rewrite _build_refinement_prompt_eq.
  do 4 apply Substr_app_r. apply Substr_app_l.
  unfold feedback_block.
  exists ("
<fastagent:feedback>
<rating>" ++ format_rating (rating fb) ++ "</rating>
<details>" ++ feedback fb ++ "</details>
"), "
</fastagent:feedback>
</fastagent:data>
".
  now rewrite !append_assoc.
Qed.

End Prompt.

Example focus_areas_none :
  @focus_areas_field
    {| rating := FAIR; feedback := "thin"; needs_improvement := true;
       focus_areas := [] |} = "None specified"%string.
Proof. reflexivity. Qed.

Example focus_areas_two :
  @focus_areas_field
    {| rating := FAIR; feedback := "thin"; needs_improvement := true;
       focus_areas := ["tone"; "length"]%string |} = "tone, length"%string.
Proof. reflexivity. Qed.

(** ** The scenarios, run on the scripted collaborators *)

Example scripted_scenario_A :
  scripted_run (controller GOOD 3)
    [improve POOR; improve POOR; improve EXCELLENT]
  = (Ok (candidate 3),
     snd (scripted_run (controller GOOD 3)
            [improve POOR; improve POOR; improve EXCELLENT])).
Proof. vm_compute. reflexivity. Qed.

(** Scenario B of the specification: always FAIR, two refinements. *)
Example scripted_scenario_B :
  let run := scripted_run (controller GOOD 2)
               [improve FAIR; improve FAIR; improve FAIR] in
  fst run = Ok (candidate 1) /\
  generator_calls (trace (snd run)) = 3%Z /\
  evaluator_calls (trace (snd run)) = 2%Z.
Proof. vm_compute. repeat split. Qed.

Lemma scripted_is_scenario_A :
  @scenario_A scripted (controller GOOD 3) (MsgStr "task")
    ([improve POOR; improve POOR; improve EXCELLENT], 0%nat) (candidate 3).
Proof.
  split; [reflexivity|]. split; [reflexivity|].
  exists (candidate 1), (improve POOR),
    ([improve POOR; improve EXCELLENT], 1%nat),
    (candidate 2), (improve POOR), ([improve EXCELLENT], 2%nat),
    (improve EXCELLENT), ([], 3%nat).
  repeat split; try reflexivity;
    unfold first_evaluation, next_evaluation;
    do 2 eexists; repeat split; reflexivity.
Qed.

(** C2, as stated, fails for a negative [max_refinements]: the initial
    generation is one call, more than [max_refinements + 1 = 0]. *)
Lemma generate_call_bounds_negative :
  ~ (forall (C : Collaborators) (self : EvaluatorOptimizerLLM)
            (message : Message MessageParamT) (x : ext)
            (h : list RefinementRecord),
       let t := trace (snd (generate self message (start x h))) in
       (generator_calls t <= max_refinements self + 1)%Z /\
       (evaluator_calls t <= max_refinements self)%Z).
Proof.
  intros Hclaim.
  destruct (Hclaim scripted (controller GOOD (-1)) (MsgStr "task")
              ([], 0%nat) []) as [Hgen _].
  vm_compute in Hgen. apply Hgen. reflexivity.
Qed.

Lemma generate_call_bounds_witness :
  (0 <= max_refinements (controller GOOD 3))%Z /\
  let t := trace (snd (scripted_run (controller GOOD 3)
                         [improve POOR; improve POOR; improve EXCELLENT])) in
  (generator_calls t <= max_refinements (controller GOOD 3) + 1)%Z /\
  (evaluator_calls t <= max_refinements (controller GOOD 3))%Z.
Proof.
  split; [cbn; lia|].
  apply (@generate_call_bounds scripted (controller GOOD 3)). cbn. lia.
Defined.

(** C3, as stated, fails: the run of scenario A makes 3 generator
    calls, not 4. *)
Lemma scenario_A_not_four_generator_calls :
  ~ (forall (C : Collaborators) (self : EvaluatorOptimizerLLM)
            (message : Message MessageParamT) (x : ext)
            (h : list RefinementRecord) (r3 : Response MessageT),
       scenario_A self message x r3 ->
       let run := generate self message (start x h) in
       generator_calls (trace (snd run)) = 4%Z /\
       evaluator_calls (trace (snd run)) = 3%Z /\
       fst run = Ok r3).
Proof.
  intros Hclaim.
  destruct (Hclaim scripted _ _ _ [] _ scripted_is_scenario_A) as [Hgen _].
  vm_compute in Hgen. discriminate Hgen.
Qed.

Lemma scenario_A_run_witness :
  @scenario_A scripted (controller GOOD 3) (MsgStr "task")
    ([improve POOR; improve POOR; improve EXCELLENT], 0%nat) (candidate 3) /\
  let run := scripted_run (controller GOOD 3)
               [improve POOR; improve POOR; improve EXCELLENT] in
  fst run = Ok (candidate 3) /\
  generator_calls (trace (snd run)) = 3%Z /\
  evaluator_calls (trace (snd run)) = 3%Z.
Proof.
  split; [exact scripted_is_scenario_A|].
  exact (@scenario_A_run scripted _ _ _ [] _ scripted_is_scenario_A).
Defined.

Lemma first_evaluation_accepted_witness :
  (1 <= max_refinements (controller GOOD 3))%Z /\
  @first_evaluation scripted (controller GOOD 3) (MsgStr "task")
    ([improve GOOD], 0%nat) (candidate 1) (improve GOOD) ([], 1%nat) /\
  ((rank (min_rating (controller GOOD 3)) <= rank (rating (improve GOOD)))%Z \/
   needs_improvement (improve GOOD) = false) /\
  let run := scripted_run (controller GOOD 3) [improve GOOD] in
  fst run = Ok (candidate 1) /\
  generator_calls (trace (snd run)) = 1%Z /\
  evaluator_calls (trace (snd run)) = 1%Z.
Proof.
  assert (H1 : (1 <= max_refinements (controller GOOD 3))%Z) by (cbn; lia).
  assert (H2 : @first_evaluation scripted (controller GOOD 3) (MsgStr "task")
            ([improve GOOD], 0%nat) (candidate 1) (improve GOOD) ([], 1%nat))
    by (do 2 eexists; repeat split; reflexivity).
  assert (H3 : (rank (min_rating (controller GOOD 3))
                <= rank (rating (improve GOOD)))%Z \/
               needs_improvement (improve GOOD) = false) by (left; cbn; lia).
  repeat (split; [assumption|]).
  exact (@first_evaluation_accepted scripted _ _ _ [] _ _ _ H1 H2 H3).
Defined.

Lemma generate_without_refinement_witness :
  (max_refinements (controller GOOD 0) <= 0)%Z /\
  @generator_llm_generate scripted (MsgStr "task") ([improve FAIR], 0%nat)
    = (Returned (candidate 1), ([improve FAIR], 1%nat)) /\
  scripted_run (controller GOOD 0) [improve FAIR] =
    (Ok (candidate 1),
     @Build_World scripted ([improve FAIR], 1%nat) []
       [@GeneratorCall scripted (MsgStr "task")]).
Proof.
  assert (H1 : (max_refinements (controller GOOD 0) <= 0)%Z) by (cbn; lia).
  assert (H2 : @generator_llm_generate scripted (MsgStr "task")
                 ([improve FAIR], 0%nat)
               = (Returned (candidate 1), ([improve FAIR], 1%nat)))
    by reflexivity.
  repeat (split; [assumption|]).
  exact (proj1 (proj2 (@generate_without_refinement scripted
                         (controller GOOD 0) (MsgStr "task") _ [] _ _ H1 H2))).
Defined.

End EvaluatorOptimizerFacts.

(* ===================================================================== *)
(** * Facts about the passthrough LLM *)
(* ===================================================================== *)

Module PassthroughFacts.
Import Passthrough PyStr PyStrFacts.
Local Open Scope string_scope.

(** A string that starts with [a ++ b] starts with [a]. *)
Lemma prefix_append_l (a b s : string) :
  String.prefix (a ++ b) s = true -> String.prefix a s = true.
Proof.
  revert s. induction a as [|c a IH]; intros [|d s] Hp; simpl in *;
    try reflexivity; try discriminate.
  destruct (Ascii.ascii_dec c d); [now apply IH | discriminate].
Qed.

Lemma prefix_cons (c d : ascii) (p s : string) :
  String.prefix (String c p) (String d s) = true ->
  c = d /\ String.prefix p s = true.
Proof.
  simpl. destruct (Ascii.ascii_dec c d); [now split | discriminate].
Qed.

Lemma depth_wrap {O : Type} (v : Value O) : depth (VList [v]) = S (depth v).
Proof. cbn. now rewrite Nat.max_0_r. Qed.

Section Facts.
Context {H : Host}.

(** *** generate *)

Lemma generate_not_list (message : Value Object) :
  (forall items, message <> VList items) -> generate message = message.
Proof. destruct message; intros Hn; try reflexivity. now destruct (Hn items). Qed.

(** C7 (the code departs from it): for a list input [generate] does
    not return the input list but a new list whose only item is the
    input list. *)
Theorem generate_wraps_list (items : list (Value Object)) :
  generate (VList items) = VList [VList items] /\
  generate (VList items) <> VList items.
Proof.
  split; [reflexivity|]. cbn [generate]. intros Heq.
  apply (f_equal depth) in Heq. rewrite depth_wrap in Heq. lia.
Qed.

(** *** Tool commands *)

(** C6 (amended): a tool-invocation command whose third part
    [json.loads] rejects with a [JSONDecodeError] makes
    [_parse_tool_command] raise the [ValueError] that quotes that part;
    [generate_str] answers with that error as text and leaves the instance
    as it was: the tool is not called. *)
Theorem malformed_json_is_reported command p0 name raw rest w :
  startswith command "***CALL_TOOL " = true ->
  split " " 2 command = p0 :: name :: raw :: rest ->
  json_loads raw = JsonDecodeError ->
  _parse_tool_command command
    = Raised (ValueError ("Invalid JSON arguments: " ++ raw)) /\
  generate_str (VStr command) w
    = (Ok ("Error calling tool: Invalid JSON arguments: " ++ raw), w).
Proof.
  intros Hstart Hsplit Hjson.
  assert (Hparse : _parse_tool_command command
            = Raised (ValueError ("Invalid JSON arguments: " ++ raw))).
  { unfold _parse_tool_command. rewrite Hsplit, Hjson. reflexivity. }
  split; [exact Hparse|].
  unfold generate_str. rewrite Hstart.
  unfold _call_tool_and_return_result, try_except, bind, lift_result.
  rewrite Hparse. reflexivity.
Qed.

(** *** The fixed response *)

(** The two markers differ at their fourth character. *)
Lemma fixed_command_is_no_tool_call (m : PromptMessageMultipart) :
  startswith (first_text m) FIXED_RESPONSE_INDICATOR = true ->
  is_tool_call m = false.
Proof.
  unfold is_tool_call, startswith, FIXED_RESPONSE_INDICATOR, CALL_TOOL_INDICATOR.
  intros Hfixed.
  apply (prefix_append_l "***F" "IXED_RESPONSE") in Hfixed.
  destruct (first_text m) as [|c1 [|c2 [|c3 [|c4 s]]]];
    repeat (apply prefix_cons in Hfixed as [<- Hfixed]);
    try (cbn in Hfixed; discriminate Hfixed).
  reflexivity.
Qed.

(** The display calls change nothing. *)
Lemma display_world v w : snd (display v w) = w.
Proof.
  unfold display.
  destruct (show_user_message v); [reflexivity|].
  destruct (show_assistant_message v); reflexivity.
Qed.

(** [generate_str] does not touch [_fixed_response]. *)
Lemma generate_str_fixed_response v w :
  _fixed_response (snd (generate_str v w)) = _fixed_response w.
Proof.
  assert (Hdisplay : forall text : string,
            _fixed_response (snd ((display v ;;; ret text)%py w))
            = _fixed_response w).
  { intros text. unfold bind, ret. pose proof (display_world v w) as Hw.
    destruct (display v w) as [[[] | e |] w']; cbn in *; now subst. }
  destruct v as [s | parts | o | items]; cbn [generate_str]; try apply Hdisplay.
  destruct (startswith s "***CALL_TOOL "); [|apply Hdisplay].
  unfold _call_tool_and_return_result, try_except, bind, lift_result, call_tool.
  destruct (_parse_tool_command s) as [[name arguments] | e]; cbn; [|reflexivity].
  destruct (aggregator_call_tool name arguments (aggregator w)) as [[r | e] t];
    reflexivity.
Qed.

(** What [generate_str] answers depends on the aggregator only, not on
    [_fixed_response]. *)
Lemma generate_str_reads_aggregator v w w' :
  aggregator w = aggregator w' ->
  fst (generate_str v w) = fst (generate_str v w').
Proof.
  intros Hagg.
  assert (Hdisplay : forall text : string,
            fst ((display v ;;; ret text)%py w)
            = fst ((display v ;;; ret text)%py w')).
  { intros text. unfold bind, ret, display.
    destruct (show_user_message v); [reflexivity|].
    destruct (show_assistant_message v); reflexivity. }
  destruct v as [s | parts | o | items]; cbn [generate_str]; try apply Hdisplay.
  destruct (startswith s "***CALL_TOOL "); [|apply Hdisplay].
  unfold _call_tool_and_return_result, try_except, bind, lift_result, call_tool.
  destruct (_parse_tool_command s) as [[name arguments] | e]; cbn; [|reflexivity].
  rewrite Hagg.
  destruct (aggregator_call_tool name arguments (aggregator w')) as [[r | e] t];
    reflexivity.
Qed.

(** A request that is not a fixed-response command leaves
    [_fixed_response] as it is, whether it is answered or fails. *)
Lemma apply_keeps_fixed_response request w :
  no_fixed_command request ->
  _fixed_response (snd (_apply_prompt_provider_specific request w))
  = _fixed_response w.
Proof.
  unfold no_fixed_command, _apply_prompt_provider_specific. intros Hno.
  destruct (last_item request) as [m|]; [|reflexivity].
  destruct (is_tool_call m).
  - unfold bind, reply_with, lift_result.
    pose proof (generate_str_fixed_response (VStr (first_text m)) w) as Hg.
    destruct (generate_str (VStr (first_text m)) w) as [[r | e |] w'];
      exact Hg.
  - rewrite (Hno m eq_refl).
    unfold bind, ret, get_fixed_response, reply_with, lift_result. cbn.
    destruct (_fixed_response w) as [text|] eqn:Hstored;
      [destruct (truthy text)|]; cbn; congruence.
Qed.

(** With a non-empty text stored, a non-command request is answered
    with what [Prompt.assistant] makes of that text. *)
Lemma apply_answers_fixed_response request w text :
  non_command request ->
  _fixed_response w = Some text -> text <> "" ->
  _apply_prompt_provider_specific request w = (reply_of text, w).
Proof.
  intros (m & Hlast & Hcmd) Hfixed Htext.
  unfold is_command in Hcmd. apply orb_false_iff in Hcmd as [Htool Hfix].
  unfold _apply_prompt_provider_specific, is_tool_call.
  rewrite Hlast, Htool, Hfix.
  unfold bind, ret, get_fixed_response, reply_with, lift_result, reply_of. cbn.
  rewrite Hfixed. destruct text; [congruence | reflexivity].
Qed.

Lemma non_command_no_fixed_command request :
  non_command request -> no_fixed_command request.
Proof.
  intros (m & Hlast & Hcmd) m' Hlast'.
  rewrite Hlast in Hlast'. injection Hlast' as <-.
  unfold is_command in Hcmd. now apply orb_false_iff in Hcmd.
Qed.

(** Once a non-empty text is stored, requests that are not
    fixed-response commands keep it, and the non-command ones among
    them are answered with it. *)
Lemma serve_fixed_response text : forall requests w,
  _fixed_response w = Some text -> text <> "" ->
  Forall no_fixed_command requests ->
  Forall2 (fun request reply => non_command request -> reply = reply_of text)
    requests (fst (serve requests w)) /\
  _fixed_response (snd (serve requests w)) = Some text.
Proof.
  induction requests as [|r requests IH]; intros w Hfixed Htext Hno;
    cbn [serve].
  - split; [constructor | assumption].
  - inversion Hno as [|? ? Hr Hrest]; subst.
    pose proof (apply_keeps_fixed_response r w Hr) as Hkeep.
    pose proof (fun Hnc => apply_answers_fixed_response r w text Hnc Hfixed Htext)
      as Hans.
    destruct (_apply_prompt_provider_specific r w) as [o w1].
    cbn [snd] in Hkeep. rewrite Hfixed in Hkeep.
    destruct (IH w1 Hkeep Htext Hrest) as [Hreplies Hend].
    destruct (serve requests w1) as [os w2]. cbn [fst snd] in *.
    split; [|assumption]. constructor; [|assumption].
    intros Hnc. specialize (Hans Hnc). congruence.
Qed.

(** C8 (amended): when [_apply_prompt_provider_specific] processes a
    fixed-response command it stores the text after the marker with the
    surrounding whitespace stripped; when that text is not empty, every
    later non-command request through [_apply_prompt_provider_specific]
    is answered with what [Prompt.assistant] makes of exactly that stored
    text (a reply, or the exception it raises), whatever the request
    holds, for as long as no other fixed-response command is processed.
    The override is of that method only: [generate_str] answers every
    message as it did before the command. *)
Theorem fixed_response_is_kept command last_message rest w requests :
  last_item command = Some last_message ->
  first_text last_message = FIXED_RESPONSE_INDICATOR ++ rest ->
  strip rest <> "" ->
  Forall no_fixed_command requests ->
  let w1 := snd (_apply_prompt_provider_specific command w) in
  _fixed_response w1 = Some (strip rest) /\
  Forall2 (fun request reply =>
             non_command request ->
             reply = of_result (Prompt_assistant (strip rest)))
    requests (fst (serve requests w1)) /\
  _fixed_response (snd (serve requests w1)) = Some (strip rest) /\
  (forall message, fst (generate_str message w1) = fst (generate_str message w)).
Proof.
  intros Hlast Htext Hrest Hno. cbv zeta.
  assert (Hstart : startswith (first_text last_message)
                     FIXED_RESPONSE_INDICATOR = true)
    by (rewrite Htext; apply prefix_append).
  assert (Hstored : _fixed_response
                      (snd (_apply_prompt_provider_specific command w))
                    = Some (strip rest) /\
                    aggregator (snd (_apply_prompt_provider_specific command w))
                    = aggregator w).
  { unfold _apply_prompt_provider_specific.
    rewrite Hlast, (fixed_command_is_no_tool_call _ Hstart), Hstart.
    rewrite (split_1_startswith _ _ Hstart), Htext, drop_append.
    unfold bind, lift_result, set_fixed_response, get_fixed_response, ret,
      reply_with.
    cbn. destruct (truthy (strip rest)); split; reflexivity. }
  destruct Hstored as [Hstored Hagg].
  split; [exact Hstored|].
  destruct (serve_fixed_response (strip rest) requests _ Hstored Hrest Hno)
    as [Hreplies Hend].
  repeat split; try assumption.
  intros message. now apply generate_str_reads_aggregator.
Qed.

End Facts.

(** ** On the small host *)

Example demo_fixed_response :
  fst (@serve demo_host
         [["***FIXED_RESPONSE  canned reply "]; ["hello"]; ["bye"]]
         (@init demo_host 0%nat))
  = [Ok "canned reply"; Ok "canned reply"; Ok "canned reply"].
Proof. reflexivity. Qed.

Example demo_echo :
  fst (@serve demo_host [["hello"; "there"]] (@init demo_host 0%nat))
  = [Ok "hello
there"].
Proof. reflexivity. Qed.

Example demo_generate_list :
  @generate demo_host (VList [VStr "hello"]) = VList [VList [VStr "hello"]].
Proof. reflexivity. Qed.

Example demo_deep_command :
  @generate_str demo_host (VStr deep_command) (@init demo_host 0%nat)
  = (Ok "Error calling tool: maximum recursion depth exceeded while decoding a JSON array from a unicode string",
     @init demo_host 0%nat).
Proof. vm_compute. reflexivity. Qed.

(** C6, as stated, fails: an argument text that opens two thousand
    arrays is not valid JSON, but [json.loads] fails on it with a
    [RecursionError], which is reported without the text. *)
Lemma deep_nesting_is_not_quoted :
  ~ (forall (H : Host) (command p0 name raw : string) (rest : list string)
            (w : World),
       startswith command "***CALL_TOOL " = true ->
       split " " 2 command = p0 :: name :: raw :: rest ->
       (forall arguments, json_loads raw <> JsonValue arguments) ->
       _parse_tool_command command
         = Raised (ValueError ("Invalid JSON arguments: " ++ raw)) /\
       generate_str (VStr command) w
         = (Ok ("Error calling tool: Invalid JSON arguments: " ++ raw), w)).
Proof.
  intros Hclaim.
  assert (H1 : startswith deep_command "***CALL_TOOL " = true)
    by (vm_compute; reflexivity).
  assert (H2 : split " " 2 deep_command
               = ["***CALL_TOOL"; "t"; replicate 2000 "["])
    by (vm_compute; reflexivity).
  assert (H3 : forall arguments,
            @json_loads demo_host (replicate 2000 "[") <> JsonValue arguments)
    by (intros arguments; vm_compute; discriminate).
  destruct (Hclaim demo_host deep_command _ _ _ _ (@init demo_host 0%nat)
              H1 H2 H3) as [Hparse _].
  vm_compute in Hparse. discriminate Hparse.
Qed.

Lemma malformed_json_is_reported_witness :
  startswith "***CALL_TOOL srv-echo {text: 1" "***CALL_TOOL " = true /\
  split " " 2 "***CALL_TOOL srv-echo {text: 1"
    = ["***CALL_TOOL"; "srv-echo"; "{text: 1"] /\
  @json_loads demo_host "{text: 1" = JsonDecodeError /\
  @_parse_tool_command demo_host "***CALL_TOOL srv-echo {text: 1"
    = Raised (ValueError "Invalid JSON arguments: {text: 1") /\
  @generate_str demo_host (VStr "***CALL_TOOL srv-echo {text: 1")
    (@init demo_host 0%nat)
  = (Ok "Error calling tool: Invalid JSON arguments: {text: 1",
     @init demo_host 0%nat).
Proof.
  assert (H1 : startswith "***CALL_TOOL srv-echo {text: 1" "***CALL_TOOL " = true)
    by reflexivity.
  assert (H2 : split " " 2 "***CALL_TOOL srv-echo {text: 1"
               = ["***CALL_TOOL"; "srv-echo"; "{text: 1"]) by reflexivity.
  assert (H3 : @json_loads demo_host "{text: 1" = JsonDecodeError) by reflexivity.
  repeat (split; [assumption|]).
  exact (@malformed_json_is_reported demo_host _ _ _ _ _
           (@init demo_host 0%nat) H1 H2 H3).
Defined.

(** C8, as stated, fails: after the bare command [***FIXED_RESPONSE]
    the stored text is empty and the next request is echoed. *)
Lemma fixed_response_empty_is_echoed :
  ~ (forall (H : Host) (command : list PromptMessageMultipart)
            (last_message : PromptMessageMultipart) (rest : string)
            (w : World) (requests : list (list PromptMessageMultipart)),
       last_item command = Some last_message ->
       first_text last_message = FIXED_RESPONSE_INDICATOR ++ rest ->
       Forall non_command requests ->
       let w1 := snd (_apply_prompt_provider_specific command w) in
       _fixed_response w1 = Some rest /\
       Forall (fun reply => reply = of_result (Prompt_assistant rest))
         (fst (serve requests w1))).
Proof.
  intros Hclaim.
  assert (Hnc : Forall (@non_command demo_host) [["hello"]]).
  { constructor; [|constructor]. exists "hello". split; reflexivity. }
  destruct (Hclaim demo_host ["***FIXED_RESPONSE"] "***FIXED_RESPONSE" ""
              (@init demo_host 0%nat) [["hello"]] eq_refl eq_refl Hnc)
    as [_ Hreplies].
  inversion Hreplies as [|? ? Hreply _]. discriminate Hreply.
Qed.

Lemma fixed_response_is_kept_witness :
  @last_item string ["***FIXED_RESPONSE  canned reply "]
    = Some "***FIXED_RESPONSE  canned reply " /\
  "***FIXED_RESPONSE  canned reply " = FIXED_RESPONSE_INDICATOR ++ "  canned reply " /\
  strip "  canned reply " <> "" /\
  Forall (@no_fixed_command demo_host) [["hello"]; ["***CALL_TOOL srv-echo"]] /\
  let w1 := snd (@_apply_prompt_provider_specific demo_host
                   ["***FIXED_RESPONSE  canned reply "] (@init demo_host 0%nat)) in
  _fixed_response w1 = Some (strip "  canned reply ") /\
  Forall2 (fun request reply =>
             @non_command demo_host request ->
             reply = of_result (@Prompt_assistant demo_host
                                  (strip "  canned reply ")))
    [["hello"]; ["***CALL_TOOL srv-echo"]]
    (fst (@serve demo_host [["hello"]; ["***CALL_TOOL srv-echo"]] w1)) /\
  _fixed_response
    (snd (@serve demo_host [["hello"]; ["***CALL_TOOL srv-echo"]] w1))
  = Some (strip "  canned reply ") /\
  (forall message,
     fst (@generate_str demo_host message w1)
     = fst (@generate_str demo_host message (@init demo_host 0%nat))).
Proof.
  assert (H1 : @last_item string ["***FIXED_RESPONSE  canned reply "]
               = Some "***FIXED_RESPONSE  canned reply ") by reflexivity.
  assert (H2 : "***FIXED_RESPONSE  canned reply "
               = FIXED_RESPONSE_INDICATOR ++ "  canned reply ") by reflexivity.
  assert (H3 : strip "  canned reply " <> "") by (vm_compute; discriminate).
  assert (H4 : Forall (@no_fixed_command demo_host)
                 [["hello"]; ["***CALL_TOOL srv-echo"]]).
  { repeat constructor; intros m [= <-]; reflexivity. }
  repeat (split; [assumption|]).
  exact (@fixed_response_is_kept demo_host
           ["***FIXED_RESPONSE  canned reply "]
           "***FIXED_RESPONSE  canned reply " "  canned reply "
           (@init demo_host 0%nat)
           [["hello"]; ["***CALL_TOOL srv-echo"]] H1 H2 H3 H4).
Defined.

Example demo_fixed_response_then_tool :
  fst (@serve demo_host
         [["***FIXED_RESPONSE  canned reply "]; ["hello"];
          ["***CALL_TOOL srv-echo"]]
         (@init demo_host 0%nat))
  = [Ok "canned reply"; Ok "canned reply"; Ok "done"].
Proof. reflexivity. Qed.

End PassthroughFacts.

(* ===================================================================== *)
(** * More facts about the refinement loop *)
(* ===================================================================== *)

Module RefinementRunFacts.
Import EvaluatorOptimizer EvaluatorOptimizerFacts.

Section Runs.
Context {C : Collaborators}.

(** Split one pass of the loop body into its five ways of ending. *)
Ltac pass_cases w :=
  rewrite loop_body_eq;
  destruct (_build_eval_prompt _ _ _ _) as [?prompt | ?e] eqn:?Hprompt;
  [ destruct (evaluator_llm_generate_structured _ (collaborators w))
      as [[?ev | ?e] ?x1] eqn:?Heval;
    [ cbv zeta; destruct (acceptable _ _) eqn:?Hacc;
      [ | destruct (generator_llm_generate _ _) as [[?r | ?e] ?x2] eqn:?Hgen ]
    | ]
  | ].

(** A rule for the loop: a property [Inv] of the locals and the world
    that holds when the loop is reached and that every pass which goes on
    keeps, gives [Post] for the way the loop ends, provided [Post] holds
    when the test fails under [Inv], when a pass breaks and when a pass
    raises. *)
Lemma while_loop_rule self message
    (Inv : Locals -> World -> Prop) (Post : outcome Locals -> World -> Prop) :
  (forall l w, Inv l w ->
     (max_refinements self <= refinement_count l)%Z -> Post (Ok l) w) ->
  (forall l w, Inv l w ->
     (refinement_count l < max_refinements self)%Z ->
     match loop_body self message l w with
     | (Ok (Continue, l'), w') => Inv l' w'
     | (Ok (Break, l'), w') => Post (Ok l') w'
     | (Raise e, w') => Post (Raise e) w'
     | (OutOfFuel, _) => True
     end) ->
  forall fuel l w,
    Inv l w ->
    (max_refinements self - refinement_count l <= Z.of_nat fuel)%Z ->
    Post (fst (while_loop fuel self message l w))
         (snd (while_loop fuel self message l w)).
Proof.
  intros Hexit Hpass.
  induction fuel as [|fuel IH]; intros l w Hinv Hfuel; cbn [while_loop];
    destruct (refinement_count l <? max_refinements self)%Z eqn:Hlt;
    try (apply Z.ltb_ge in Hlt; cbn [ret fst snd]; now apply Hexit).
  - apply Z.ltb_lt in Hlt. lia.
  - apply Z.ltb_lt in Hlt.
    specialize (Hpass l w Hinv Hlt).
    destruct (loop_body_calls self message l w) as (_ & _ & _ & _ & Hno & Hcount).
    unfold bind.
    destruct (loop_body self message l w) as [[[[|] l'] | e |] w1];
      cbn [fst snd ret] in *; try assumption; try congruence.
    apply IH; [assumption|]. rewrite (Hcount l' eq_refl). lia.
Qed.

(** The rule, for a whole run of [generate_locals]. *)
Lemma generate_locals_rule self message x h
    (Inv : Locals -> World -> Prop) (Post : outcome Locals -> World -> Prop) :
  (forall e x1, generator_llm_generate message x = (Raised e, x1) ->
     Post (Raise e) {| collaborators := x1; refinement_history := [];
                       trace := [GeneratorCall message] |}) ->
  (forall r x1, generator_llm_generate message x = (Returned r, x1) ->
     Inv {| refinement_count := 0; current_response := r;
            best_response := r; best_rating := POOR |}
         {| collaborators := x1; refinement_history := [];
            trace := [GeneratorCall message] |}) ->
  (forall l w, Inv l w ->
     (max_refinements self <= refinement_count l)%Z -> Post (Ok l) w) ->
  (forall l w, Inv l w ->
     (refinement_count l < max_refinements self)%Z ->
     match loop_body self message l w with
     | (Ok (Continue, l'), w') => Inv l' w'
     | (Ok (Break, l'), w') => Post (Ok l') w'
     | (Raise e, w') => Post (Raise e) w'
     | (OutOfFuel, _) => True
     end) ->
  Post (fst (generate_locals self message (start x h)))
       (snd (generate_locals self message (start x h))).
Proof.
  intros Hraise Hinit Hexit Hpass.
  rewrite generate_locals_eq. cbv zeta. cbn [start collaborators trace app].
  destruct (generator_llm_generate message x) as [[r | e] x1] eqn:Hgen.
  - apply (while_loop_rule self message Inv Post Hexit Hpass).
    + now apply (Hinit r x1).
    + cbn [refinement_count]. lia.
  - cbn [fst snd]. now apply (Hraise e x1).
Qed.

(** What [generate] ends with is what [generate_locals] ends with, up
    to the [return]. *)
Lemma generate_outcome self message w :
  fst (generate self message w) =
  match fst (generate_locals self message w) with
  | Ok l => Ok (best_response l)
  | Raise e => Raise e
  | OutOfFuel => OutOfFuel
  end.
Proof.
  rewrite generate_eq.
  now destruct (generate_locals self message w) as [[l | e |] w'].
Qed.

(** *** The best rating only grows *)

Lemma tracked_ratings_app (t1 t2 : list event) :
  tracked_ratings (t1 ++ t2) = tracked_ratings t1 ++ tracked_ratings t2.
Proof.
  induction t1 as [|ev t1 IH]; [reflexivity|].
  destruct ev; cbn [app tracked_ratings]; rewrite IH; reflexivity.
Qed.

Lemma StronglySorted_snoc {A : Type} (R : A -> A -> Prop) (l : list A) (x : A) :
  StronglySorted R l -> Forall (fun a => R a x) l -> StronglySorted R (l ++ [x]).
Proof.
  induction 1 as [|a l Hsorted IH Hall]; intros Hx; cbn [app].
  - repeat constructor.
  - inversion Hx as [|? ? Hax Hlx]; subst. constructor.
    + now apply IH.
    + apply Forall_app. split; [assumption | now constructor].
Qed.

Lemma track_best_grows l e : rating_le (best_rating l) (best_rating (track_best l e)).
Proof.
  unfold rating_le, track_best. rewrite value_gt_rank.
  destruct (rank (best_rating l) <? rank (rating e))%Z eqn:Hgt;
    cbn [best_rating]; [apply Z.ltb_lt in Hgt|]; lia.
Qed.

Lemma ratings_in_order_tracked l w e prompt h :
  ratings_in_order l w ->
  StronglySorted rating_le
    (tracked_ratings
       ((trace w ++ [EvaluatorCall prompt])
        ++ [Tracked (best_rating (track_best l e))
              (best_response (track_best l e)) h])) /\
  Forall (fun q => rating_le q (best_rating (track_best l e)))
    (tracked_ratings
       ((trace w ++ [EvaluatorCall prompt])
        ++ [Tracked (best_rating (track_best l e))
              (best_response (track_best l e)) h])).
Proof.
  intros [Hsorted Hbelow].
  rewrite !tracked_ratings_app. cbn [tracked_ratings]. rewrite app_nil_r.
  assert (Hbelow' : Forall (fun q => rating_le q (best_rating (track_best l e)))
                      (tracked_ratings (trace w))).
  { eapply Forall_impl; [|exact Hbelow]. intros q Hq.
    pose proof (track_best_grows l e). unfold rating_le in *. lia. }
  split.
  - now apply StronglySorted_snoc.
  - apply Forall_app. split; [assumption|].
    constructor; [unfold rating_le; lia | constructor].
Qed.

(** Across a run of [generate], successful or not, the value of
    [best_rating] after each evaluation is at least what it was after the
    evaluation before. *)
Theorem best_rating_never_decreases self message x h :
  StronglySorted rating_le
    (tracked_ratings (trace (snd (generate self message (start x h))))).
Proof.
  rewrite generate_world.
  apply (generate_locals_rule self message x h ratings_in_order
           (fun _ w => StronglySorted rating_le (tracked_ratings (trace w)))).
  - intros e x1 _. cbn. constructor.
  - intros r x1 _. split; cbn; constructor.
  - intros l w [Hsorted _] _. exact Hsorted.
  - intros l w Hinv _.
    pass_cases w.
    + exact (proj1 (ratings_in_order_tracked l w ev prompt _ Hinv)).
    + destruct (ratings_in_order_tracked l w ev prompt
                  (refinement_history w ++
                   [{| attempt := refinement_count l + 1;
                       response := current_response l;
                       evaluation_result := ev |}]) Hinv) as [Hs Hb].
      split; cbn [trace best_rating];
        rewrite tracked_ratings_app; cbn [tracked_ratings];
        rewrite app_nil_r; assumption.
    + cbn [trace]. rewrite tracked_ratings_app. cbn [tracked_ratings].
      rewrite app_nil_r.
      exact (proj1 (ratings_in_order_tracked l w ev prompt _ Hinv)).
    + cbn [trace]. rewrite tracked_ratings_app. cbn [tracked_ratings].
      rewrite app_nil_r. exact (proj1 Hinv).
    + exact (proj1 Hinv).
Qed.

(** *** Records and calls *)

Ltac count_events :=
  cbn [trace refinement_history refinement_count] in *;
  rewrite ?generator_calls_app, ?evaluator_calls_app, ?length_app in *;
  unfold generator_calls, evaluator_calls in *;
  cbn [filter is_generator_call is_evaluator_call List.length app] in *.

Lemma attempts_numbered_snoc (h : list RefinementRecord) r :
  attempts_numbered h ->
  attempt r = (Z.of_nat (List.length h) + 1)%Z ->
  attempts_numbered (h ++ [r]).
Proof.
  unfold attempts_numbered. intros Hh Hr.
  rewrite map_app, length_app, seq_app, map_app, Hh. cbn [List.length seq map].
  rewrite Hr. do 2 f_equal. lia.
Qed.

(** After a run of [generate], successful or not, [refinement_history]
    holds the records of this run only, with [attempt] running 1, 2, 3,
    ... in order, whatever earlier runs left there. *)
Theorem attempts_are_numbered self message x h :
  attempts_numbered (refinement_history (snd (generate self message (start x h)))).
Proof.
  rewrite generate_world.
  apply (generate_locals_rule self message x h count_is_length
           (fun _ w => attempts_numbered (refinement_history w))).
  - intros e x1 _. reflexivity.
  - intros r x1 _. split; reflexivity.
  - intros l w [_ Hnum] _. exact Hnum.
  - intros l w [Hcount Hnum] _.
    assert (Hsnoc : forall ev,
              attempts_numbered
                (refinement_history w ++
                 [{| attempt := refinement_count l + 1;
                     response := current_response l;
                     evaluation_result := ev |}]))
      by (intros ev; apply attempts_numbered_snoc; [assumption | cbn; lia]).
    pass_cases w; cbn [refinement_history]; try apply Hsnoc; try assumption.
    split; cbn [refinement_count refinement_history];
      [rewrite length_app; cbn [List.length]; lia | apply Hsnoc].
Qed.

Lemma call_kinds_app (t1 t2 : list event) :
  call_kinds (t1 ++ t2) = (call_kinds t1 ++ call_kinds t2)%list.
Proof.
  induction t1 as [|ev t1 IH]; [reflexivity|].
  destruct ev; cbn [app call_kinds]; rewrite IH; reflexivity.
Qed.

Lemma turns_S (n : nat) : turns (S n) = (turns n ++ [Nat.even n])%list.
Proof. unfold turns. now rewrite seq_S, map_app. Qed.

Lemma turns_length (n : nat) : List.length (turns n) = n.
Proof. unfold turns. now rewrite length_map, length_seq. Qed.

Lemma even_double (k : nat) : Nat.even (2 * k) = true.
Proof. apply Nat.even_spec. now exists k. Qed.

Lemma even_double_1 (k : nat) : Nat.even (2 * k + 1) = false.
Proof.
  rewrite <- Nat.negb_odd. apply negb_false_iff, Nat.odd_spec. now exists k.
Qed.

(** After a call to the evaluator, and after one to the generator that
    follows it. *)
Lemma turns_evaluator (k : nat) :
  (turns (2 * k + 1) ++ [false])%list = turns (2 * k + 2).
Proof.
  replace (2 * k + 2)%nat with (S (2 * k + 1)) by lia.
  now rewrite turns_S, even_double_1.
Qed.

Lemma turns_generator (k : nat) :
  ((turns (2 * k + 1) ++ [false]) ++ [true])%list = turns (2 * (k + 1) + 1).
Proof.
  rewrite turns_evaluator.
  replace (2 * (k + 1) + 1)%nat with (S (2 * (k + 1))) by lia.
  rewrite turns_S, even_double. do 2 f_equal. lia.
Qed.

(** The calls of a run are made in turn, the generator first. *)
Lemma calls_in_turn self message x h :
  exists n : nat,
    call_kinds (trace (snd (generate_locals self message (start x h))))
    = turns n.
Proof.
  apply (generate_locals_rule self message x h generator_called_last
           (fun _ w => exists n : nat, call_kinds (trace w) = turns n)).
  - intros e x1 _. now exists 1%nat.
  - intros r x1 _. now exists 0%nat.
  - intros l w [k Hk] _. now exists (2 * k + 1)%nat.
  - intros l w [k Hk] _. unfold generator_called_last.
    pass_cases w; cbn [trace];
      rewrite ?call_kinds_app, Hk; cbn [call_kinds]; rewrite ?app_nil_r.
    + exists (2 * k + 2)%nat. apply turns_evaluator.
    + exists (k + 1)%nat. apply turns_generator.
    + exists (2 * (k + 1) + 1)%nat. apply turns_generator.
    + exists (2 * k + 2)%nat. apply turns_evaluator.
    + now exists (2 * k + 1)%nat.
Qed.

(** In every run of [generate] the calls alternate, generator first:
    call number [i], counting from 0, is to the generator when [i] is even
    and to the evaluator when [i] is odd.  So there are as many generator
    calls as evaluator calls, or one more; every record stands for an
    evaluator call, at most one evaluator call (one that raised) has no
    record, and a run that returns has exactly one record per evaluator
    call. *)
Theorem calls_and_records self message x h :
  let run := generate self message (start x h) in
  let t := trace (snd run) in
  let n := Z.of_nat (List.length (refinement_history (snd run))) in
  call_kinds t = map Nat.even (seq 0 (List.length (call_kinds t))) /\
  (evaluator_calls t <= generator_calls t <= evaluator_calls t + 1)%Z /\
  (n <= evaluator_calls t <= n + 1)%Z /\
  match fst run with
  | Ok _ => evaluator_calls t = n
  | _ => True
  end.
Proof.
  cbv zeta. rewrite generate_outcome, generate_world.
  split.
  { destruct (calls_in_turn self message x h) as [n Hn].
    rewrite Hn at 2. rewrite turns_length. exact Hn. }
  assert (Hrun : calls_alternate
                   (fst (generate_locals self message (start x h)))
                   (snd (generate_locals self message (start x h)))).
  { apply (generate_locals_rule self message x h generation_pending calls_alternate).
    - intros e x1 _. unfold calls_alternate. count_events. lia.
    - intros r x1 _. unfold generation_pending. count_events. lia.
    - intros l w [Hg He] _. unfold calls_alternate. lia.
    - intros l w [Hg He] _. unfold calls_alternate, generation_pending.
      pass_cases w; count_events; lia. }
  destruct Hrun as (H1 & H2 & H3).
  destruct (fst (generate_locals self message (start x h))); auto.
Qed.

(** A run of [generate] that returns stopped at the first acceptable
    evaluation, right after recording it, or went through all
    [max_refinements] evaluations without an acceptable one and made one
    last generation, which is not evaluated. *)
Theorem run_stops_properly self message x h :
  match fst (generate self message (start x h)) with
  | Ok _ => stopped_properly self (snd (generate self message (start x h)))
  | _ => True
  end.
Proof.
  rewrite generate_outcome, generate_world.
  assert (Hrun : match fst (generate_locals self message (start x h)) with
                 | Ok _ => stopped_properly self
                             (snd (generate_locals self message (start x h)))
                 | _ => True
                 end).
  { apply (generate_locals_rule self message x h (still_refining self)
             (fun o w => match o with
                         | Ok _ => stopped_properly self w
                         | _ => True
                         end)).
    - intros e x1 _. exact I.
    - intros r x1 _. unfold still_refining. count_events.
      repeat split; try lia. constructor.
    - intros l w (Hcount & Hmax & Hall & Hgen) Hexit. right.
      repeat split; try assumption. lia.
    - intros l w (Hcount & Hmax & Hall & Hgen) Hlt.
      pass_cases w; try exact I.
      + left. eexists _, _. split; [reflexivity|].
        repeat split; try assumption. count_events. lia.
      + unfold still_refining. count_events. repeat split; try lia.
        apply Forall_app. split; [assumption|].
        constructor; [exact Hacc | constructor]. }
  destruct (fst (generate_locals self message (start x h))); auto.
Qed.

(** *** Failures *)


(** A controller whose evaluator is a criteria string cannot evaluate:
    with [max_refinements >= 1], once the initial generation has returned,
    [generate] raises the [AttributeError] of the missing [instruction],
    after that one generator call and without calling the evaluator. *)
Theorem criteria_string_cannot_evaluate self message x h criteria r x1 :
  evaluator self = EvaluatorCriteria criteria ->
  (1 <= max_refinements self)%Z ->
  generator_llm_generate message x = (Returned r, x1) ->
  generate self message (start x h) =
    (Raise no_instruction,
     {| collaborators := x1; refinement_history := [];
        trace := [GeneratorCall message] |}).
Proof.
  intros Hev Hmax Hgen.
  rewrite generate_eq, generate_locals_eq. cbv zeta.
  cbn [start collaborators trace app]. rewrite Hgen.
  destruct (Z.to_nat (max_refinements self)) as [|fuel] eqn:Hfuel; [lia|].
  rewrite while_loop_enter by (cbn [refinement_count]; lia).
  rewrite loop_body_eq.
  unfold _build_eval_prompt, evaluator_instruction. rewrite Hev. reflexivity.
Qed.


(** *** The evaluation prompt *)

(** The evaluation prompt of an evaluator with an instruction, as one
    concatenation around its blocks. *)
Lemma eval_prompt_eq self request current iteration instruction :
  evaluator_instruction self = Returned instruction ->
  _build_eval_prompt self request current iteration =
  Returned (eval_prompt_head ++ eval_iteration_sentence iteration
            ++ eval_prompt_data ++ eval_request_block request
            ++ eval_prompt_gap ++ eval_response_block current
            ++ eval_prompt_gap ++ eval_criteria_block instruction
            ++ eval_prompt_rest)%string.
Proof.
  intros Hi. unfold _build_eval_prompt. rewrite Hi. f_equal.
  unfold eval_iteration_sentence, eval_request_block, eval_response_block,
    eval_criteria_block.
  rewrite !PyStrFacts.append_assoc. reflexivity.
Qed.

(** [_build_eval_prompt] fails exactly for an evaluator given as a
    string; for an agent or an LLM it returns a prompt that carries the
    request, the candidate and the evaluator's instruction, each in its
    block, and names the iteration counting from 1. *)
Theorem eval_prompt_contents self request current iteration :
  match evaluator self with
  | EvaluatorCriteria _ =>
      _build_eval_prompt self request current iteration = Raised no_instruction
  | EvaluatorAgent instruction | EvaluatorLLM instruction =>
      exists prompt,
        _build_eval_prompt self request current iteration = Returned prompt /\
        PyStr.Substr (eval_iteration_sentence iteration) prompt /\
        PyStr.Substr (eval_request_block request) prompt /\
        PyStr.Substr (eval_response_block current) prompt /\
        PyStr.Substr (eval_criteria_block instruction) prompt
  end.
Proof.
  assert (Hblocks : forall instruction,
            evaluator_instruction self = Returned instruction ->
            exists prompt,
              _build_eval_prompt self request current iteration = Returned prompt /\
              PyStr.Substr (eval_iteration_sentence iteration) prompt /\
              PyStr.Substr (eval_request_block request) prompt /\
              PyStr.Substr (eval_response_block current) prompt /\
              PyStr.Substr (eval_criteria_block instruction) prompt).
  { intros instruction Hi. eexists. split; [exact (eval_prompt_eq _ _ _ _ _ Hi)|].
    repeat split.
    - apply PyStrFacts.Substr_app_r, PyStrFacts.Substr_app_l, PyStrFacts.Substr_refl.
    - do 3 apply PyStrFacts.Substr_app_r.
      apply PyStrFacts.Substr_app_l, PyStrFacts.Substr_refl.
    - do 5 apply PyStrFacts.Substr_app_r.
      apply PyStrFacts.Substr_app_l, PyStrFacts.Substr_refl.
    - do 7 apply PyStrFacts.Substr_app_r.
      apply PyStrFacts.Substr_app_l, PyStrFacts.Substr_refl. }
  destruct (evaluator self) as [criteria | instruction | instruction] eqn:Hev;
    [ unfold _build_eval_prompt, evaluator_instruction; now rewrite Hev
    | apply Hblocks; unfold evaluator_instruction; now rewrite Hev .. ].
Qed.

End Runs.

(** ** On the scripted collaborators *)

Lemma criteria_string_cannot_evaluate_witness :
  evaluator (criteria_controller 3) = EvaluatorCriteria "Rate the answer." /\
  (1 <= max_refinements (criteria_controller 3))%Z /\
  @generator_llm_generate scripted (MsgStr "task") ([improve GOOD], 0%nat)
    = (Returned (candidate 1), ([improve GOOD], 1%nat)) /\
  scripted_run (criteria_controller 3) [improve GOOD] =
    (Raise no_instruction,
     @Build_World scripted ([improve GOOD], 1%nat) []
       [@GeneratorCall scripted (MsgStr "task")]).
Proof.
  assert (H1 : evaluator (criteria_controller 3)
               = EvaluatorCriteria "Rate the answer.") by reflexivity.
  assert (H2 : (1 <= max_refinements (criteria_controller 3))%Z) by (cbn; lia).
  assert (H3 : @generator_llm_generate scripted (MsgStr "task")
                 ([improve GOOD], 0%nat)
               = (Returned (candidate 1), ([improve GOOD], 1%nat)))
    by reflexivity.
  repeat (split; [assumption|]).
  exact (@criteria_string_cannot_evaluate scripted (criteria_controller 3)
           (MsgStr "task") _ [] _ _ _ H1 H2 H3).
Defined.

End RefinementRunFacts.

(* ===================================================================== *)
(** * Facts about the construction of the controller *)
(* ===================================================================== *)

Module ConstructionFacts.
Import EvaluatorOptimizer.

Section Facts.
Variable LLM : Type.
Variable make_agent : string -> string -> result (Agent LLM).

(** Without an [llm_factory], [__init__] succeeds exactly when both the
    generator and the evaluator are LLMs already; otherwise it raises a
    [ValueError], also for an agent that has an LLM attached and would
    not need the factory.  Either way no factory is called. *)
Theorem init_without_factory (generator : GeneratorArg LLM)
    (evaluator : EvaluatorArg LLM) min max calls :
  let run := __init__ LLM make_agent generator evaluator min max None calls in
  snd run = calls /\
  if generator_is_llm LLM generator && evaluator_is_llm LLM evaluator
  then exists c, fst run = Ok c
  else exists complaint, fst run = Raise (ValueError complaint).
Proof.
  cbv zeta. unfold __init__, llm_of_agent, bind, ret, raise.
  destruct generator as [a | n l], evaluator as [criteria | a' | l'];
    cbn; split; try reflexivity; eexists; reflexivity.
Qed.

(** With an [llm_factory]: the factory is called at most twice, and
    only with an agent argument that has no LLM or with the agent
    constructed for the criteria string; [__init__] fails only with what
    a factory call or the construction of that agent raised; and when it
    succeeds the factory was called with exactly the agents that needed an
    LLM, and an LLM attached to an agent argument is the one the
    controller uses. *)
Theorem init_with_factory (generator : GeneratorArg LLM)
    (evaluator : EvaluatorArg LLM) min max factory calls :
  let run := __init__ LLM make_agent generator evaluator min max
               (Some factory) calls in
  exists built,
    snd run = calls ++ built /\
    (List.length built <= 2)%nat /\
    Forall (needs_llm LLM make_agent generator evaluator) built /\
    match fst run with
    | Ok c =>
        built = agents_to_build LLM make_agent generator evaluator /\
        (forall a l, generator = GeneratorIsAgent LLM a -> _llm LLM a = Some l ->
                     self_generator_llm LLM c = l) /\
        (forall a l, evaluator = EvaluatorIsAgent LLM a -> _llm LLM a = Some l ->
                     self_evaluator_llm LLM c = l)
    | Raise e =>
        (exists a, In a built /\ factory a = Raised e) \/
        (exists criteria, evaluator = EvaluatorIsStr LLM criteria /\
                          make_agent "Evaluator" criteria = Raised e)
    | OutOfFuel => False
    end.
Proof.
  cbv zeta.
  unfold __init__, llm_of_agent, call_factory, agents_to_build, needs_llm,
    bind, ret, raise, lift_result.
  destruct generator as [a | n l], evaluator as [criteria | a' | l']; cbn;
    repeat match goal with
           | |- context [_llm LLM ?a] =>
               let H := fresh "Hllm" in destruct (_llm LLM a) eqn:H; cbn
           | |- context [make_agent ?n ?c] =>
               let H := fresh "Hm" in destruct (make_agent n c) eqn:H; cbn
           | |- context [factory ?a] =>
               let H := fresh "Hf" in destruct (factory a) eqn:H; cbn
           end;
    first [ exists []; split; [symmetry; apply app_nil_r|]
          | eexists; split; [rewrite <- ?app_assoc; reflexivity|] ];
    (split; [cbn; lia|]);
    (split;
     [repeat (apply Forall_cons;
              [first [ left; split;
                       [assumption
                       | first [left; reflexivity | right; reflexivity]]
                     | right; eexists; split; [reflexivity | eassumption] ]|]);
      apply Forall_nil|]).
  all: try (split; [reflexivity|]; split; intros ? ? Heq Hl;
            try discriminate Heq; injection Heq as <-; congruence).
  all: first [ left; eexists; split; [|eassumption]; cbn; now auto
             | right; eexists; split; [reflexivity | eassumption] ].
Qed.

End Facts.

(** A constructor of [Agent] that does not take the two keyword
    arguments: a criteria string then fails at line 151, after the factory
    has made the LLM of the generator. *)
Example criteria_string_needs_the_agent_constructor :
  let make_agent := fun _ _ : string =>
    Raised (TypeError "unexpected keyword argument") in
  let generator :=
    {| agent_name := "writer"; agent_instruction := "write"; _llm := None |} in
  __init__ nat make_agent (GeneratorIsAgent nat generator)
    (EvaluatorIsStr nat "be brief") GOOD 3 (Some (fun _ => Returned 7%nat)) []
  = (Raise (TypeError "unexpected keyword argument"), [generator]).
Proof. reflexivity. Qed.

End ConstructionFacts.

(* ===================================================================== *)
(** * More facts about strings *)
(* ===================================================================== *)

Module PyStrMoreFacts.
Import PyStr PyStrFacts Passthrough.
Local Open Scope string_scope.

Lemma prefix_space (c : ascii) (s : string) :
  String.prefix " " (String c s) = Ascii.eqb " " c.
Proof.
  cbn [String.prefix]. destruct (Ascii.ascii_dec " " c) as [<- | Hne].
  - now destruct s.
  - symmetry. apply Ascii.eqb_neq. exact Hne.
Qed.

(** [split_once] on a space: no space, no split; otherwise the text
    before the first space, which has none, and the text after it. *)
Lemma split_once_space (s : string) :
  if contains_char " " s
  then exists hd tl, split_once " " s = (hd, Some tl) /\
                     contains_char " " hd = false /\ s = hd ++ " " ++ tl
  else split_once " " s = (s, None).
Proof.
  induction s as [|c s IH]; [reflexivity|].
  cbn [contains_char split_once]. rewrite prefix_space.
  destruct (Ascii.eqb " " c) eqn:Hc.
  - apply Ascii.eqb_eq in Hc as <-. exists "", s. repeat split.
  - destruct (contains_char " " s).
    + destruct IH as (hd & tl & -> & Hhd & ->).
      exists (String c hd), tl. repeat split. cbn [contains_char].
      now rewrite Hc.
    + now rewrite IH.
Qed.

(** Splitting on spaces loses nothing: joining the parts with spaces
    gives the string back. *)
Lemma join_split_space (n : nat) : forall s, join " " (split " " n s) = s.
Proof.
  induction n as [|n IH]; intros s; [reflexivity|].
  cbn [split]. pose proof (split_once_space s) as Hs.
  destruct (contains_char " " s).
  - destruct Hs as (hd & tl & -> & _ & ->).
    specialize (IH tl). destruct (split " " n tl) as [|p ps] eqn:Hp.
    + destruct n; cbn in Hp; [discriminate|].
      destruct (split_once " " tl) as [? [?|]]; discriminate.
    + cbn [join]. cbn [join] in IH. now rewrite IH.
  - now rewrite Hs.
Qed.

Lemma split_nonempty (sep : string) (n : nat) (s : string) : split sep n s <> [].
Proof.
  destruct n; cbn; [discriminate|].
  destruct (split_once sep s) as [? [?|]]; discriminate.
Qed.

(** *** strip *)

Lemma rstrip_idempotent (s : string) : rstrip (rstrip s) = rstrip s.
Proof.
  induction s as [|c s IH]; [reflexivity|].
  cbn [rstrip]. destruct (rstrip s) as [|d r] eqn:Hr.
  - destruct (isspace c) eqn:Hc; [reflexivity|]. cbn [rstrip]. now rewrite Hc.
  - cbn [rstrip]. cbn [rstrip] in IH. now rewrite IH.
Qed.

Lemma lstrip_head (s : string) :
  match lstrip s with
  | EmptyString => True
  | String c _ => isspace c = false
  end.
Proof.
  induction s as [|c s IH]; [exact I|].
  cbn [lstrip]. destruct (isspace c) eqn:Hc; assumption.
Qed.

Lemma rstrip_head (c : ascii) (s : string) :
  isspace c = false -> exists r, rstrip (String c s) = String c r.
Proof.
  intros Hc. cbn [rstrip]. destruct (rstrip s) as [|d r].
  - rewrite Hc. now exists "".
  - now exists (String d r).
Qed.

(** Stripping a stripped string changes nothing. *)
Lemma strip_idempotent (s : string) : strip (strip s) = strip s.
Proof.
  unfold strip. pose proof (lstrip_head s) as Hhead.
  destruct (lstrip s) as [|c t] eqn:Hl; [reflexivity|].
  destruct (rstrip_head c t Hhead) as [r Hr].
  rewrite Hr. cbn [lstrip]. rewrite Hhead, <- Hr.
  apply rstrip_idempotent.
Qed.

End PyStrMoreFacts.

(* ===================================================================== *)
(** * More facts about the passthrough LLM *)
(* ===================================================================== *)

Module PassthroughMoreFacts.
Import PyStr PyStrFacts PyStrMoreFacts Passthrough PassthroughFacts.
Local Open Scope string_scope.



Lemma last_item_none {A : Type} (l : list A) : last_item l = None <-> l = [].
Proof.
  split; [|now intros ->].
  induction l as [|x [|y l] IH]; cbn; try reflexivity; try discriminate.
  intros Hl. specialize (IH Hl). discriminate IH.
Qed.

Section Facts.
Context {H : Host}.

(** *** Parsing a tool command *)

(** The ways [_parse_tool_command] ends, by the spaces of the command. *)
Lemma parse_cases (command : string) :
  if contains_char " " command then
    exists p0 rest, command = p0 ++ " " ++ rest /\
      if contains_char " " rest then
        exists name raw, rest = name ++ " " ++ raw /\
          contains_char " " name = false /\
          _parse_tool_command command =
            match json_loads raw with
            | JsonValue arguments => Returned (strip name, Some arguments)
            | JsonDecodeError =>
                Raised (ValueError ("Invalid JSON arguments: " ++ raw))
            | JsonRaises e => Raised e
            end
      else _parse_tool_command command = Returned (strip rest, None)
  else _parse_tool_command command = Raised (ValueError format_complaint).
Proof.
  unfold _parse_tool_command. cbn [split].
  pose proof (split_once_space command) as Hc.
  destruct (contains_char " " command).
  - destruct Hc as (p0 & rest & -> & _ & Hcommand). exists p0, rest.
    split; [assumption|].
    pose proof (split_once_space rest) as Hr.
    destruct (contains_char " " rest).
    + destruct Hr as (name & raw & -> & Hname & Hrest). exists name, raw.
      repeat split; assumption.
    + now rewrite Hr.
  - now rewrite Hc.
Qed.

(** [_parse_tool_command] raises its format error exactly for the
    commands with no space in them. *)
Theorem parse_format_error (command : string) :
  _parse_tool_command command = Raised (ValueError format_complaint)
  <-> contains_char " " command = false.
Proof.
  pose proof (parse_cases command) as Hp.
  destruct (contains_char " " command); split; try congruence; try discriminate.
  intros Hparse. exfalso.
  destruct Hp as (p0 & rest & _ & Hrest).
  destruct (contains_char " " rest).
  - destruct Hrest as (name & raw & _ & _ & Heq). rewrite Heq in Hparse.
    destruct (json_loads raw) as [v | | e] eqn:Hjson.
    + discriminate Hparse.
    + injection Hparse as Hmsg. cbn in Hmsg. discriminate Hmsg.
    + injection Hparse as ->. exact (json_loads_raises raw Hjson).
  - rewrite Hrest in Hparse. discriminate Hparse.
Qed.

(** The tool name that [_parse_tool_command] returns has no white space
    around it. *)
Theorem parsed_tool_name_is_stripped (command name : string) arguments :
  _parse_tool_command command = Returned (name, arguments) ->
  strip name = name.
Proof.
  intros Hparse. pose proof (parse_cases command) as Hp.
  destruct (contains_char " " command).
  - destruct Hp as (p0 & rest & _ & Hrest).
    destruct (contains_char " " rest).
    + destruct Hrest as (n & raw & _ & _ & Heq). rewrite Heq in Hparse.
      destruct (json_loads raw); try discriminate Hparse.
      injection Hparse as <- _. apply strip_idempotent.
    + rewrite Hrest in Hparse. injection Hparse as <- _. apply strip_idempotent.
  - rewrite Hp in Hparse. discriminate Hparse.
Qed.


(** *** The tool path *)

(** The tool path gives back a text, whatever happens in it. *)
Lemma call_tool_returns (command : string) (w : World) :
  exists text, fst (_call_tool_and_return_result command w) = Ok text.
Proof.
  unfold _call_tool_and_return_result, try_except, bind, lift_result, call_tool, ret.
  destruct (_parse_tool_command command) as [[name arguments] | e]; cbn;
    [|eexists; reflexivity].
  destruct (aggregator_call_tool name arguments (aggregator w)) as [[r | e] t];
    cbn; eexists; reflexivity.
Qed.

(** For a tool command (a [str] that starts with the marker and a
    space) [generate_str] never raises: a failing parse and an exception
    of the tool come back as text.  It calls the tool at most once and
    leaves the stored fixed response alone. *)
Theorem tool_command_never_raises (command : string) (w : World) :
  startswith command "***CALL_TOOL " = true ->
  exists text,
    fst (generate_str (VStr command) w) = Ok text /\
    at_most_one_tool_call w (snd (generate_str (VStr command) w)) /\
    _fixed_response (snd (generate_str (VStr command) w)) = _fixed_response w.
Proof.
  intros Hstart. unfold at_most_one_tool_call. cbn [generate_str]. rewrite Hstart.
  unfold _call_tool_and_return_result, try_except, bind, lift_result, call_tool, ret.
  destruct (_parse_tool_command command) as [[name arguments] | e]; cbn;
    [|eexists; repeat split; now left].
  destruct (aggregator_call_tool name arguments (aggregator w)) as [[r | e] t];
    cbn; eexists; repeat split; right; now exists name, arguments.
Qed.

(** *** _apply_prompt_provider_specific *)

(** [parts[1]] of the split of a fixed-response command is always
    there. *)
Lemma fixed_command_rest (text : string) :
  startswith text FIXED_RESPONSE_INDICATOR = true ->
  item1 (split FIXED_RESPONSE_INDICATOR 1 text)
  = Returned (drop (String.length FIXED_RESPONSE_INDICATOR) text).
Proof. intros Hstart. now rewrite (split_1_startswith _ _ Hstart). Qed.

(** Without a fixed response in force, a non-command request is echoed:
    the reply is [Prompt.assistant] of the text of all its messages, one
    per line, and the instance is left as it was. *)
Lemma apply_echoes request w :
  non_command request -> no_override w ->
  _apply_prompt_provider_specific request w = (echo request, w).
Proof.
  intros (m & Hlast & Hcmd) Hno.
  unfold is_command in Hcmd. apply orb_false_iff in Hcmd as [Htool Hfix].
  unfold _apply_prompt_provider_specific, is_tool_call, echo, reply_of.
  rewrite Hlast, Htool, Hfix.
  unfold bind, ret, get_fixed_response, reply_with, lift_result. cbn.
  unfold no_override in Hno.
  destruct (_fixed_response w) as [text|]; [now rewrite Hno | reflexivity].
Qed.

Lemma apply_keeps_no_override request w :
  no_fixed_command request -> no_override w ->
  no_override (snd (_apply_prompt_provider_specific request w)).
Proof.
  intros Hno Hw. unfold no_override.
  now rewrite (apply_keeps_fixed_response request w Hno).
Qed.

Lemma serve_echoes : forall requests w,
  no_override w -> Forall no_fixed_command requests ->
  Forall2 (fun request reply => non_command request -> reply = echo request)
    requests (fst (serve requests w)).
Proof.
  induction requests as [|r requests IH]; intros w Hw Hno; cbn [serve].
  - constructor.
  - inversion Hno as [|? ? Hr Hrest]; subst.
    pose proof (apply_keeps_no_override r w Hr Hw) as Hkeep.
    pose proof (fun Hnc => apply_echoes r w Hnc Hw) as Hecho.
    destruct (_apply_prompt_provider_specific r w) as [o w1].
    specialize (IH w1 Hkeep Hrest).
    destruct (serve requests w1) as [os w2]. cbn [fst snd] in *.
    constructor; [|assumption].
    intros Hnc. specialize (Hecho Hnc). congruence.
Qed.

(** A new instance is a passthrough: as long as no fixed-response
    command is processed, every non-command request through
    [_apply_prompt_provider_specific] is answered with [Prompt.assistant]
    of the texts of its messages, one per line, whatever tool commands
    come in between and whether or not they fail. *)
Theorem new_instance_echoes (t : tools)
    (requests : list (list PromptMessageMultipart)) :
  Forall no_fixed_command requests ->
  Forall2 (fun request reply =>
             non_command request ->
             reply = of_result
                       (Prompt_assistant (join newline (map all_text request))))
    requests (fst (serve requests (init t))).
Proof. intros Hno. now apply serve_echoes. Qed.

(** A fixed-response command with nothing but white space after the
    marker switches the override off: the command itself and the
    non-command requests after it are answered with [Prompt.assistant]
    of the texts of their own messages, whatever was stored before. *)
Theorem blank_fixed_response_restores_echo
    (command : list PromptMessageMultipart) (last_message : PromptMessageMultipart)
    (rest : string) (w : World) (requests : list (list PromptMessageMultipart)) :
  last_item command = Some last_message ->
  first_text last_message = FIXED_RESPONSE_INDICATOR ++ rest ->
  strip rest = "" ->
  Forall no_fixed_command requests ->
  fst (_apply_prompt_provider_specific command w)
    = of_result (Prompt_assistant (join newline (map all_text command))) /\
  Forall2 (fun request reply =>
             non_command request ->
             reply = of_result
                       (Prompt_assistant (join newline (map all_text request))))
    requests
    (fst (serve requests (snd (_apply_prompt_provider_specific command w)))).
Proof.
  intros Hlast Htext Hblank Hno.
  assert (Hstart : startswith (first_text last_message)
                     FIXED_RESPONSE_INDICATOR = true)
    by (rewrite Htext; apply prefix_append).
  assert (Hrun : _apply_prompt_provider_specific command w
                 = (echo command,
                    {| _fixed_response := Some "";
                       aggregator := aggregator w;
                       tool_calls := tool_calls w |})).
  { unfold _apply_prompt_provider_specific.
    rewrite Hlast, (fixed_command_is_no_tool_call _ Hstart), Hstart.
    rewrite (fixed_command_rest _ Hstart), Htext, drop_append.
    unfold bind, lift_result, set_fixed_response, get_fixed_response, ret,
      reply_with, echo, reply_of.
    cbn. rewrite Hblank. reflexivity. }
  rewrite Hrun. split; [reflexivity|].
  apply serve_echoes; [reflexivity | assumption].
Qed.

(** A last message that starts with the tool marker but not with the
    marker and a space is neither run as a tool nor answered like other
    requests: when the two display calls return, the reply is
    [Prompt.assistant] of the first text of that message alone, no tool is
    called, the instance is left as it was, and a stored fixed response is
    not used. *)
Theorem marker_without_space_is_echoed
    (request : list PromptMessageMultipart) (last_message : PromptMessageMultipart)
    (w : World) :
  last_item request = Some last_message ->
  is_tool_call last_message = true ->
  startswith (first_text last_message) "***CALL_TOOL " = false ->
  show_user_message (VStr (first_text last_message)) = None ->
  show_assistant_message (VStr (first_text last_message)) = None ->
  _apply_prompt_provider_specific request w
  = (of_result (Prompt_assistant (first_text last_message)), w).
Proof.
  intros Hlast Htool Hspace Huser Hassistant.
  unfold _apply_prompt_provider_specific. rewrite Hlast, Htool.
  unfold bind, ret, reply_with, lift_result, display. cbn [generate_str].
  rewrite Hspace. unfold bind, ret, display. now rewrite Huser, Hassistant.
Qed.

(** What a display call raised for [message]. *)
Lemma display_raises (message : Value Object) (w : World) (e : exn) :
  fst (display message w) = Raise e ->
  show_user_message message = Some e \/ show_assistant_message message = Some e.
Proof.
  unfold display.
  destruct (show_user_message message) as [e1|]; [intros [= <-]; now left|].
  destruct (show_assistant_message message) as [e2|]; [|discriminate].
  intros [= <-]. now right.
Qed.

(** [_apply_prompt_provider_specific] has three ways to fail and no
    other: the [IndexError] of [multipart_messages[-1]] for an empty list;
    what [Prompt.assistant] raises for the text of the reply; and, for a
    last message that starts with the tool marker but not with the marker
    and a space, what a display call raises.  The [[1]] of line 180 never
    fails, and a tool command fails at most in [Prompt.assistant]. *)
Theorem apply_prompt_failures (request : list PromptMessageMultipart)
    (w : World) (e : exn) :
  fst (_apply_prompt_provider_specific request w) = Raise e ->
  (request = [] /\ e = IndexError "list index out of range") \/
  (exists text, Prompt_assistant text = Raised e) \/
  (exists last_message,
     last_item request = Some last_message /\
     is_tool_call last_message = true /\
     startswith (first_text last_message) "***CALL_TOOL " = false /\
     (show_user_message (VStr (first_text last_message)) = Some e \/
      show_assistant_message (VStr (first_text last_message)) = Some e)).
Proof.
  assert (Hreply : forall text w',
            fst (reply_with text w') = Raise e ->
            exists text', Prompt_assistant text' = Raised e).
  { intros text w'. unfold reply_with, lift_result. cbn.
    destruct (Prompt_assistant text) as [r | e'] eqn:Hp; [discriminate|].
    intros [= <-]. now exists text. }
  unfold _apply_prompt_provider_specific.
  destruct (last_item request) as [m|] eqn:Hlast.
  - destruct (is_tool_call m) eqn:Htool.
    + unfold bind. cbn [generate_str].
      destruct (startswith (first_text m) "***CALL_TOOL ") eqn:Hspace.
      * destruct (call_tool_returns (first_text m) w) as [text Htext].
        destruct (_call_tool_and_return_result (first_text m) w) as [o w'].
        cbn [fst] in Htext. subst o. intros Hr. right. left.
        exact (Hreply _ _ Hr).
      * unfold bind, ret.
        destruct (display (VStr (first_text m)) w) as [[[] | e' |] w'] eqn:Hd.
        -- intros Hr. right. left. exact (Hreply _ _ Hr).
        -- intros [= <-]. right. right. exists m.
           repeat split; try assumption.
           apply (display_raises _ w). now rewrite Hd.
        -- discriminate.
    + destruct (startswith (first_text m) FIXED_RESPONSE_INDICATOR) eqn:Hfix.
      * rewrite (fixed_command_rest _ Hfix).
        unfold bind, lift_result, set_fixed_response, get_fixed_response, ret.
        cbn. destruct (truthy _); intros Hr; right; left;
          exact (Hreply _ _ Hr).
      * unfold bind, ret, get_fixed_response.
        destruct (_fixed_response w) as [text|]; [destruct (truthy text)|];
          intros Hr; right; left; exact (Hreply _ _ Hr).
  - intros [= <-]. left. split; [|reflexivity].
    now apply last_item_none.
Qed.

End Facts.

(** ** On the small host *)

Example demo_no_tool_name :
  @_parse_tool_command demo_host "***CALL_TOOL " = Returned ("", None).
Proof. reflexivity. Qed.

Example demo_arguments_keep_spaces :
  @_parse_tool_command demo_host "***CALL_TOOL  srv-echo  {a: b c}"
  = Raised (ValueError "Invalid JSON arguments: srv-echo  {a: b c}").
Proof. reflexivity. Qed.

Example demo_display_fails :
  fst (@generate_str demo_host (VStr "[/bold] markup") (@init demo_host 0%nat))
  = Raise (CollaboratorError
             "closing tag '[/bold]' at position 0 doesn't match any open tag").
Proof. reflexivity. Qed.

Lemma parsed_tool_name_is_stripped_witness :
  @_parse_tool_command demo_host "***CALL_TOOL srv-echo" = Returned ("srv-echo", None) /\
  strip "srv-echo" = "srv-echo".
Proof.
  assert (H1 : @_parse_tool_command demo_host "***CALL_TOOL srv-echo"
               = Returned ("srv-echo", None)) by reflexivity.
  split; [exact H1|].
  exact (@parsed_tool_name_is_stripped demo_host _ _ _ H1).
Defined.


Lemma tool_command_never_raises_witness :
  startswith deep_command "***CALL_TOOL " = true /\
  exists text,
    fst (@generate_str demo_host (VStr deep_command) (@init demo_host 0%nat))
      = Ok text /\
    at_most_one_tool_call (@init demo_host 0%nat)
      (snd (@generate_str demo_host (VStr deep_command) (@init demo_host 0%nat))) /\
    _fixed_response
      (snd (@generate_str demo_host (VStr deep_command) (@init demo_host 0%nat)))
    = _fixed_response (@init demo_host 0%nat).
Proof.
  assert (H1 : startswith deep_command "***CALL_TOOL " = true)
    by (vm_compute; reflexivity).
  split; [exact H1|].
  exact (@tool_command_never_raises demo_host deep_command
           (@init demo_host 0%nat) H1).
Defined.

Lemma apply_prompt_failures_witness :
  fst (@_apply_prompt_provider_specific demo_host [""] (@init demo_host 0%nat))
    = Raise (OSError "[Errno 21] Is a directory: '.'") /\
  ((([""] : list (@PromptMessageMultipart demo_host)) = [] /\
   OSError "[Errno 21] Is a directory: '.'"
   = IndexError "list index out of range") \/
  (exists text, @Prompt_assistant demo_host text
                = Raised (OSError "[Errno 21] Is a directory: '.'")) \/
  (exists last_message,
     @last_item (@PromptMessageMultipart demo_host) [""] = Some last_message /\
     @is_tool_call demo_host last_message = true /\
     startswith (@first_text demo_host last_message) "***CALL_TOOL " = false /\
     (@show_user_message demo_host (VStr (@first_text demo_host last_message))
        = Some (OSError "[Errno 21] Is a directory: '.'") \/
      @show_assistant_message demo_host (VStr (@first_text demo_host last_message))
        = Some (OSError "[Errno 21] Is a directory: '.'")))).
Proof.
  assert (H1 : fst (@_apply_prompt_provider_specific demo_host [""]
                      (@init demo_host 0%nat))
               = Raise (OSError "[Errno 21] Is a directory: '.'"))
    by reflexivity.
  split; [exact H1|].
  exact (@apply_prompt_failures demo_host [""] (@init demo_host 0%nat) _ H1).
Defined.

Lemma new_instance_echoes_witness :
  Forall (@no_fixed_command demo_host) [["hello"; "there"]; ["bye"]] /\
  Forall2 (fun request reply =>
             @non_command demo_host request ->
             reply = of_result
                       (@Prompt_assistant demo_host
                          (join newline (map (@all_text demo_host) request))))
    [["hello"; "there"]; ["bye"]]
    (fst (@serve demo_host [["hello"; "there"]; ["bye"]] (@init demo_host 0%nat))).
Proof.
  assert (H1 : Forall (@no_fixed_command demo_host) [["hello"; "there"]; ["bye"]])
    by (repeat constructor; intros m [= <-]; reflexivity).
  split; [exact H1|].
  exact (@new_instance_echoes demo_host 0%nat _ H1).
Defined.

Lemma blank_fixed_response_restores_echo_witness :
  @last_item string ["***FIXED_RESPONSE   "] = Some "***FIXED_RESPONSE   " /\
  "***FIXED_RESPONSE   " = FIXED_RESPONSE_INDICATOR ++ "   " /\
  strip "   " = "" /\
  Forall (@no_fixed_command demo_host) [["hello"]] /\
  fst (@_apply_prompt_provider_specific demo_host ["***FIXED_RESPONSE   "]
         (snd (@_apply_prompt_provider_specific demo_host
                 ["***FIXED_RESPONSE canned"] (@init demo_host 0%nat))))
    = of_result (@Prompt_assistant demo_host
                   (join newline
                      (map (@all_text demo_host) ["***FIXED_RESPONSE   "]))) /\
  Forall2 (fun request reply =>
             @non_command demo_host request ->
             reply = of_result
                       (@Prompt_assistant demo_host
                          (join newline (map (@all_text demo_host) request))))
    [["hello"]]
    (fst (@serve demo_host [["hello"]]
            (snd (@_apply_prompt_provider_specific demo_host
                    ["***FIXED_RESPONSE   "]
                    (snd (@_apply_prompt_provider_specific demo_host
                            ["***FIXED_RESPONSE canned"]
                            (@init demo_host 0%nat))))))).
Proof.
  assert (H1 : @last_item string ["***FIXED_RESPONSE   "]
               = Some "***FIXED_RESPONSE   ") by reflexivity.
  assert (H2 : "***FIXED_RESPONSE   " = FIXED_RESPONSE_INDICATOR ++ "   ")
    by reflexivity.
  assert (H3 : strip "   " = "") by reflexivity.
  assert (H4 : Forall (@no_fixed_command demo_host) [["hello"]])
    by (repeat constructor; intros m [= <-]; reflexivity).
  repeat (split; [assumption|]).
  exact (@blank_fixed_response_restores_echo demo_host
           ["***FIXED_RESPONSE   "] "***FIXED_RESPONSE   " "   "
           (snd (@_apply_prompt_provider_specific demo_host
                   ["***FIXED_RESPONSE canned"] (@init demo_host 0%nat)))
           [["hello"]] H1 H2 H3 H4).
Defined.

Lemma marker_without_space_is_echoed_witness :
  @last_item string ["first"; "***CALL_TOOLS list"] = Some "***CALL_TOOLS list" /\
  @is_tool_call demo_host "***CALL_TOOLS list" = true /\
  startswith "***CALL_TOOLS list" "***CALL_TOOL " = false /\
  @show_user_message demo_host (VStr "***CALL_TOOLS list") = None /\
  @show_assistant_message demo_host (VStr "***CALL_TOOLS list") = None /\
  @_apply_prompt_provider_specific demo_host ["first"; "***CALL_TOOLS list"]
    (snd (@_apply_prompt_provider_specific demo_host
            ["***FIXED_RESPONSE canned"] (@init demo_host 0%nat)))
  = (of_result (@Prompt_assistant demo_host "***CALL_TOOLS list"),
     snd (@_apply_prompt_provider_specific demo_host
            ["***FIXED_RESPONSE canned"] (@init demo_host 0%nat))).
Proof.
  assert (H1 : @last_item string ["first"; "***CALL_TOOLS list"]
               = Some "***CALL_TOOLS list") by reflexivity.
  assert (H2 : @is_tool_call demo_host "***CALL_TOOLS list" = true)
    by reflexivity.
  assert (H3 : startswith "***CALL_TOOLS list" "***CALL_TOOL " = false)
    by reflexivity.
  assert (H4 : @show_user_message demo_host (VStr "***CALL_TOOLS list") = None)
    by reflexivity.
  assert (H5 : @show_assistant_message demo_host (VStr "***CALL_TOOLS list") = None)
    by reflexivity.
  repeat (split; [assumption|]).
  exact (@marker_without_space_is_echoed demo_host
           ["first"; "***CALL_TOOLS list"] "***CALL_TOOLS list" _ H1 H2 H3 H4 H5).
Defined.

End PassthroughMoreFacts.

(* ===================================================================== *)
(** * Facts about mcp_content.py *)
(* ===================================================================== *)

Module McpContentFacts.
Import McpContent.
Local Open Scope string_scope.

Section Facts.
Context {E : Env}.
Variable str_dict : Dict -> string.

Lemma message_well_formed (role : Role) (c : Content) : well_formed (message role c).
Proof. split; reflexivity. Qed.

Lemma mime_or_truthy (mime_type : option string) (default : string) :
  default <> "" -> mime_or mime_type default <> "".
Proof.
  intros Hd. unfold mime_or. destruct mime_type as [[|c m]|]; cbn; congruence.
Qed.

(** What [MCPImage] and [MCPFile] return is a message with the role
    asked for. *)
Lemma MCPImage_message (path : option PathArg) (data : option bytes)
    mime_type role annotations m :
  MCPImage path data mime_type role annotations = Returned m ->
  exists c, m = message role c.
Proof.
  unfold MCPImage.
  destruct path as [a|], data as [d|]; try discriminate;
    [destruct (read_bytes (to_path a)); [|discriminate]|];
    intros [= <-]; eexists; reflexivity.
Qed.

Lemma MCPFile_message (path : PathArg) mime_type role annotations m :
  MCPFile path mime_type role annotations = Returned m ->
  exists c, m = message role c.
Proof.
  unfold MCPFile. cbv zeta.
  destruct (is_binary_content _);
    [|destruct (read_text (to_path path)); try discriminate];
    try (destruct (read_bytes (to_path path)); [|discriminate]);
    (destruct (any_url _); [|discriminate]);
    intros [= <-]; eexists; reflexivity.
Qed.

(** *** MCPImage *)

(** [MCPImage] returns a message exactly when one of [path] and [data]
    is given and, for a path, the file can be read. *)
Theorem image_sources (path : option PathArg) (data : option bytes)
    mime_type role annotations :
  (exists m, MCPImage path data mime_type role annotations = Returned m) <->
  (path = None /\ data <> None) \/
  (exists a content, path = Some a /\ data = None /\
                     read_bytes (to_path a) = Returned content).
Proof.
  unfold MCPImage. destruct path as [a|], data as [d|]; split.
  - intros [m Hm]. discriminate Hm.
  - intros [[Hp _] | (a' & content & _ & Hd & _)]; discriminate.
  - intros [m Hm]. right.
    destruct (read_bytes (to_path a)) as [content | e] eqn:Hread;
      [|discriminate Hm].
    now exists a, content.
  - intros [[Hp _] | (a' & content & [= <-] & _ & Hread)]; [discriminate|].
    rewrite Hread. eexists. reflexivity.
  - intros _. left. split; [reflexivity | discriminate].
  - intros _. eexists. reflexivity.
  - intros [m Hm]. discriminate Hm.
  - intros [[_ Hd] | (a' & content & Hp & _)]; [congruence | discriminate].
Qed.

(** The image of [MCPImage] is the encoded data given or read from
    the path, and its MIME type is never empty: it is the type given
    unless that is missing or empty, else the type guessed from the path
    unless there is no path or the guess is empty, else [image/png]. *)
Theorem image_mime_precedence (path : option PathArg) (data : option bytes)
    mime_type role annotations m :
  MCPImage path data mime_type role annotations = Returned m ->
  exists content mime,
    m = message role (ImageContent (b64encode content) mime annotations) /\
    match path with
    | Some a => read_bytes (to_path a) = Returned content
    | None => data = Some content
    end /\
    mime <> "" /\
    mime = match mime_type with
           | Some (String c given) => String c given
           | _ =>
               match path with
               | Some a =>
                   match guess_mime_type (str_path (to_path a)) with
                   | EmptyString => "image/png"
                   | String c guessed => String c guessed
                   end
               | None => "image/png"
               end
           end.
Proof.
  unfold MCPImage. intros Hm.
  destruct path as [a|], data as [d|]; try discriminate Hm.
  - destruct (read_bytes (to_path a)) as [content | e]; [|discriminate Hm].
    injection Hm as <-. exists content. eexists.
    split; [reflexivity|]. split; [reflexivity|].
    split; [apply mime_or_truthy; discriminate|].
    destruct mime_type as [[|c given]|]; cbn; try reflexivity;
      now destruct (guess_mime_type _).
  - injection Hm as <-. exists d. eexists.
    split; [reflexivity|]. split; [reflexivity|].
    split; [apply mime_or_truthy; discriminate|].
    now destruct mime_type as [[|c given]|].
Qed.

(** *** MCPFile *)

(** The message of [MCPFile] embeds a resource whose URI is what the
    validation of the [uri] field makes of [file://] followed by the
    absolute path.  It is a text resource only for a MIME type that is
    not binary and a file that decodes, and then holds the text read;
    otherwise it is a blob of the encoded bytes of the file, also for a
    text file that does not decode. *)
Theorem file_resource_kind (path : PathArg) mime_type role annotations m :
  MCPFile path mime_type role annotations = Returned m ->
  exists resource,
    m = message role (EmbeddedResource resource annotations) /\
    any_url ("file://" ++ absolute (to_path path)) = UrlValue (uri_of resource) /\
    match resource with
    | TextResourceContents _ text mime =>
        is_binary_content mime = false /\ read_text (to_path path) = TextOk text
    | BlobResourceContents _ blob _ =>
        exists content,
          read_bytes (to_path path) = Returned content /\
          blob = b64encode content
    end.
Proof.
  unfold MCPFile. cbv zeta. intros Hm.
  destruct (is_binary_content _) eqn:Hbin.
  - destruct (read_bytes (to_path path)) as [content | e] eqn:Hread;
      [|discriminate Hm].
    destruct (any_url _) as [url | msg] eqn:Hurl; [|discriminate Hm].
    injection Hm as <-. eexists. repeat split. now exists content.
  - destruct (read_text (to_path path)) as [text | | e] eqn:Htext;
      try discriminate Hm.
    + destruct (any_url _) as [url | msg] eqn:Hurl; [|discriminate Hm].
      injection Hm as <-. eexists. repeat split; assumption.
    + destruct (read_bytes (to_path path)) as [content | e] eqn:Hread;
        [|discriminate Hm].
      destruct (any_url _) as [url | msg] eqn:Hurl; [|discriminate Hm].
      injection Hm as <-. eexists. repeat split. now exists content.
Qed.

(** *** MCPPrompt *)

(** The message made for one item. *)
Lemma message_of_item_returned (item : Item) (role : Role) (m : Dict) :
  message_of_item str_dict item role = Returned m ->
  made_for role item m /\ well_formed m.
Proof.
  assert (Himage : forall a, MCPImage (Some a) None None role None = Returned m ->
                     (exists c, m = message role c) /\ well_formed m).
  { intros a Hm. destruct (MCPImage_message _ _ _ _ _ _ Hm) as [c ->].
    split; [eexists; reflexivity | apply message_well_formed]. }
  assert (Hfile : forall a, MCPFile a None role None = Returned m ->
                    (exists c, m = message role c) /\ well_formed m).
  { intros a Hm. destruct (MCPFile_message _ _ _ _ _ Hm) as [c ->].
    split; [eexists; reflexivity | apply message_well_formed]. }
  unfold message_of_item, made_for, is_message.
  destruct item as [d | s | p | b | o]; cbv zeta.
  - destruct (has_key "role" d && has_key "content" d) eqn:Hkeys.
    + intros [= <-]. split; [reflexivity|].
      apply andb_true_iff in Hkeys. exact Hkeys.
    + intros [= <-]. split; [eexists; reflexivity | apply message_well_formed].
  - destruct (path_exists (path_of_str s)) as [[|] | e]; [| |discriminate].
    + destruct (is_image_mime_type _); [apply Himage | apply Hfile].
    + intros [= <-]. split; [eexists; reflexivity | apply message_well_formed].
  - destruct (is_image_mime_type _); [apply Himage | apply Hfile].
  - intros Hm. destruct (MCPImage_message _ _ _ _ _ _ Hm) as [c ->].
    split; [eexists; reflexivity | apply message_well_formed].
  - intros [= <-]. split; [eexists; reflexivity | apply message_well_formed].
Qed.

(** The loop started with [built] gives [built] followed by what it
    gives started with nothing. *)
Lemma prompt_loop_from (items : list Item) (role : Role) : forall built,
  prompt_loop str_dict items role built =
  match prompt_loop str_dict items role [] with
  | Returned new => Returned (built ++ new)%list
  | Raised e => Raised e
  end.
Proof.
  induction items as [|item items IH]; intros built; cbn [prompt_loop].
  - now rewrite app_nil_r.
  - destruct (message_of_item str_dict item role) as [m | e]; [|reflexivity].
    rewrite (IH (built ++ [m])%list), (IH ([] ++ [m])%list).
    destruct (prompt_loop str_dict items role []) as [new | e]; [|reflexivity].
    now rewrite <- app_assoc.
Qed.

(** [MCPPrompt], item by item. *)
Lemma MCPPrompt_cons (item : Item) (items : list Item) (role : Role) :
  MCPPrompt str_dict (item :: items) role =
  match message_of_item str_dict item role with
  | Raised e => Raised e
  | Returned m =>
      match MCPPrompt str_dict items role with
      | Returned new => Returned (m :: new)
      | Raised e => Raised e
      end
  end.
Proof.
  unfold MCPPrompt. cbn [prompt_loop].
  destruct (message_of_item str_dict item role) as [m | e]; [|reflexivity].
  now rewrite prompt_loop_from.
Qed.

(** [MCPPrompt] returns one message per item, in the order of the
    items, and every one of them has a role and a content. *)
Theorem prompt_messages_are_well_formed (items : list Item) (role : Role)
    (messages : list Dict) :
  MCPPrompt str_dict items role = Returned messages ->
  List.length messages = List.length items /\ Forall well_formed messages.
Proof.
  revert messages. induction items as [|item items IH]; intros messages.
  - intros [= <-]. split; [reflexivity | constructor].
  - rewrite MCPPrompt_cons.
    destruct (message_of_item str_dict item role) as [m | e] eqn:Hitem;
      [|discriminate].
    destruct (MCPPrompt str_dict items role) as [new | e]; [|discriminate].
    intros [= <-]. destruct (IH new eq_refl) as [Hlen Hall].
    destruct (message_of_item_returned item role m Hitem) as [_ Hwf].
    split; [cbn; now rewrite Hlen | now constructor].
Qed.

(** The [role] argument of [MCPPrompt] is the role of every message it
    makes, and of no other: an item that is a message already (a [dict]
    with a role and a content) is handed back unchanged, its own role
    kept. *)
Theorem prompt_roles (items : list Item) (role : Role) (messages : list Dict) :
  MCPPrompt str_dict items role = Returned messages ->
  Forall2 (made_for role) items messages.
Proof.
  revert messages. induction items as [|item items IH]; intros messages.
  - intros [= <-]. constructor.
  - rewrite MCPPrompt_cons.
    destruct (message_of_item str_dict item role) as [m | e] eqn:Hitem;
      [|discriminate].
    destruct (MCPPrompt str_dict items role) as [new | e]; [|discriminate].
    intros [= <-].
    destruct (message_of_item_returned item role m Hitem) as [Hmade _].
    constructor; [assumption | now apply IH].
Qed.

(** [MCPPrompt] of a concatenation is the concatenation of the two
    results, and the first failure is the failure of the whole. *)
Theorem prompt_concatenation (items more : list Item) (role : Role) :
  MCPPrompt str_dict (items ++ more) role =
  match MCPPrompt str_dict items role with
  | Raised e => Raised e
  | Returned first =>
      match MCPPrompt str_dict more role with
      | Raised e => Raised e
      | Returned second => Returned (first ++ second)%list
      end
  end.
Proof.
  induction items as [|item items IH].
  - cbn [app]. change (MCPPrompt str_dict [] role) with (@Returned (list Dict) []).
    now destruct (MCPPrompt str_dict more role).
  - cbn [app]. rewrite !MCPPrompt_cons, IH.
    destruct (message_of_item str_dict item role) as [m | e]; [|reflexivity].
    destruct (MCPPrompt str_dict items role) as [first | e]; [|reflexivity].
    now destruct (MCPPrompt str_dict more role).
Qed.

(** An item fails only on the path it names. *)
Lemma message_of_item_raised (item : Item) (role : Role) (e : exn) :
  message_of_item str_dict item role = Raised e -> item_failed item e.
Proof.
  assert (Himage : forall a, MCPImage (Some a) None None role None = Raised e ->
                     file_failed (to_path a) e).
  { intros a. unfold MCPImage, file_failed.
    destruct (read_bytes (to_path a)); [discriminate|]. intros [= <-]. now left. }
  assert (Hfile : forall a, MCPFile a None role None = Raised e ->
                    file_failed (to_path a) e).
  { intros a. unfold MCPFile, file_failed. cbv zeta.
    destruct (is_binary_content _).
    - destruct (read_bytes (to_path a)); [|intros [= <-]; now left].
      destruct (any_url _) as [url | msg] eqn:Hurl; [discriminate|].
      intros [= <-]. right. right. now exists msg.
    - destruct (read_text (to_path a)) as [text | | e'] eqn:Htext;
        [| | intros [= <-]; right; now left].
      + destruct (any_url _) as [url | msg] eqn:Hurl; [discriminate|].
        intros [= <-]. right. right. now exists msg.
      + destruct (read_bytes (to_path a)); [|intros [= <-]; now left].
        destruct (any_url _) as [url | msg] eqn:Hurl; [discriminate|].
        intros [= <-]. right. right. now exists msg. }
  unfold message_of_item, item_failed.
  destruct item as [d | s | p | b | o]; cbv zeta.
  - destruct (has_key "role" d && has_key "content" d); discriminate.
  - destruct (path_exists (path_of_str s)) as [[|] | e'];
      [| discriminate | intros [= <-]; now left].
    intros Hm. right. split; [reflexivity|].
    destruct (is_image_mime_type _);
      [exact (Himage (PathStr s) Hm) | exact (Hfile (PathStr s) Hm)].
  - intros Hm.
    destruct (is_image_mime_type _);
      [exact (Himage (PathObj p) Hm) | exact (Hfile (PathObj p) Hm)].
  - discriminate.
  - discriminate.
Qed.

(** [MCPPrompt] fails only on a path: when it raises [e], one of the
    items is a [str] or a [Path], and [e] was raised by the check whether
    the [str] names an existing path, by reading the file, or by the
    validation of the URI of the file.  [bytes], [dict]s and other
    objects never make it fail; a [str] can, before it is known to name a
    file. *)
Theorem prompt_fails_on_paths_only (items : list Item) (role : Role) (e : exn) :
  MCPPrompt str_dict items role = Raised e ->
  exists item, In item items /\ item_failed item e.
Proof.
  induction items as [|item items IH].
  - discriminate.
  - rewrite MCPPrompt_cons.
    destruct (message_of_item str_dict item role) as [m | e'] eqn:Hitem.
    + destruct (MCPPrompt str_dict items role) as [new | e'']; [discriminate|].
      intros [= <-]. destruct (IH eq_refl) as (item' & Hin & Hfail).
      exists item'. split; [now right | assumption].
    + intros [= <-]. exists item. split; [now left|].
      exact (message_of_item_raised item role e' Hitem).
Qed.

(** *** create_message *)

(** [create_message] never returns the empty [dict] of its last line:
    what it returns has a role and a content, and is the content itself
    when that is a message already. *)
Theorem create_message_is_never_empty (content : Item) (role : Role) (m : Dict) :
  create_message str_dict content role = Returned m ->
  well_formed m /\ made_for role content m.
Proof.
  unfold create_message. rewrite MCPPrompt_cons.
  destruct (message_of_item str_dict content role) as [m' | e] eqn:Hitem;
    [|discriminate].
  change (MCPPrompt str_dict [] role) with (@Returned (list Dict) []).
  intros [= <-].
  destruct (message_of_item_returned content role m' Hitem) as [Hmade Hwf].
  now split.
Qed.

End Facts.

(** ** On the small environment *)

Example demo_prompt :
  MCPPrompt demo_str_dict demo_items user = Returned demo_messages /\
  List.length demo_messages = 7%nat.
Proof. split; reflexivity. Qed.

Example demo_message_keeps_its_role :
  nth_error demo_messages 1
  = Some [("role", DRole assistant); ("content", @DOther demo_env 3%nat)].
Proof. reflexivity. Qed.

Example demo_undecodable_file_is_a_blob :
  @MCPFile demo_env (PathStr "logo.png") (Some "text/plain") user None
  = Returned (message user
                (@EmbeddedResource demo_env
                   (@BlobResourceContents demo_env "file:///work/logo.png"
                      "aGk=" "text/plain")
                   None)).
Proof. reflexivity. Qed.

Example demo_uri_is_encoded :
  @MCPFile demo_env (PathStr "my notes.txt") None user None
  = Returned (message user
                (@EmbeddedResource demo_env
                   (@TextResourceContents demo_env "file:///work/my%20notes.txt"
                      "hi" "text/plain")
                   None)).
Proof. reflexivity. Qed.

Example demo_long_text_fails :
  MCPPrompt demo_str_dict [demo_long_text] assistant
  = Raised (OSError "[Errno 36] File name too long").
Proof. vm_compute. reflexivity. Qed.

Lemma image_mime_precedence_witness :
  @MCPImage demo_env (Some (PathStr "logo.png")) None (Some "") user None
    = Returned (message user (ImageContent "aGk=" "image/png" None)) /\
  exists content mime,
    message user (ImageContent "aGk=" "image/png" None)
      = message user
          (@ImageContent demo_env (@b64encode demo_env content) mime None) /\
    @read_bytes demo_env (to_path (PathStr "logo.png")) = Returned content /\
    mime <> "" /\
    mime = match @guess_mime_type demo_env
                   (@str_path demo_env (to_path (PathStr "logo.png"))) with
           | EmptyString => "image/png"
           | String c guessed => String c guessed
           end.
Proof.
  assert (H1 : @MCPImage demo_env (Some (PathStr "logo.png")) None (Some "")
                 user None
               = Returned (message user (ImageContent "aGk=" "image/png" None)))
    by reflexivity.
  split; [exact H1|].
  exact (@image_mime_precedence demo_env _ _ _ _ _ _ H1).
Defined.

Lemma file_resource_kind_witness :
  @MCPFile demo_env (PathStr "my notes.txt") None user None
    = Returned (message user
                  (@EmbeddedResource demo_env
                     (@TextResourceContents demo_env
                        "file:///work/my%20notes.txt" "hi" "text/plain")
                     None)) /\
  exists resource,
    message user
      (@EmbeddedResource demo_env
         (@TextResourceContents demo_env
            "file:///work/my%20notes.txt" "hi" "text/plain") None)
      = message user (@EmbeddedResource demo_env resource None) /\
    @any_url demo_env
      ("file://" ++ @absolute demo_env (to_path (PathStr "my notes.txt")))
      = UrlValue (uri_of resource) /\
    match resource with
    | TextResourceContents _ text mime =>
        @is_binary_content demo_env mime = false /\
        @read_text demo_env (to_path (PathStr "my notes.txt")) = TextOk text
    | BlobResourceContents _ blob _ =>
        exists content,
          @read_bytes demo_env (to_path (PathStr "my notes.txt"))
            = Returned content /\
          blob = @b64encode demo_env content
    end.
Proof.
  assert (H1 : @MCPFile demo_env (PathStr "my notes.txt") None user None
               = Returned (message user
                             (@EmbeddedResource demo_env
                                (@TextResourceContents demo_env
                                   "file:///work/my%20notes.txt"
                                   "hi" "text/plain") None)))
    by reflexivity.
  split; [exact H1|].
  exact (@file_resource_kind demo_env _ _ _ _ _ H1).
Defined.

Lemma prompt_messages_are_well_formed_witness :
  MCPPrompt demo_str_dict demo_items user = Returned demo_messages /\
  List.length demo_messages = List.length demo_items /\
  Forall well_formed demo_messages.
Proof.
  assert (H1 : MCPPrompt demo_str_dict demo_items user = Returned demo_messages)
    by reflexivity.
  split; [exact H1|].
  exact (@prompt_messages_are_well_formed demo_env demo_str_dict _ _ _ H1).
Defined.

Lemma prompt_roles_witness :
  MCPPrompt demo_str_dict demo_items user = Returned demo_messages /\
  Forall2 (made_for user) demo_items demo_messages.
Proof.
  assert (H1 : MCPPrompt demo_str_dict demo_items user = Returned demo_messages)
    by reflexivity.
  split; [exact H1|].
  exact (@prompt_roles demo_env demo_str_dict _ _ _ H1).
Defined.

Lemma prompt_fails_on_paths_only_witness :
  MCPPrompt demo_str_dict (demo_items ++ [demo_long_text; demo_missing]) user
    = Raised (OSError "[Errno 36] File name too long") /\
  exists item,
    In item (demo_items ++ [demo_long_text; demo_missing]) /\
    item_failed item (OSError "[Errno 36] File name too long").
Proof.
  assert (H1 : MCPPrompt demo_str_dict
                 (demo_items ++ [demo_long_text; demo_missing]) user
               = Raised (OSError "[Errno 36] File name too long"))
    by (vm_compute; reflexivity).
  split; [exact H1|].
  exact (@prompt_fails_on_paths_only demo_env demo_str_dict _ _ _ H1).
Defined.

Lemma create_message_is_never_empty_witness :
  create_message demo_str_dict (ItemStr "hello" : @Item demo_env) assistant
    = Returned (MCPText "hello" assistant None) /\
  well_formed (@MCPText demo_env "hello" assistant None) /\
  made_for assistant (ItemStr "hello" : @Item demo_env)
    (MCPText "hello" assistant None).
Proof.
  assert (H1 : create_message demo_str_dict (ItemStr "hello" : @Item demo_env)
                 assistant
               = Returned (MCPText "hello" assistant None)) by reflexivity.
  split; [exact H1|].
  exact (@create_message_is_never_empty demo_env demo_str_dict _ _ _ H1).
Defined.

End McpContentFacts.
